(** * FCN-32s / FCN-16s / FCN-8s decoders (models/fcn.py)

    A shallow embedding of [models/fcn.py]: the three fully-convolutional
    segmentation networks, their prediction head and the model factories,
    together with the part of [torch.nn] they are written against.

    - Scalars are kept abstract ([Scalar]): the tensor element type with the
      arithmetic the layers use.  Nothing below depends on rounding.
    - A tensor is a 4-D array [batch, channels, height, width] with an explicit
      shape, as in PyTorch.
    - Exceptions are values of [exn]; a computation that may raise and that may
      touch the outside world (random number generator, file system, the
      backbone constructor) lives in the monad [M].
    - What [fcn.py] imports from the rest of the repository ([models.vgg],
      [models.model_store], [data_loader]) is collected in [Externals].
    - The methods [_initialize_weights] are called nowhere in [fcn.py] and are
      left out. *)

From stdpp Require Import base list strings gmap.
From Stdlib Require Import ZArith.

Set Default Proof Using "Type".

(** ** Exceptions and results *)

Inductive exn : Type :=
  | RuntimeError (msg : string)
  | KeyError (key : string)
  | ValueError (msg : string)
  | OtherError (msg : string).

Inductive Result (A : Type) : Type :=
  | Ok (a : A)
  | Raise (e : exn).
Arguments Ok {A} a.
Arguments Raise {A} e.

(** ** Scalars *)

(** The element type of a tensor.  [rfrac a b] is the scalar for the ratio
    [a / b] of two natural numbers (in binary): interpolation weights and the
    literal constants (0.1, 1e-5) are written with it. *)
Class Scalar (R : Type) : Type := {
  rzero : R;
  rone : R;
  radd : R -> R -> R;
  rsub : R -> R -> R;
  rmul : R -> R -> R;
  rdiv : R -> R -> R;
  rsqrt : R -> R;
  rmax : R -> R -> R;
  rfrac : N -> N -> R
}.

(** ** Tensors *)

Record Shape : Type := mkShape { dN : nat; dC : nat; dH : nat; dW : nat }.

Definition tabulate {A : Type} (n : nat) (f : nat -> A) : list A :=
  map f (seq 0 n).

Section Tensors.
Context {R : Type} `{Scalar R}.

Record Tensor : Type := mkTensor {
  shape : Shape;
  data : list (list (list (list R)))
}.

(** The tensor of shape [s] whose entry at [n, c, i, j] is [f n c i j]. *)
Definition tmk (s : Shape) (f : nat -> nat -> nat -> nat -> R) : Tensor :=
  {| shape := s;
     data := tabulate (dN s) (fun n => tabulate (dC s) (fun c =>
               tabulate (dH s) (fun i => tabulate (dW s) (fun j => f n c i j)))) |}.

Definition plane_get (p : list (list R)) (i j : nat) : R :=
  nth j (nth i p []) rzero.

Definition tget (t : Tensor) (n c i j : nat) : R :=
  plane_get (nth c (nth n (data t) []) []) i j.

Definition vget (v : list R) (c : nat) : R := nth c v rzero.

(** [x.size()[2:]] *)
Definition size_hw (t : Tensor) : nat * nat := (dH (shape t), dW (shape t)).

Definition rsum (l : list R) : R := fold_left radd l rzero.

(** The nesting of [data] agrees with [shape]. *)
Definition wf_tensor (t : Tensor) : Prop :=
  length (data t) = dN (shape t) /\
  Forall (fun img => length img = dC (shape t) /\
    Forall (fun pl => length pl = dH (shape t) /\
      Forall (fun row => length row = dW (shape t)) pl) img) (data t).

(** *** Elementwise addition, [a + b], with PyTorch broadcasting *)

Definition bdim (a b : nat) : option nat :=
  if decide (a = b) then Some a
  else if decide (a = 1) then Some b
  else if decide (b = 1) then Some a
  else None.

Definition bidx (d i : nat) : nat := if decide (d = 1) then 0 else i.

Definition tadd (a b : Tensor) : Result Tensor :=
  let sa := shape a in
  let sb := shape b in
  match bdim (dN sa) (dN sb), bdim (dC sa) (dC sb),
        bdim (dH sa) (dH sb), bdim (dW sa) (dW sb) with
  | Some n, Some c, Some h, Some w =>
      Ok (tmk (mkShape n c h w) (fun n c i j =>
            radd (tget a (bidx (dN sa) n) (bidx (dC sa) c) (bidx (dH sa) i) (bidx (dW sa) j))
                 (tget b (bidx (dN sb) n) (bidx (dC sb) c) (bidx (dH sb) i) (bidx (dW sb) j))))
  | _, _, _, _ =>
      Raise (RuntimeError "The size of tensor a must match the size of tensor b")
  end.

Definition zeros_like (t : Tensor) : Tensor :=
  tmk (shape t) (fun _ _ _ _ => rzero).

(** *** [F.interpolate(x, size, mode='bilinear', align_corners=True)] *)

(** Source coordinate of output index [i] when [n_in] samples are stretched to
    [n_out] with the corner samples kept in place: [i * (n_in-1) / (n_out-1)],
    split into its integer part, the next index (clamped) and the weight of
    the latter. *)
Definition src_index (n_in n_out i : nat) : nat * nat * R :=
  if decide (n_out <= 1) then (0, (if decide (1 < n_in) then 1 else 0), rzero)
  else
    let num := i * (n_in - 1) in
    let den := n_out - 1 in
    let i0 := num / den in
    let i1 := if decide (i0 < n_in - 1) then i0 + 1 else i0 in
    (i0, i1, rfrac (N.of_nat (num mod den)) (N.of_nat den)).

Definition interpolate (x : Tensor) (size : nat * nat) : Result Tensor :=
  let '(oh, ow) := size in
  let s := shape x in
  if decide (dH s = 0 \/ dW s = 0 \/ oh = 0 \/ ow = 0) then
    Raise (RuntimeError "Input and output sizes should be greater than 0")
  else
    Ok (tmk (mkShape (dN s) (dC s) oh ow) (fun n c i j =>
      let '(i0, i1, li) := src_index (dH s) oh i in
      let '(j0, j1, lj) := src_index (dW s) ow j in
      let p := nth c (nth n (data x) []) [] in
      radd (rmul (rsub rone li)
                 (radd (rmul (rsub rone lj) (plane_get p i0 j0))
                       (rmul lj (plane_get p i0 j1))))
           (rmul li
                 (radd (rmul (rsub rone lj) (plane_get p i1 j0))
                       (rmul lj (plane_get p i1 j1)))))).

End Tensors.
Arguments Tensor R : clear implicits.

(** ** Layers of [torch.nn] *)

Section Layers.
Context {R : Type} `{Scalar R}.

(** *** [nn.Conv2d] (stride 1, dilation 1, one group: the defaults, the only
    ones used here).  The channel counts and the kernel size are those of the
    weight, of shape [out_channels, in_channels, kH, kW]. *)
Record Conv2d : Type := mkConv2d {
  conv_weight : Tensor R;
  conv_bias : option (list R);
  conv_padding : nat
}.

Definition conv_out_channels (cv : Conv2d) : nat := dN (shape (conv_weight cv)).
Definition conv_in_channels (cv : Conv2d) : nat := dC (shape (conv_weight cv)).
Definition conv_kernel_size (cv : Conv2d) : nat * nat := size_hw (conv_weight cv).

(** Entry [a, b] of a plane of size [h, w] that was zero-padded by [p] on
    every side. *)
Definition padded (xc : list (list R)) (p h w a b : nat) : R :=
  if decide ((p <= a /\ a < p + h) /\ (p <= b /\ b < p + w))
  then plane_get xc (a - p) (b - p) else rzero.

Definition window_dot (xc wc : list (list R)) (p h w kh kw i j : nat) : R :=
  rsum (flat_map (fun di => map (fun dj =>
          rmul (plane_get wc di dj) (padded xc p h w (i + di) (j + dj)))
        (seq 0 kw)) (seq 0 kh)).

Definition conv2d_forward (cv : Conv2d) (x : Tensor R) : Result (Tensor R) :=
  let w := conv_weight cv in
  let p := conv_padding cv in
  let s := shape x in
  let '(kh, kw) := conv_kernel_size cv in
  if decide (dC s <> conv_in_channels cv) then
    Raise (RuntimeError "Given weight, expected input to have a different number of channels")
  else if decide (dH s + 2 * p < kh \/ dW s + 2 * p < kw) then
    Raise (RuntimeError "Kernel size can't be greater than actual input size")
  else
    Ok (tmk (mkShape (dN s) (conv_out_channels cv)
                     (dH s + 2 * p - kh + 1) (dW s + 2 * p - kw + 1))
         (fun n o i j =>
            let acc := rsum (zip_with (fun xc wc => window_dot xc wc p (dH s) (dW s) kh kw i j)
                                      (nth n (data x) []) (nth o (data w) [])) in
            match conv_bias cv with
            | Some b => radd acc (vget b o)
            | None => acc
            end)).

(** *** [nn.BatchNorm2d] *)
Record BatchNorm2d : Type := mkBatchNorm2d {
  bn_weight : list R;
  bn_bias : list R;
  bn_running_mean : list R;
  bn_running_var : list R;
  bn_num_batches_tracked : nat;
  bn_eps : R;
  bn_momentum : R;
  bn_training : bool
}.

Definition bn_num_features (b : BatchNorm2d) : nat := length (bn_running_mean b).

Definition normalize (b : BatchNorm2d) (mean var : list R) (x : Tensor R) : Tensor R :=
  tmk (shape x) (fun n c i j =>
    radd (rmul (rdiv (rsub (tget x n c i j) (vget mean c))
                     (rsqrt (radd (vget var c) (bn_eps b))))
               (vget (bn_weight b) c))
         (vget (bn_bias b) c)).

(** All values of channel [c], over the batch and both spatial axes. *)
Definition channel_values (x : Tensor R) (c : nat) : list R :=
  concat (map (fun img => concat (nth c img [])) (data x)).

Definition batch_mean (x : Tensor R) (count c : nat) : R :=
  rdiv (rsum (channel_values x c)) (rfrac (N.of_nat count) 1).

Definition batch_sqdev (x : Tensor R) (count c : nat) : R :=
  let m := batch_mean x count c in
  rsum (map (fun v => rmul (rsub v m) (rsub v m)) (channel_values x c)).

Definition running_update (momentum : R) (old new : list R) : list R :=
  zip_with (fun o n => radd (rmul (rsub rone momentum) o) (rmul momentum n)) old new.

Definition bn_forward (b : BatchNorm2d) (x : Tensor R) : Result (Tensor R * BatchNorm2d) :=
  let s := shape x in
  if decide (dC s <> bn_num_features b) then
    Raise (RuntimeError "running_mean should contain as many elements as the input has channels")
  else if bn_training b then
    let count := dN s * (dH s * dW s) in
    if decide (count = 1) then
      Raise (ValueError "Expected more than 1 value per channel when training")
    else
      let mean := tabulate (dC s) (batch_mean x count) in
      let var := tabulate (dC s) (fun c => rdiv (batch_sqdev x count c) (rfrac (N.of_nat count) 1)) in
      let uvar := tabulate (dC s) (fun c => rdiv (batch_sqdev x count c) (rfrac (N.of_nat (count - 1)) 1)) in
      Ok (normalize b mean var x,
          {| bn_weight := bn_weight b;
             bn_bias := bn_bias b;
             bn_running_mean := running_update (bn_momentum b) (bn_running_mean b) mean;
             bn_running_var := running_update (bn_momentum b) (bn_running_var b) uvar;
             bn_num_batches_tracked := S (bn_num_batches_tracked b);
             bn_eps := bn_eps b;
             bn_momentum := bn_momentum b;
             bn_training := true |})
  else
    Ok (normalize b (bn_running_mean b) (bn_running_var b) x, b).

(** *** [nn.ReLU] *)
Definition relu (x : Tensor R) : Tensor R :=
  tmk (shape x) (fun n c i j => rmax (tget x n c i j) rzero).

(** *** [nn.Dropout] *)
Record Dropout : Type := mkDropout {
  drop_p : R;
  drop_inplace : bool;
  drop_training : bool
}.

(** Training-mode dropout: the entries where [keep] is false are zeroed, the
    others are scaled by [1 / (1 - p)]. *)
Definition dropout_apply (p : R) (keep : nat -> nat -> nat -> nat -> bool)
    (x : Tensor R) : Tensor R :=
  tmk (shape x) (fun n c i j =>
    rmul (tget x n c i j)
         (if keep n c i j then rdiv rone (rsub rone p) else rzero)).

(** *** [nn.MaxPool2d] (no padding, floor mode) *)
Record MaxPool2d : Type := mkMaxPool2d {
  pool_kernel : nat;
  pool_stride : nat
}.

Definition rmaximum (l : list R) : R :=
  match l with
  | [] => rzero
  | v :: l' => fold_left rmax l' v
  end.

Definition maxpool_forward (mp : MaxPool2d) (x : Tensor R) : Result (Tensor R) :=
  let k := pool_kernel mp in
  let st := pool_stride mp in
  let s := shape x in
  if decide (k = 0 \/ st = 0) then
    Raise (RuntimeError "kernel size and stride should be greater than zero")
  else if decide (dH s < k \/ dW s < k) then
    Raise (RuntimeError "Output size is too small")
  else
    Ok (tmk (mkShape (dN s) (dC s) ((dH s - k) / st + 1) ((dW s - k) / st + 1))
         (fun n c i j =>
            let p := nth c (nth n (data x) []) [] in
            rmaximum (flat_map (fun di => map (fun dj =>
                        plane_get p (i * st + di) (j * st + dj)) (seq 0 k)) (seq 0 k)))).

(** *** A module of an [nn.Sequential] *)
Inductive Layer : Type :=
  | LConv2d (cv : Conv2d)
  | LBatchNorm2d (b : BatchNorm2d)
  | LReLU (inplace : bool)
  | LDropout (d : Dropout)
  | LMaxPool2d (mp : MaxPool2d).

(** [Module.train(mode)]: only batch normalisation and dropout behave
    differently in the two modes. *)
Definition layer_train (mode : bool) (l : Layer) : Layer :=
  match l with
  | LBatchNorm2d b =>
      LBatchNorm2d {| bn_weight := bn_weight b; bn_bias := bn_bias b;
                      bn_running_mean := bn_running_mean b;
                      bn_running_var := bn_running_var b;
                      bn_num_batches_tracked := bn_num_batches_tracked b;
                      bn_eps := bn_eps b; bn_momentum := bn_momentum b;
                      bn_training := mode |}
  | LDropout d =>
      LDropout {| drop_p := drop_p d; drop_inplace := drop_inplace d;
                  drop_training := mode |}
  | _ => l
  end.

Definition layer_training (l : Layer) : bool :=
  match l with
  | LBatchNorm2d b => bn_training b
  | LDropout d => drop_training d
  | _ => false
  end.

End Layers.
Arguments Conv2d R : clear implicits.
Arguments BatchNorm2d R : clear implicits.
Arguments Dropout R : clear implicits.
Arguments Layer R : clear implicits.

(** ** The networks as data *)

Section Model.
Context {R : Type} `{Scalar R}.

(** [_FCNHead]: its only attribute is the [nn.Sequential] called [block]. *)
Record _FCNHead : Type := mkFCNHead { block : list (Layer R) }.

(** [self.auxlayer] exists only when the constructor was given [aux=True]. *)
Record FCN32s : Type := mkFCN32s {
  FCN32s_aux : bool;
  FCN32s_features : list (Layer R);
  FCN32s_head : _FCNHead;
  FCN32s_auxlayer : option _FCNHead
}.

(** [self.pool4] and [self.pool5] are built from slices of [self.features]:
    they hold the very same module objects.  The record therefore stores the
    layer sequence once, and the two sub-networks are views of it
    ([FCN16s_pool4], [FCN16s_pool5] below). *)
Record FCN16s : Type := mkFCN16s {
  FCN16s_aux : bool;
  FCN16s_features : list (Layer R);
  FCN16s_head : _FCNHead;
  FCN16s_score_pool4 : Conv2d R;
  FCN16s_auxlayer : option _FCNHead
}.

Record FCN8s : Type := mkFCN8s {
  FCN8s_aux : bool;
  FCN8s_features : list (Layer R);
  FCN8s_head : _FCNHead;
  FCN8s_score_pool3 : Conv2d R;
  FCN8s_score_pool4 : Conv2d R;
  FCN8s_auxlayer : option _FCNHead
}.

(** Python slices [l[:b]], [l[a:b]] and [l[a:]] for [0 <= a <= b]; they clamp
    at the end of the list. *)
Definition slice_to {A : Type} (b : nat) (l : list A) : list A := take b l.
Definition slice {A : Type} (a b : nat) (l : list A) : list A := take (b - a) (drop a l).
Definition slice_from {A : Type} (a : nat) (l : list A) : list A := drop a l.

(** The sequential containers over [self.features[:24]] and [self.features[24:]]. *)
Definition FCN16s_pool4 (m : FCN16s) : list (Layer R) := slice_to 24 (FCN16s_features m).
Definition FCN16s_pool5 (m : FCN16s) : list (Layer R) := slice_from 24 (FCN16s_features m).

(** [features[:17]], [features[17:24]], [features[24:]] *)
Definition FCN8s_pool3 (m : FCN8s) : list (Layer R) := slice_to 17 (FCN8s_features m).
Definition FCN8s_pool4 (m : FCN8s) : list (Layer R) := slice 17 24 (FCN8s_features m).
Definition FCN8s_pool5 (m : FCN8s) : list (Layer R) := slice_from 24 (FCN8s_features m).

(** ** The outside world *)

(** Calls that leave [fcn.py], recorded in the order they are made. *)
Inductive Event : Type :=
  | EvVgg16 (pretrained : bool)
  | EvGetModelFile (name root : string)
  | EvTorchLoad (path : string)
  | EvLoadStateDict.

(** What [fcn.py] takes from outside: the backbone constructor of
    [models.vgg] (of which only [.features] is kept), the registry
    [data_loader.datasets] (each dataset reduced to its [NUM_CLASS]), the model
    store, [torch.load], [Module.load_state_dict] and the random number
    generator of [torch].  [Ext] is the state these calls may read and
    change. *)
Record Externals : Type := mkExternals {
  Ext : Type;
  StateDict : Type;
  ext_vgg16 : bool -> Ext -> Result (list (Layer R)) * Ext;
  ext_datasets : gmap string nat;
  ext_get_model_file : string -> string -> Ext -> Result string * Ext;
  ext_torch_load : string -> Ext -> Result StateDict * Ext;
  ext_load_state_dict32 : FCN32s -> StateDict -> Result FCN32s;
  ext_load_state_dict16 : FCN16s -> StateDict -> Result FCN16s;
  ext_load_state_dict8 : FCN8s -> StateDict -> Result FCN8s;
  ext_rand : Ext -> (nat -> nat -> nat -> nat -> R) * Ext;
  ext_bernoulli : R -> Shape -> Ext -> (nat -> nat -> nat -> nat -> bool) * Ext
}.

Context (E : Externals).

Record World : Type := mkWorld { trace : list Event; ext : Ext E }.

(** A computation: it returns or raises, and leaves a world behind in both
    cases. *)
Definition M (A : Type) : Type := World -> Result A * World.

Definition ret {A : Type} (a : A) : M A := fun w => (Ok a, w).

Definition raise {A : Type} (e : exn) : M A := fun w => (Raise e, w).

Definition bind {A B : Type} (m : M A) (k : A -> M B) : M B :=
  fun w => match m w with
           | (Ok a, w') => k a w'
           | (Raise e, w') => (Raise e, w')
           end.

Definition lift {A : Type} (r : Result A) : M A := fun w => (r, w).

Definition log (ev : Event) : M unit :=
  fun w => (Ok tt, {| trace := trace w ++ [ev]; ext := ext w |}).

Definition call {A : Type} (f : Ext E -> Result A * Ext E) : M A :=
  fun w => let '(r, e') := f (ext w) in (r, {| trace := trace w; ext := e' |}).

Definition draw {A : Type} (f : Ext E -> A * Ext E) : M A :=
  fun w => let '(a, e') := f (ext w) in (Ok a, {| trace := trace w; ext := e' |}).

End Model.

Arguments _FCNHead R : clear implicits.
Arguments FCN32s R : clear implicits.
Arguments FCN16s R : clear implicits.
Arguments FCN8s R : clear implicits.
Arguments Externals R : clear implicits.
Arguments trace {R E} w.
Arguments ext {R E} w.
Arguments ret {R E A} a.
Arguments raise {R E A} e.
Arguments bind {R E A B} m k.
Arguments lift {R E A} r.
Arguments log {R E} ev.
Arguments call {R E A} f.
Arguments draw {R E A} f.

Notation "'let*' x ':=' e 'in' k" := (bind e (fun x => k))
  (at level 10, x name, e at level 100, k at level 200).
Notation "'let*' ' pat ':=' e 'in' k" := (bind e (fun x => match x with pat => k end))
  (at level 10, pat pattern, e at level 100, k at level 200).

(** ** Running the layers *)

Section Forward.
Context {R : Type} `{Scalar R} (E : Externals R).

(** What a module call leaves behind.  Tensors are objects: a layer built with
    [inplace=True] overwrites its argument and returns it, and dropout in
    evaluation mode returns its argument as it is.  [s_out] is the returned
    tensor, [s_arg] the content of the argument object after the call, and
    [s_same] tells whether the returned tensor is that same object. *)
Record Step : Type := mkStep {
  s_out : Tensor R;
  s_arg : Tensor R;
  s_same : bool
}.

Definition fresh (y x : Tensor R) : Step := {| s_out := y; s_arg := x; s_same := false |}.
Definition same (y : Tensor R) : Step := {| s_out := y; s_arg := y; s_same := true |}.

Definition layer_forward (l : Layer R) (x : Tensor R) : M E (Layer R * Step) :=
  match l with
  | LConv2d cv =>
      let* y := lift (conv2d_forward cv x) in
      ret (l, fresh y x)
  | LBatchNorm2d b =>
      let* '(y, b') := lift (bn_forward b x) in
      ret (LBatchNorm2d b', fresh y x)
  | LReLU inplace =>
      ret (l, if inplace then same (relu x) else fresh (relu x) x)
  | LDropout d =>
      if drop_training d then
        let* keep := draw (ext_bernoulli E (drop_p d) (shape x)) in
        let y := dropout_apply (drop_p d) keep x in
        ret (l, if drop_inplace d then same y else fresh y x)
      else ret (l, same x)
  | LMaxPool2d mp =>
      let* y := lift (maxpool_forward mp x) in
      ret (l, fresh y x)
  end.

(** [nn.Sequential.forward]: the modules in order, each on the result of the
    one before.  When the first module returned its argument object, what the
    later modules do to that object is also done to the caller's tensor. *)
Fixpoint seq_forward (ls : list (Layer R)) (x : Tensor R) : M E (list (Layer R) * Step) :=
  match ls with
  | [] => ret ([], same x)
  | l :: ls' =>
      let* '(l', st) := layer_forward l x in
      let* '(ls'', st') := seq_forward ls' (s_out st) in
      ret (l' :: ls'',
           {| s_out := s_out st';
              s_arg := if s_same st then s_arg st' else s_arg st;
              s_same := s_same st && s_same st' |})
  end.

Definition seq_train (mode : bool) (ls : list (Layer R)) : list (Layer R) :=
  map (layer_train mode) ls.

(** ** [_FCNHead] *)

(** [nn.Conv2d(in_channels, out_channels, kernel_size, padding=.., bias=..)]:
    weight and bias start from random values. *)
Definition Conv2d_init (in_channels out_channels kernel_size padding : nat) (bias : bool)
    : M E (Conv2d R) :=
  let* w := draw (ext_rand E) in
  let* b := if bias
            then let* f := draw (ext_rand E) in
                 ret (Some (tabulate out_channels (fun o => f o 0 0 0)))
            else ret None in
  ret {| conv_weight := tmk (mkShape out_channels in_channels kernel_size kernel_size) w;
         conv_bias := b;
         conv_padding := padding |}.

(** [nn.BatchNorm2d(num_features)] *)
Definition BatchNorm2d_init (num_features : nat) : BatchNorm2d R :=
  {| bn_weight := repeat rone num_features;
     bn_bias := repeat rzero num_features;
     bn_running_mean := repeat rzero num_features;
     bn_running_var := repeat rone num_features;
     bn_num_batches_tracked := 0;
     bn_eps := rfrac 1 100000;
     bn_momentum := rfrac 1 10;
     bn_training := true |}.

(** [nn.Dropout(p)] *)
Definition Dropout_init (p : R) : Dropout R :=
  {| drop_p := p; drop_inplace := false; drop_training := true |}.

Definition _FCNHead_init (in_channels channels : nat) : M E (_FCNHead R) :=
  let inter_channels := in_channels / 4 in
  let* conv1 := Conv2d_init in_channels inter_channels 3 1 false in
  let* conv2 := Conv2d_init inter_channels channels 1 0 true in
  ret {| block := [ LConv2d conv1;
                    LBatchNorm2d (BatchNorm2d_init inter_channels);
                    LReLU true;
                    LDropout (Dropout_init (rfrac 1 10));
                    LConv2d conv2 ] |}.

Definition _FCNHead_forward (h : _FCNHead R) (x : Tensor R) : M E (_FCNHead R * Step) :=
  let* '(b', st) := seq_forward (block h) x in
  ret ({| block := b' |}, st).

Definition _FCNHead_train (mode : bool) (h : _FCNHead R) : _FCNHead R :=
  {| block := seq_train mode (block h) |}.

End Forward.

(** ** The three networks *)

Section Networks.
Context {R : Type} `{Scalar R} (E : Externals R).

(** [vgg16(pretrained=pretrained_base).features] *)
Definition vgg16_features (pretrained : bool) : M E (list (Layer R)) :=
  let* _ := log (EvVgg16 pretrained) in
  call (ext_vgg16 E pretrained).

(** The [if backbone == 'vgg16': ... else: raise RuntimeError(...)] with which
    the three constructors start. *)
Definition backbone_features (backbone : string) (pretrained_base : bool)
    : M E (list (Layer R)) :=
  if decide (backbone = "vgg16") then vgg16_features pretrained_base
  else raise (RuntimeError ("unknown backbone: " +:+ backbone)).

(** [self.auxlayer = _FCNHead(512, nclass)] under [if aux:] *)
Definition auxlayer_init (aux : bool) (nclass : nat) : M E (option (_FCNHead R)) :=
  if aux then let* a := _FCNHead_init E 512 nclass in ret (Some a)
  else ret None.

(** The [if self.aux:] block that ends the three [forward] methods: the
    auxiliary head on [pool5], resized to the input size and appended to
    [outputs]. *)
Definition aux_forward (aux : bool) (auxlayer : option (_FCNHead R))
    (pool5 : Tensor R) (size : nat * nat) (outputs : list (Tensor R))
    : M E (list (Tensor R) * option (_FCNHead R)) :=
  if aux then
    match auxlayer with
    | Some a =>
        let* '(a', ra) := _FCNHead_forward E a pool5 in
        let* auxout := lift (interpolate (s_out ra) size) in
        ret (outputs ++ [auxout], Some a')
    | None => raise (OtherError "AttributeError: object has no attribute 'auxlayer'")
    end
  else ret (outputs, auxlayer).

Definition auxlayer_train (mode : bool) (a : option (_FCNHead R)) : option (_FCNHead R) :=
  match a with
  | Some h => Some (_FCNHead_train mode h)
  | None => None
  end.

(** *** FCN32s *)

(** [base_size], [crop_size] and the remaining keyword arguments are accepted
    and not used. *)
Definition FCN32s_init (nclass : nat) (backbone : string) (aux pretrained_base : bool)
    : M E (FCN32s R) :=
  let* features := backbone_features backbone pretrained_base in
  let* head := _FCNHead_init E 512 nclass in
  let* auxlayer := auxlayer_init aux nclass in
  ret {| FCN32s_aux := aux; FCN32s_features := features;
         FCN32s_head := head; FCN32s_auxlayer := auxlayer |}.

(** [forward] returns the tuple of outputs; the network is returned with it,
    since batch normalisation in training mode updates its running
    statistics.  [x.size()] is read after the layers ran, but no layer changes
    the size of its argument. *)
Definition FCN32s_forward (m : FCN32s R) (x : Tensor R) : M E (list (Tensor R) * FCN32s R) :=
  let* '(features', r5) := seq_forward E (FCN32s_features m) x in
  let pool5 := s_out r5 in
  let* '(head', rh) := _FCNHead_forward E (FCN32s_head m) pool5 in
  let pool5 := s_arg rh in
  let out := s_out rh in
  let* out := lift (interpolate out (size_hw x)) in
  let outputs := [out] in
  let* '(outputs, auxlayer') :=
    aux_forward (FCN32s_aux m) (FCN32s_auxlayer m) pool5 (size_hw x) outputs in
  ret (outputs,
       {| FCN32s_aux := FCN32s_aux m; FCN32s_features := features';
          FCN32s_head := head'; FCN32s_auxlayer := auxlayer' |}).

Definition FCN32s_train (mode : bool) (m : FCN32s R) : FCN32s R :=
  {| FCN32s_aux := FCN32s_aux m;
     FCN32s_features := seq_train mode (FCN32s_features m);
     FCN32s_head := _FCNHead_train mode (FCN32s_head m);
     FCN32s_auxlayer := auxlayer_train mode (FCN32s_auxlayer m) |}.

(** *** FCN16s *)

Definition FCN16s_init (nclass : nat) (backbone : string) (aux pretrained_base : bool)
    : M E (FCN16s R) :=
  let* features := backbone_features backbone pretrained_base in
  let* head := _FCNHead_init E 512 nclass in
  let* score_pool4 := Conv2d_init E 512 nclass 1 0 true in
  let* auxlayer := auxlayer_init aux nclass in
  ret {| FCN16s_aux := aux; FCN16s_features := features; FCN16s_head := head;
         FCN16s_score_pool4 := score_pool4; FCN16s_auxlayer := auxlayer |}.

(** [pool4] is read by [self.score_pool4] after [self.pool5] and [self.head]
    ran on it: its content at that point is what they left in it. *)
Definition FCN16s_forward (m : FCN16s R) (x : Tensor R) : M E (list (Tensor R) * FCN16s R) :=
  let* '(pool4', r4) := seq_forward E (FCN16s_pool4 m) x in
  let pool4 := s_out r4 in
  let* '(pool5', r5) := seq_forward E (FCN16s_pool5 m) pool4 in
  let pool5 := s_out r5 in
  let* '(head', rh) := _FCNHead_forward E (FCN16s_head m) pool5 in
  let score_fr := s_out rh in
  let pool5 := s_arg rh in
  let pool4 := if s_same r5 then pool5 else s_arg r5 in
  let* score_pool4 := lift (conv2d_forward (FCN16s_score_pool4 m) pool4) in
  let* upscore2 := lift (interpolate score_fr (size_hw score_pool4)) in
  let* fuse_pool4 := lift (tadd upscore2 score_pool4) in
  let* out := lift (interpolate fuse_pool4 (size_hw x)) in
  let outputs := [out] in
  let* '(outputs, auxlayer') :=
    aux_forward (FCN16s_aux m) (FCN16s_auxlayer m) pool5 (size_hw x) outputs in
  ret (outputs,
       {| FCN16s_aux := FCN16s_aux m; FCN16s_features := pool4' ++ pool5';
          FCN16s_head := head'; FCN16s_score_pool4 := FCN16s_score_pool4 m;
          FCN16s_auxlayer := auxlayer' |}).

Definition FCN16s_train (mode : bool) (m : FCN16s R) : FCN16s R :=
  {| FCN16s_aux := FCN16s_aux m;
     FCN16s_features := seq_train mode (FCN16s_features m);
     FCN16s_head := _FCNHead_train mode (FCN16s_head m);
     FCN16s_score_pool4 := FCN16s_score_pool4 m;
     FCN16s_auxlayer := auxlayer_train mode (FCN16s_auxlayer m) |}.

(** *** FCN8s *)

Definition FCN8s_init (nclass : nat) (backbone : string) (aux pretrained_base : bool)
    : M E (FCN8s R) :=
  let* features := backbone_features backbone pretrained_base in
  let* head := _FCNHead_init E 512 nclass in
  let* score_pool3 := Conv2d_init E 256 nclass 1 0 true in
  let* score_pool4 := Conv2d_init E 512 nclass 1 0 true in
  let* auxlayer := auxlayer_init aux nclass in
  ret {| FCN8s_aux := aux; FCN8s_features := features; FCN8s_head := head;
         FCN8s_score_pool3 := score_pool3; FCN8s_score_pool4 := score_pool4;
         FCN8s_auxlayer := auxlayer |}.

Definition FCN8s_forward (m : FCN8s R) (x : Tensor R) : M E (list (Tensor R) * FCN8s R) :=
  let* '(pool3', r3) := seq_forward E (FCN8s_pool3 m) x in
  let pool3 := s_out r3 in
  let* '(pool4', r4) := seq_forward E (FCN8s_pool4 m) pool3 in
  let pool4 := s_out r4 in
  let* '(pool5', r5) := seq_forward E (FCN8s_pool5 m) pool4 in
  let pool5 := s_out r5 in
  let* '(head', rh) := _FCNHead_forward E (FCN8s_head m) pool5 in
  let score_fr := s_out rh in
  let pool5 := s_arg rh in
  let pool4 := if s_same r5 then pool5 else s_arg r5 in
  let pool3 := if s_same r4 then pool4 else s_arg r4 in
  let* score_pool4 := lift (conv2d_forward (FCN8s_score_pool4 m) pool4) in
  let* score_pool3 := lift (conv2d_forward (FCN8s_score_pool3 m) pool3) in
  let* upscore2 := lift (interpolate score_fr (size_hw score_pool4)) in
  let* fuse_pool4 := lift (tadd upscore2 score_pool4) in
  let* upscore_pool4 := lift (interpolate fuse_pool4 (size_hw score_pool3)) in
  let* fuse_pool3 := lift (tadd upscore_pool4 score_pool3) in
  let* out := lift (interpolate fuse_pool3 (size_hw x)) in
  let outputs := [out] in
  let* '(outputs, auxlayer') :=
    aux_forward (FCN8s_aux m) (FCN8s_auxlayer m) pool5 (size_hw x) outputs in
  ret (outputs,
       {| FCN8s_aux := FCN8s_aux m; FCN8s_features := pool3' ++ pool4' ++ pool5';
          FCN8s_head := head'; FCN8s_score_pool3 := FCN8s_score_pool3 m;
          FCN8s_score_pool4 := FCN8s_score_pool4 m; FCN8s_auxlayer := auxlayer' |}).

Definition FCN8s_train (mode : bool) (m : FCN8s R) : FCN8s R :=
  {| FCN8s_aux := FCN8s_aux m;
     FCN8s_features := seq_train mode (FCN8s_features m);
     FCN8s_head := _FCNHead_train mode (FCN8s_head m);
     FCN8s_score_pool3 := FCN8s_score_pool3 m;
     FCN8s_score_pool4 := FCN8s_score_pool4 m;
     FCN8s_auxlayer := auxlayer_train mode (FCN8s_auxlayer m) |}.

End Networks.

(** ** The model factories *)

Section Factory.
Context {R : Type} `{Scalar R} (E : Externals R).

(** The keyword arguments the factories pass on to the constructors. *)
Record Kwargs : Type := mkKwargs {
  kw_aux : bool;
  kw_base_size : nat;
  kw_crop_size : nat
}.

Definition default_kwargs : Kwargs :=
  {| kw_aux := false; kw_base_size := 520; kw_crop_size := 480 |}.

(** [d[k]] on a Python dict *)
Definition dict_get {A : Type} (d : gmap string A) (k : string) : M E A :=
  match d !! k with
  | Some v => ret v
  | None => raise (KeyError k)
  end.

Definition acronyms : gmap string string :=
  list_to_map [ ("pascal_voc", "pascal_voc");
                ("pascal_aug", "pascal_aug");
                ("ade20k", "ade");
                ("coco", "coco");
                ("citys", "citys") ].

Definition get_model_file (name root : string) : M E string :=
  let* _ := log (EvGetModelFile name root) in
  call (ext_get_model_file E name root).

Definition torch_load (path : string) : M E (StateDict E) :=
  let* _ := log (EvTorchLoad path) in
  call (ext_torch_load E path).

Definition load_state_dict {Mdl : Type} (load : Mdl -> StateDict E -> Result Mdl)
    (model : Mdl) (sd : StateDict E) : M E Mdl :=
  let* _ := log EvLoadStateDict in
  lift (load model sd).

Definition get_fcn32s (dataset backbone : string) (pretrained : bool) (root : string)
    (pretrained_base : bool) (kwargs : Kwargs) : M E (FCN32s R) :=
  let* nclass := dict_get (ext_datasets E) dataset in
  let* model := FCN32s_init E nclass backbone (kw_aux kwargs) pretrained_base in
  if pretrained then
    let* acronym := dict_get acronyms dataset in
    let* file := get_model_file ("fcn32s_" +:+ backbone +:+ "_" +:+ acronym) root in
    let* sd := torch_load file in
    load_state_dict (ext_load_state_dict32 E) model sd
  else ret model.

Definition get_fcn16s (dataset backbone : string) (pretrained : bool) (root : string)
    (pretrained_base : bool) (kwargs : Kwargs) : M E (FCN16s R) :=
  let* nclass := dict_get (ext_datasets E) dataset in
  let* model := FCN16s_init E nclass backbone (kw_aux kwargs) pretrained_base in
  if pretrained then
    let* acronym := dict_get acronyms dataset in
    let* file := get_model_file ("fcn32s_" +:+ backbone +:+ "_" +:+ acronym) root in
    let* sd := torch_load file in
    load_state_dict (ext_load_state_dict16 E) model sd
  else ret model.

Definition get_fcn8s (dataset backbone : string) (pretrained : bool) (root : string)
    (pretrained_base : bool) (kwargs : Kwargs) : M E (FCN8s R) :=
  let* nclass := dict_get (ext_datasets E) dataset in
  let* model := FCN8s_init E nclass backbone (kw_aux kwargs) pretrained_base in
  if pretrained then
    let* acronym := dict_get acronyms dataset in
    let* file := get_model_file ("fcn32s_" +:+ backbone +:+ "_" +:+ acronym) root in
    let* sd := torch_load file in
    load_state_dict (ext_load_state_dict8 E) model sd
  else ret model.

Definition get_fcn32s_vgg16_voc (pretrained : bool) (root : string)
    (pretrained_base : bool) (kwargs : Kwargs) : M E (FCN32s R) :=
  get_fcn32s "pascal_voc" "vgg16" pretrained root pretrained_base kwargs.

Definition get_fcn16s_vgg16_voc (pretrained : bool) (root : string)
    (pretrained_base : bool) (kwargs : Kwargs) : M E (FCN16s R) :=
  get_fcn16s "pascal_voc" "vgg16" pretrained root pretrained_base kwargs.

Definition get_fcn8s_vgg16_voc (pretrained : bool) (root : string)
    (pretrained_base : bool) (kwargs : Kwargs) : M E (FCN8s R) :=
  get_fcn8s "pascal_voc" "vgg16" pretrained root pretrained_base kwargs.

End Factory.

(** ** The forward passes in two halves

    The first half of [FCN16s.forward] and [FCN8s.forward], up to the score
    maps, and the second half, the fusion of the score maps: the same code as
    in the forward passes above, cut in two so that the score maps can be
    named (see [FCN16s_forward_split] and [FCN8s_forward_split]). *)

Section Halves.
Context {R : Type} `{Scalar R} (E : Externals R).

(** What [FCN16s.forward] holds when it starts to fuse: the modules as the
    pass left them, the contents of the objects [pool4] and [pool5] at the
    time they are read, and the two score maps. *)
Record Taps16 : Type := mkTaps16 {
  t16_layers : list (Layer R);
  t16_head : _FCNHead R;
  t16_pool4 : Tensor R;
  t16_pool5 : Tensor R;
  t16_score_fr : Tensor R;
  t16_score_pool4 : Tensor R
}.

(** Lines 64 to 70 of [FCN16s.forward]. *)
Definition FCN16s_scores (m : FCN16s R) (x : Tensor R) : M E Taps16 :=
  let* '(pool4', r4) := seq_forward E (FCN16s_pool4 m) x in
  let* '(pool5', r5) := seq_forward E (FCN16s_pool5 m) (s_out r4) in
  let* '(head', rh) := _FCNHead_forward E (FCN16s_head m) (s_out r5) in
  let pool5 := s_arg rh in
  let pool4 := if s_same r5 then pool5 else s_arg r5 in
  let* score_pool4 := lift (conv2d_forward (FCN16s_score_pool4 m) pool4) in
  ret {| t16_layers := pool4' ++ pool5'; t16_head := head';
         t16_pool4 := pool4; t16_pool5 := pool5;
         t16_score_fr := s_out rh; t16_score_pool4 := score_pool4 |}.

(** Lines 72 to 75 of [FCN16s.forward]. *)
Definition FCN16s_fuse (score_fr score_pool4 : Tensor R) (size : nat * nat)
    : Result (Tensor R) :=
  match interpolate score_fr (size_hw score_pool4) with
  | Ok upscore2 =>
      match tadd upscore2 score_pool4 with
      | Ok fuse_pool4 => interpolate fuse_pool4 size
      | Raise e => Raise e
      end
  | Raise e => Raise e
  end.

Record Taps8 : Type := mkTaps8 {
  t8_layers : list (Layer R);
  t8_head : _FCNHead R;
  t8_pool3 : Tensor R;
  t8_pool4 : Tensor R;
  t8_pool5 : Tensor R;
  t8_score_fr : Tensor R;
  t8_score_pool4 : Tensor R;
  t8_score_pool3 : Tensor R
}.

(** Lines 108 to 116 of [FCN8s.forward]. *)
Definition FCN8s_scores (m : FCN8s R) (x : Tensor R) : M E Taps8 :=
  let* '(pool3', r3) := seq_forward E (FCN8s_pool3 m) x in
  let* '(pool4', r4) := seq_forward E (FCN8s_pool4 m) (s_out r3) in
  let* '(pool5', r5) := seq_forward E (FCN8s_pool5 m) (s_out r4) in
  let* '(head', rh) := _FCNHead_forward E (FCN8s_head m) (s_out r5) in
  let pool5 := s_arg rh in
  let pool4 := if s_same r5 then pool5 else s_arg r5 in
  let pool3 := if s_same r4 then pool4 else s_arg r4 in
  let* score_pool4 := lift (conv2d_forward (FCN8s_score_pool4 m) pool4) in
  let* score_pool3 := lift (conv2d_forward (FCN8s_score_pool3 m) pool3) in
  ret {| t8_layers := pool3' ++ pool4' ++ pool5'; t8_head := head';
         t8_pool3 := pool3; t8_pool4 := pool4; t8_pool5 := pool5;
         t8_score_fr := s_out rh; t8_score_pool4 := score_pool4;
         t8_score_pool3 := score_pool3 |}.

(** Lines 118 to 124 of [FCN8s.forward]. *)
Definition FCN8s_fuse (score_fr score_pool4 score_pool3 : Tensor R) (size : nat * nat)
    : Result (Tensor R) :=
  match interpolate score_fr (size_hw score_pool4) with
  | Ok upscore2 =>
      match tadd upscore2 score_pool4 with
      | Ok fuse_pool4 =>
          match interpolate fuse_pool4 (size_hw score_pool3) with
          | Ok upscore_pool4 =>
              match tadd upscore_pool4 score_pool3 with
              | Ok fuse_pool3 => interpolate fuse_pool3 size
              | Raise e => Raise e
              end
          | Raise e => Raise e
          end
      | Raise e => Raise e
      end
  | Raise e => Raise e
  end.

(** The rest of both passes: the output, the auxiliary output and the tuple. *)
Definition FCN16s_finish (m : FCN16s R) (x : Tensor R) (t : Taps16)
    : M E (list (Tensor R) * FCN16s R) :=
  let* out := lift (FCN16s_fuse (t16_score_fr t) (t16_score_pool4 t) (size_hw x)) in
  let* '(outputs, auxlayer') :=
    aux_forward E (FCN16s_aux m) (FCN16s_auxlayer m) (t16_pool5 t) (size_hw x) [out] in
  ret (outputs,
       {| FCN16s_aux := FCN16s_aux m; FCN16s_features := t16_layers t;
          FCN16s_head := t16_head t; FCN16s_score_pool4 := FCN16s_score_pool4 m;
          FCN16s_auxlayer := auxlayer' |}).

Definition FCN8s_finish (m : FCN8s R) (x : Tensor R) (t : Taps8)
    : M E (list (Tensor R) * FCN8s R) :=
  let* out := lift (FCN8s_fuse (t8_score_fr t) (t8_score_pool4 t) (t8_score_pool3 t)
                               (size_hw x)) in
  let* '(outputs, auxlayer') :=
    aux_forward E (FCN8s_aux m) (FCN8s_auxlayer m) (t8_pool5 t) (size_hw x) [out] in
  ret (outputs,
       {| FCN8s_aux := FCN8s_aux m; FCN8s_features := t8_layers t;
          FCN8s_head := t8_head t; FCN8s_score_pool3 := FCN8s_score_pool3 m;
          FCN8s_score_pool4 := FCN8s_score_pool4 m; FCN8s_auxlayer := auxlayer' |}).

End Halves.

(** ** What the constructors establish *)

Section Invariants.
Context {R : Type} `{Scalar R}.

(** A score projector from [cin] channels: one 1x1 convolution with a bias. *)
Definition projector_ok (cin nclass : nat) (cv : Conv2d R) : Prop :=
  shape (conv_weight cv) = mkShape nclass cin 1 1 /\
  conv_padding cv = 0 /\
  is_Some (conv_bias cv).

(** The block of a head built by [_FCNHead(cin, nclass)], whatever values its
    parameters and flags have taken since. *)
Definition head_ok (cin nclass : nat) (h : _FCNHead R) : Prop :=
  match block h with
  | [LConv2d conv1; LBatchNorm2d bn; LReLU _; LDropout _; LConv2d conv2] =>
      shape (conv_weight conv1) = mkShape (cin / 4) cin 3 3 /\
      conv_padding conv1 = 1 /\
      bn_num_features bn = cin / 4 /\
      shape (conv_weight conv2) = mkShape nclass (cin / 4) 1 1 /\
      conv_padding conv2 = 0
  | _ => False
  end.

Definition auxlayer_ok (nclass : nat) (aux : bool) (a : option (_FCNHead R)) : Prop :=
  if aux then match a with Some h => head_ok 512 nclass h | None => False end
  else True.

Definition FCN32s_ok (nclass : nat) (m : FCN32s R) : Prop :=
  head_ok 512 nclass (FCN32s_head m) /\
  auxlayer_ok nclass (FCN32s_aux m) (FCN32s_auxlayer m).

Definition FCN16s_ok (nclass : nat) (m : FCN16s R) : Prop :=
  head_ok 512 nclass (FCN16s_head m) /\
  projector_ok 512 nclass (FCN16s_score_pool4 m) /\
  auxlayer_ok nclass (FCN16s_aux m) (FCN16s_auxlayer m).

Definition FCN8s_ok (nclass : nat) (m : FCN8s R) : Prop :=
  head_ok 512 nclass (FCN8s_head m) /\
  projector_ok 256 nclass (FCN8s_score_pool3 m) /\
  projector_ok 512 nclass (FCN8s_score_pool4 m) /\
  auxlayer_ok nclass (FCN8s_aux m) (FCN8s_auxlayer m).

(** Whether batch normalisation in this block would use batch statistics. *)
Definition head_bn_training (h : _FCNHead R) : bool :=
  existsb (fun l => match l with LBatchNorm2d b => bn_training b | _ => false end) (block h).

(** Batch normalisation in training mode refuses a feature map with a single
    value per channel. *)
Definition head_accepts (h : _FCNHead R) (t : Tensor R) : Prop :=
  head_bn_training h = true ->
  dN (shape t) * (dH (shape t) * dW (shape t)) <> 1.

Definition auxlayer_accepts (aux : bool) (a : option (_FCNHead R)) (t : Tensor R) : Prop :=
  match aux, a with
  | true, Some h => head_accepts h t
  | _, _ => True
  end.

End Invariants.

(** ** When the backbone takes the input

    The backbone is not part of [fcn.py].  A forward pass needs it to run
    through on the input and to deliver feature maps with the channel counts
    the head and the projectors were built for; the head in training mode
    needs more than one value per channel. *)

Section Accepts.
Context {R : Type} `{Scalar R} (E : Externals R).

Definition positive_size (x : Tensor R) : Prop :=
  0 < dH (shape x) /\ 0 < dW (shape x).

Definition FCN32s_accepts (m : FCN32s R) (x : Tensor R) (w : World E) : Prop :=
  positive_size x /\
  match seq_forward E (FCN32s_features m) x w with
  | (Ok (_, r5), _) =>
      dC (shape (s_out r5)) = 512 /\
      head_accepts (FCN32s_head m) (s_out r5) /\
      auxlayer_accepts (FCN32s_aux m) (FCN32s_auxlayer m) (s_out r5)
  | _ => False
  end.

Definition FCN16s_accepts (m : FCN16s R) (x : Tensor R) (w : World E) : Prop :=
  positive_size x /\
  match seq_forward E (FCN16s_pool4 m) x w with
  | (Ok (_, r4), w1) =>
      dC (shape (s_out r4)) = 512 /\
      match seq_forward E (FCN16s_pool5 m) (s_out r4) w1 with
      | (Ok (_, r5), _) =>
          dC (shape (s_out r5)) = 512 /\
          head_accepts (FCN16s_head m) (s_out r5) /\
          auxlayer_accepts (FCN16s_aux m) (FCN16s_auxlayer m) (s_out r5)
      | _ => False
      end
  | _ => False
  end.

Definition FCN8s_accepts (m : FCN8s R) (x : Tensor R) (w : World E) : Prop :=
  positive_size x /\
  match seq_forward E (FCN8s_pool3 m) x w with
  | (Ok (_, r3), w1) =>
      dC (shape (s_out r3)) = 256 /\
      match seq_forward E (FCN8s_pool4 m) (s_out r3) w1 with
      | (Ok (_, r4), w2) =>
          dC (shape (s_out r4)) = 512 /\
          match seq_forward E (FCN8s_pool5 m) (s_out r4) w2 with
          | (Ok (_, r5), _) =>
              dC (shape (s_out r5)) = 512 /\
              head_accepts (FCN8s_head m) (s_out r5) /\
              auxlayer_accepts (FCN8s_aux m) (FCN8s_auxlayer m) (s_out r5)
          | _ => False
          end
      | _ => False
      end
  | _ => False
  end.

(** The shape of a score map for an input [x]. *)
Definition score_shape (nclass : nat) (x : Tensor R) : Shape :=
  mkShape (dN (shape x)) nclass (dH (shape x)) (dW (shape x)).

End Accepts.

(** ** Notions used to state the properties *)

Section Notions.
Context {R : Type} `{Scalar R} (E : Externals R).

(** What every module call keeps of its argument [x]: the batch size, the
    shape of the argument object, and that the spatial size stays positive. *)
Definition keeps (x : Tensor R) (st : Step (R:=R)) : Prop :=
  dN (shape (s_out st)) = dN (shape x) /\
  shape (s_arg st) = shape x /\
  (s_same st = true -> s_out st = s_arg st) /\
  (positive_size x -> positive_size (s_out st)).

(** A score map for the input [x]: its batch size, [nclass] channels, and a
    spatial size of its own. *)
Definition score_like (nclass : nat) (x t : Tensor R) : Prop :=
  dN (shape t) = dN (shape x) /\ dC (shape t) = nclass /\ positive_size t.

(** The deep path of a forward pass: the sub-networks in order, each on the
    feature map the one before returned.  [FCN32s.forward] has the single
    part [self.features]; [FCN16s.forward] has [self.pool4] and [self.pool5];
    [FCN8s.forward] has [self.pool3], [self.pool4] and [self.pool5].  The
    result is the last feature map, with the layers as the pass left them. *)
Fixpoint run_parts (parts : list (list (Layer R))) (x : Tensor R)
    : M E (list (Layer R) * Tensor R) :=
  match parts with
  | [] => ret ([], x)
  | p :: ps =>
      let* '(p', r) := seq_forward E p x in
      let* '(ps', y) := run_parts ps (s_out r) in
      ret (p' ++ ps', y)
  end.

(** In a pass through the sub-networks [parts] the head [h] is given the
    feature map that the parts, run in order, yield. *)
Definition head_input (parts : list (list (Layer R))) (h : _FCNHead R)
    (x : Tensor R) (w : World E) : Prop :=
  exists ls pool5 w1 h' rh w2,
    run_parts parts x w = (Ok (ls, pool5), w1) /\
    _FCNHead_forward E h pool5 w1 = (Ok (h', rh), w2).

(** A computation that neither reads nor changes the world: it has one
    result [r], whatever the world, and leaves the world as it found it.
    [P] is what is known of a returned value. *)
Definition pure_with {A : Type} (c : M E A) (P : A -> Prop) : Prop :=
  exists r, (forall w, c w = (r, w)) /\ (forall a, r = Ok a -> P a).

Definition eval_layers (ls : list (Layer R)) : Prop :=
  Forall (fun l => layer_training l = false) ls.

(** The prediction head at inference, as the specification words it: a 3x3
    convolution, normalisation (with the running statistics), ReLU, the
    stochastic regulariser (the identity at inference), a 1x1 convolution. *)
Definition spec_head_inference (conv3x3 : Conv2d R) (norm : BatchNorm2d R)
    (conv1x1 : Conv2d R) (x : Tensor R) : Result (Tensor R) :=
  match conv2d_forward conv3x3 x with
  | Ok reduced =>
      if decide (dC (shape reduced) = bn_num_features norm) then
        let normalised :=
          normalize norm (bn_running_mean norm) (bn_running_var norm) reduced in
        let rectified := relu normalised in
        let regularised := rectified in
        conv2d_forward conv1x1 regularised
      else Raise (RuntimeError
             "running_mean should contain as many elements as the input has channels")
  | Raise e => Raise e
  end.

(** Where the score maps of a pass of FCN-16s come from: [score_fr] from the
    head on [pool5], the output of the suffix [self.pool5]; [score_pool4] from
    the projector on the object [pool4] that the prefix [self.pool4]
    returned.  The suffix has run on that object in between: it has the
    prefix output's shape, and its content where the suffix left its argument
    alone. *)
Definition taps16_from (m : FCN16s R) (x : Tensor R) (w : World E) (t : Taps16) : Prop :=
  exists p4 r4 w1 p5 r5 w2 h' rh w3,
    seq_forward E (FCN16s_pool4 m) x w = (Ok (p4, r4), w1) /\
    seq_forward E (FCN16s_pool5 m) (s_out r4) w1 = (Ok (p5, r5), w2) /\
    _FCNHead_forward E (FCN16s_head m) (s_out r5) w2 = (Ok (h', rh), w3) /\
    t16_score_fr t = s_out rh /\
    conv2d_forward (FCN16s_score_pool4 m) (t16_pool4 t) = Ok (t16_score_pool4 t) /\
    shape (t16_pool4 t) = shape (s_out r4) /\
    (s_same r5 = false -> s_arg r5 = s_out r4 -> t16_pool4 t = s_out r4).

Definition taps8_from (m : FCN8s R) (x : Tensor R) (w : World E) (t : Taps8) : Prop :=
  exists p3 r3 w0 p4 r4 w1 p5 r5 w2 h' rh w3,
    seq_forward E (FCN8s_pool3 m) x w = (Ok (p3, r3), w0) /\
    seq_forward E (FCN8s_pool4 m) (s_out r3) w0 = (Ok (p4, r4), w1) /\
    seq_forward E (FCN8s_pool5 m) (s_out r4) w1 = (Ok (p5, r5), w2) /\
    _FCNHead_forward E (FCN8s_head m) (s_out r5) w2 = (Ok (h', rh), w3) /\
    t8_score_fr t = s_out rh /\
    conv2d_forward (FCN8s_score_pool4 m) (t8_pool4 t) = Ok (t8_score_pool4 t) /\
    conv2d_forward (FCN8s_score_pool3 m) (t8_pool3 t) = Ok (t8_score_pool3 t) /\
    shape (t8_pool4 t) = shape (s_out r4) /\
    shape (t8_pool3 t) = shape (s_out r3) /\
    (s_same r5 = false -> s_arg r5 = s_out r4 -> t8_pool4 t = s_out r4) /\
    (s_same r4 = false -> s_arg r4 = s_out r3 -> t8_pool3 t = s_out r3).

(** The fusion as the specification words it.  [spec_upsample_to] resizes
    (bilinear, corner-aligned) to the spatial size of another score map; a
    fusion step grows the running score to the size of the next skip score
    and adds the two; the cascade takes the skip scores from coarse to fine
    and ends with resizing to the input size. *)
Definition spec_upsample_to (t target : Tensor R) : Result (Tensor R) :=
  interpolate t (size_hw target).

Definition spec_fuse_step (running : Result (Tensor R)) (skip : Tensor R)
    : Result (Tensor R) :=
  match running with
  | Ok r =>
      match spec_upsample_to r skip with
      | Ok grown => tadd grown skip
      | Raise e => Raise e
      end
  | Raise e => Raise e
  end.

Definition spec_cascade (score_fr : Tensor R) (skips : list (Tensor R)) (size : nat * nat)
    : Result (Tensor R) :=
  match fold_left spec_fuse_step skips (Ok score_fr) with
  | Ok fused => interpolate fused size
  | Raise e => Raise e
  end.

(** FCN-8s without the pool3 skip: the FCN-16s style fused score (at the
    resolution of pool4), resized to the resolution of pool3 and then to the
    input size. *)
Definition spec_fcn8s_without_pool3 (score_fr score_pool4 : Tensor R)
    (size3 size : nat * nat) : Result (Tensor R) :=
  match spec_fuse_step (Ok score_fr) score_pool4 with
  | Ok fuse_pool4 =>
      match interpolate fuse_pool4 size3 with
      | Ok at_pool3 => interpolate at_pool3 size
      | Raise e => Raise e
      end
  | Raise e => Raise e
  end.

(** The taps of a pass of FCN-8s with another tensor in the place of
    [score_pool3]. *)
Definition taps8_with_score_pool3 (t : Taps8) (s : Tensor R) : Taps8 :=
  {| t8_layers := t8_layers t; t8_head := t8_head t;
     t8_pool3 := t8_pool3 t; t8_pool4 := t8_pool4 t; t8_pool5 := t8_pool5 t;
     t8_score_fr := t8_score_fr t; t8_score_pool4 := t8_score_pool4 t;
     t8_score_pool3 := s |}.

End Notions.

(** ** The three variants as one type *)

Section Variants.
Context {R : Type} `{Scalar R} (E : Externals R).

Inductive Kind : Type := K32 | K16 | K8.

Inductive ModelVariant : Type :=
  | Variant32 (m : FCN32s R)
  | Variant16 (m : FCN16s R)
  | Variant8 (m : FCN8s R).

Definition variant_aux (v : ModelVariant) : bool :=
  match v with
  | Variant32 m => FCN32s_aux m
  | Variant16 m => FCN16s_aux m
  | Variant8 m => FCN8s_aux m
  end.

(** [v.forward(x)] *)
Definition forward (v : ModelVariant) (x : Tensor R) : M E (list (Tensor R) * ModelVariant) :=
  match v with
  | Variant32 m => let* '(o, m') := FCN32s_forward E m x in ret (o, Variant32 m')
  | Variant16 m => let* '(o, m') := FCN16s_forward E m x in ret (o, Variant16 m')
  | Variant8 m => let* '(o, m') := FCN8s_forward E m x in ret (o, Variant8 m')
  end.

(** [v.train(mode)]; [v.eval()] is [v.train(False)]. *)
Definition variant_train (mode : bool) (v : ModelVariant) : ModelVariant :=
  match v with
  | Variant32 m => Variant32 (FCN32s_train mode m)
  | Variant16 m => Variant16 (FCN16s_train mode m)
  | Variant8 m => Variant8 (FCN8s_train mode m)
  end.

(** The constructor of the given class. *)
Definition variant_init (k : Kind) (nclass : nat) (backbone : string)
    (aux pretrained_base : bool) : M E ModelVariant :=
  match k with
  | K32 => let* m := FCN32s_init E nclass backbone aux pretrained_base in ret (Variant32 m)
  | K16 => let* m := FCN16s_init E nclass backbone aux pretrained_base in ret (Variant16 m)
  | K8 => let* m := FCN8s_init E nclass backbone aux pretrained_base in ret (Variant8 m)
  end.

(** The factory of the given class: [get_fcn32s], [get_fcn16s], [get_fcn8s]. *)
Definition get_fcn (k : Kind) (dataset backbone : string) (pretrained : bool)
    (root : string) (pretrained_base : bool) (kwargs : Kwargs) : M E ModelVariant :=
  match k with
  | K32 => let* m := get_fcn32s E dataset backbone pretrained root pretrained_base kwargs in
           ret (Variant32 m)
  | K16 => let* m := get_fcn16s E dataset backbone pretrained root pretrained_base kwargs in
           ret (Variant16 m)
  | K8 => let* m := get_fcn8s E dataset backbone pretrained root pretrained_base kwargs in
          ret (Variant8 m)
  end.

Definition variant_ok (nclass : nat) (v : ModelVariant) : Prop :=
  match v with
  | Variant32 m => FCN32s_ok nclass m
  | Variant16 m => FCN16s_ok nclass m
  | Variant8 m => FCN8s_ok nclass m
  end.

Definition variant_accepts (v : ModelVariant) (x : Tensor R) (w : World E) : Prop :=
  match v with
  | Variant32 m => FCN32s_accepts E m x w
  | Variant16 m => FCN16s_accepts E m x w
  | Variant8 m => FCN8s_accepts E m x w
  end.

(** A score map at the resolution of the input [x]: [nclass] channels, the
    batch size, height and width of [x], and entries laid out accordingly. *)
Definition is_score (nclass : nat) (x t : Tensor R) : Prop :=
  shape t = score_shape nclass x /\ wf_tensor t.

(** The tuple a forward pass returns for the input [x]: the primary score
    map, followed by the auxiliary one exactly when [aux] is set. *)
Definition outputs_ok (nclass : nat) (aux : bool) (x : Tensor R) (outputs : list (Tensor R))
    : Prop :=
  match outputs with
  | [out] => aux = false /\ is_score nclass x out
  | [out; auxout] => aux = true /\ is_score nclass x out /\ is_score nclass x auxout
  | _ => False
  end.

Definition is_Ok {A : Type} (r : Result A) : Prop :=
  match r with
  | Ok _ => True
  | Raise _ => False
  end.

(** A computation that makes no recorded call. *)
Definition keeps_trace {A : Type} (c : M E A) : Prop :=
  forall w, trace (snd (c w)) = trace w.

(** The body the three factories share, for a constructor [init] and the
    [load_state_dict] of its class. *)
Definition factory {Mdl : Type} (init : nat -> M E Mdl)
    (load : Mdl -> StateDict E -> Result Mdl)
    (dataset backbone : string) (pretrained : bool) (root : string) : M E Mdl :=
  let* nclass := dict_get E (ext_datasets E) dataset in
  let* model := init nclass in
  if pretrained then
    let* acronym := dict_get E acronyms dataset in
    let* file := get_model_file E ("fcn32s_" +:+ backbone +:+ "_" +:+ acronym) root in
    let* sd := torch_load E file in
    load_state_dict E load model sd
  else ret model.

End Variants.

(** ** A concrete instance

    Fixed-point scalars (16 fractional bits) and a stand-in for what lies
    outside [fcn.py]: a backbone with the layer layout of VGG-16 (thirteen 3x3
    convolutions, each followed by an in-place ReLU, and five 2x2 max-pools,
    which sit at positions 4, 9, 16, 23 and 30), a registry with the five
    datasets the factories know an acronym for, and a model store that always
    finds its file. *)

Module Toy.

Definition unit_scale : Z := 65536.

#[global] Instance fixed : Scalar Z := {|
  rzero := 0%Z;
  rone := unit_scale;
  radd := Z.add;
  rsub := Z.sub;
  rmul := fun a b => (a * b / unit_scale)%Z;
  rdiv := fun a b => (a * unit_scale / b)%Z;
  rsqrt := fun a => Z.sqrt (a * unit_scale);
  rmax := Z.max;
  rfrac := fun a b => (Z.of_N a * unit_scale / Z.of_N b)%Z
|}.

Definition conv3x3 (cin cout : nat) : Layer Z :=
  LConv2d {| conv_weight := tmk (mkShape cout cin 3 3)
                              (fun o c i j => if decide (o = c /\ i = 1 /\ j = 1)
                                              then unit_scale else 0%Z);
             conv_bias := Some (repeat 0%Z cout);
             conv_padding := 1 |}.

Definition pool2 : Layer Z := LMaxPool2d {| pool_kernel := 2; pool_stride := 2 |}.

Definition stage (cin cout convs : nat) : list (Layer Z) :=
  [conv3x3 cin cout; LReLU true]
  ++ concat (repeat [conv3x3 cout cout; LReLU true] (convs - 1))
  ++ [pool2].

Definition vgg16_layout : list (Layer Z) :=
  stage 3 64 2 ++ stage 64 128 2 ++ stage 128 256 3 ++ stage 256 512 3 ++ stage 512 512 3.

Definition env : Externals Z := {|
  Ext := nat;
  StateDict := unit;
  ext_vgg16 := fun _ e => (Ok vgg16_layout, e);
  ext_datasets := list_to_map [ ("pascal_voc", 21); ("pascal_aug", 21); ("ade20k", 150);
                                ("coco", 21); ("citys", 19) ];
  ext_get_model_file := fun name root e => (Ok (root +:+ "/" +:+ name +:+ ".pth"), e);
  ext_torch_load := fun _ e => (Ok tt, e);
  ext_load_state_dict32 := fun m _ => Ok m;
  ext_load_state_dict16 := fun m _ => Ok m;
  ext_load_state_dict8 := fun m _ => Ok m;
  ext_rand := fun e => (fun o c i j => Z.of_nat ((e + o + c + i + j) mod 7), S e);
  ext_bernoulli := fun _ _ e => (fun n c i j => negb (Nat.eqb ((e + n + c + i + j) mod 10) 0), S e)
|}.

Definition world0 : World env := @mkWorld Z env [] 0.

(** A 1x3x64x64 image. *)
Definition image : Tensor Z :=
  tmk (mkShape 1 3 64 64) (fun n c i j => Z.of_nat (c + i + j)).

(** The value a computation returned, or [dflt] if it raised. *)
Definition built {A : Type} (dflt : A) (r : Result A * World env) : A :=
  match r with
  | (Ok a, _) => a
  | _ => dflt
  end.

(** The networks the constructors build for 21 classes on that backbone. *)
Definition no_head : _FCNHead Z := {| block := [] |}.
Definition no_conv : Conv2d Z :=
  {| conv_weight := tmk (mkShape 0 0 0 0) (fun _ _ _ _ => 0%Z);
     conv_bias := None; conv_padding := 0 |}.

Definition fcn32s (aux : bool) : FCN32s Z :=
  built {| FCN32s_aux := false; FCN32s_features := []; FCN32s_head := no_head;
           FCN32s_auxlayer := None |}
        (FCN32s_init env 21 "vgg16" aux true world0).

Definition fcn16s (aux : bool) : FCN16s Z :=
  built {| FCN16s_aux := false; FCN16s_features := []; FCN16s_head := no_head;
           FCN16s_score_pool4 := no_conv; FCN16s_auxlayer := None |}
        (FCN16s_init env 21 "vgg16" aux true world0).

Definition fcn8s (aux : bool) : FCN8s Z :=
  built {| FCN8s_aux := false; FCN8s_features := []; FCN8s_head := no_head;
           FCN8s_score_pool3 := no_conv; FCN8s_score_pool4 := no_conv;
           FCN8s_auxlayer := None |}
        (FCN8s_init env 21 "vgg16" aux true world0).

(** The 1x1x2x2 tensor [[0 2] [4 6]], and the data of a one-plane tensor
    given by its rows. *)
Definition grid : Tensor Z :=
  tmk (mkShape 1 1 2 2) (fun _ _ i j => (Z.of_nat (4 * i + 2 * j) * unit_scale)%Z).

Definition scaled (rows : list (list Z)) : list (list (list (list Z))) :=
  [[map (map (fun v => (v * unit_scale)%Z)) rows]].

(** A head as [_FCNHead(512, 21)] builds it. *)
Definition head : _FCNHead Z := built no_head (_FCNHead_init env 512 21 world0).

End Toy.

(** * Properties *)

(** ** The monad *)

Section MonadFacts.
Context {R : Type} {E : Externals R}.

Lemma bind_Ok {A B : Type} (c : M E A) (k : A -> M E B) (w w' : World E) (a : A) :
  c w = (Ok a, w') -> bind c k w = k a w'.
Proof. intros Hc. unfold bind. by rewrite Hc. Qed.

Lemma bind_Raise {A B : Type} (c : M E A) (k : A -> M E B) (w w' : World E) (e : exn) :
  c w = (Raise e, w') -> bind c k w = (Raise e, w').
Proof. intros Hc. unfold bind. by rewrite Hc. Qed.

Lemma bind_inv {A B : Type} (c : M E A) (k : A -> M E B) (w w' : World E) (b : B) :
  bind c k w = (Ok b, w') ->
  exists a w1, c w = (Ok a, w1) /\ k a w1 = (Ok b, w').
Proof.
  unfold bind. destruct (c w) as [[a|e] w1]; intros Hk; [eauto | discriminate].
Qed.

Lemma bind_lift_Ok {A B : Type} (r : Result A) (k : A -> M E B) (w : World E) (a : A) :
  r = Ok a -> bind (lift r) k w = k a w.
Proof. by intros ->. Qed.

Lemma bind_assoc {A B C : Type} (c : M E A) (k : A -> M E B) (k' : B -> M E C) (w : World E) :
  bind (bind c k) k' w = bind c (fun a => bind (k a) k') w.
Proof. unfold bind. by destruct (c w) as [[a|e] w1]. Qed.

Lemma bind_ret_l {A B : Type} (a : A) (k : A -> M E B) (w : World E) :
  bind (ret a) k w = k a w.
Proof. reflexivity. Qed.

Lemma bind_ext {A B : Type} (c : M E A) (k k' : A -> M E B) (w : World E) :
  (forall a w1, k a w1 = k' a w1) -> bind c k w = bind c k' w.
Proof. intros Hk. unfold bind. destruct (c w) as [[a|e] w1]; [apply Hk | done]. Qed.

End MonadFacts.

(** ** Shapes of the tensor operations *)

Section ShapeFacts.
Context {R : Type} `{Scalar R}.

Lemma shape_tmk (s : Shape) (f : nat -> nat -> nat -> nat -> R) : shape (tmk s f) = s.
Proof. reflexivity. Qed.

Lemma length_tabulate {A : Type} (n : nat) (f : nat -> A) : length (tabulate n f) = n.
Proof. unfold tabulate. by rewrite length_map, length_seq. Qed.

Lemma nth_tabulate {A : Type} (n i : nat) (f : nat -> A) (d : A) :
  i < n -> nth i (tabulate n f) d = f i.
Proof.
  intros Hi. unfold tabulate.
  rewrite (nth_indep _ d (f 0)) by (rewrite length_map, length_seq; lia).
  rewrite map_nth, seq_nth by lia. done.
Qed.

Lemma Forall_tabulate {A : Type} (P : A -> Prop) (n : nat) (f : nat -> A) :
  (forall i, i < n -> P (f i)) -> Forall P (tabulate n f).
Proof.
  intros Hf. unfold tabulate. apply Forall_forall. intros a Ha.
  apply list_elem_of_In, in_map_iff in Ha as (i & <- & Hi).
  apply Hf. apply in_seq in Hi. lia.
Qed.

Lemma wf_tmk (s : Shape) (f : nat -> nat -> nat -> nat -> R) : wf_tensor (tmk s f).
Proof.
  split; simpl; [apply length_tabulate |].
  apply Forall_tabulate; intros n _. split; [apply length_tabulate |].
  apply Forall_tabulate; intros c _. split; [apply length_tabulate |].
  apply Forall_tabulate; intros i _. apply length_tabulate.
Qed.

Lemma tget_tmk (s : Shape) (f : nat -> nat -> nat -> nat -> R) (n c i j : nat) :
  n < dN s -> c < dC s -> i < dH s -> j < dW s -> tget (tmk s f) n c i j = f n c i j.
Proof.
  intros Hn Hc Hi Hj. unfold tget, plane_get, tmk; simpl.
  by rewrite !nth_tabulate.
Qed.

Lemma tmk_ext (s : Shape) (f g : nat -> nat -> nat -> nat -> R) :
  (forall n c i j, n < dN s -> c < dC s -> i < dH s -> j < dW s -> f n c i j = g n c i j) ->
  tmk s f = tmk s g.
Proof.
  intros Hfg. unfold tmk, tabulate. f_equal.
  apply map_ext_in; intros n Hn%in_seq.
  apply map_ext_in; intros c Hc%in_seq.
  apply map_ext_in; intros i Hi%in_seq.
  apply map_ext_in; intros j Hj%in_seq.
  apply Hfg; lia.
Qed.

Lemma bdim_same (a : nat) : bdim a a = Some a.
Proof. unfold bdim. by rewrite decide_True. Qed.

Lemma bidx_lt (d i : nat) : i < d -> bidx d i = i.
Proof. unfold bidx. case_decide; lia. Qed.

(** Adding two tensors of one shape: entry by entry, no broadcasting. *)
Lemma tadd_same_shape (a b : Tensor R) :
  shape a = shape b ->
  tadd a b = Ok (tmk (shape a) (fun n c i j => radd (tget a n c i j) (tget b n c i j))).
Proof.
  intros Hs. unfold tadd. rewrite <- Hs, !bdim_same.
  destruct (shape a) as [N C Hh W] eqn:Hsa. simpl. f_equal.
  apply tmk_ext; simpl; intros n c i j Hn Hc Hi Hj.
  by rewrite !bidx_lt.
Qed.

Lemma interpolate_Ok (x y : Tensor R) (oh ow : nat) :
  interpolate x (oh, ow) = Ok y ->
  shape y = mkShape (dN (shape x)) (dC (shape x)) oh ow /\ wf_tensor y /\
  0 < dH (shape x) /\ 0 < dW (shape x) /\ 0 < oh /\ 0 < ow.
Proof.
  unfold interpolate. case_decide as Hz; [done |].
  intros [= <-]. split; [done |]. split; [apply wf_tmk | lia].
Qed.

Lemma interpolate_wf (x y : Tensor R) (size : nat * nat) :
  interpolate x size = Ok y -> wf_tensor y.
Proof. destruct size as [oh ow]. by intros (_ & Hwf & _)%interpolate_Ok. Qed.

Lemma interpolate_total (x : Tensor R) (oh ow : nat) :
  0 < dH (shape x) -> 0 < dW (shape x) -> 0 < oh -> 0 < ow ->
  exists y, interpolate x (oh, ow) = Ok y /\
            shape y = mkShape (dN (shape x)) (dC (shape x)) oh ow.
Proof.
  intros Hh Hw Hoh How. unfold interpolate.
  rewrite decide_False by lia. eauto.
Qed.

Lemma conv2d_forward_Ok (cv : Conv2d R) (x y : Tensor R) :
  conv2d_forward cv x = Ok y ->
  dC (shape x) = conv_in_channels cv /\
  shape y = mkShape (dN (shape x)) (conv_out_channels cv)
              (dH (shape x) + 2 * conv_padding cv - fst (conv_kernel_size cv) + 1)
              (dW (shape x) + 2 * conv_padding cv - snd (conv_kernel_size cv) + 1).
Proof.
  unfold conv2d_forward. destruct (conv_kernel_size cv) as [kh kw].
  case_decide as Hc; [done |]. case_decide as Hk; [done |].
  intros [= <-]. by split.
Qed.

Lemma conv2d_forward_Ok_size (cv : Conv2d R) (x y : Tensor R) :
  conv2d_forward cv x = Ok y ->
  fst (conv_kernel_size cv) <= dH (shape x) + 2 * conv_padding cv /\
  snd (conv_kernel_size cv) <= dW (shape x) + 2 * conv_padding cv.
Proof.
  unfold conv2d_forward. destruct (conv_kernel_size cv) as [kh kw].
  case_decide as Hc; [done |]. case_decide as Hk; [done |].
  intros _. simpl. lia.
Qed.

Lemma conv2d_forward_total (cv : Conv2d R) (x : Tensor R) :
  dC (shape x) = conv_in_channels cv ->
  fst (conv_kernel_size cv) <= dH (shape x) + 2 * conv_padding cv ->
  snd (conv_kernel_size cv) <= dW (shape x) + 2 * conv_padding cv ->
  exists y, conv2d_forward cv x = Ok y /\
    shape y = mkShape (dN (shape x)) (conv_out_channels cv)
                (dH (shape x) + 2 * conv_padding cv - fst (conv_kernel_size cv) + 1)
                (dW (shape x) + 2 * conv_padding cv - snd (conv_kernel_size cv) + 1).
Proof.
  intros Hc Hh Hw. unfold conv2d_forward.
  destruct (conv_kernel_size cv) as [kh kw]; simpl in *.
  rewrite decide_False by (intros Hne; by apply Hne).
  rewrite decide_False by lia. eauto.
Qed.

(** A score projector keeps the spatial size and yields [nclass] channels. *)
Lemma projector_forward (cin nclass : nat) (cv : Conv2d R) (x : Tensor R) :
  projector_ok cin nclass cv ->
  dC (shape x) = cin -> 0 < dH (shape x) -> 0 < dW (shape x) ->
  exists y, conv2d_forward cv x = Ok y /\
            shape y = mkShape (dN (shape x)) nclass (dH (shape x)) (dW (shape x)).
Proof.
  intros (Hw & Hp & _) Hc Hh Hwd.
  destruct (conv2d_forward_total cv x) as (y & Hy & Hs).
  - unfold conv_in_channels. by rewrite Hw.
  - unfold conv_kernel_size, size_hw. rewrite Hw, Hp. simpl. lia.
  - unfold conv_kernel_size, size_hw. rewrite Hw, Hp. simpl. lia.
  - exists y. split; [done |]. rewrite Hs.
    unfold conv_out_channels, conv_kernel_size, size_hw. rewrite Hw, Hp. simpl.
    f_equal; lia.
Qed.

End ShapeFacts.

(** ** Layers and sequences of layers *)

Section LayerFacts.
Context {R : Type} `{Scalar R} (E : Externals R).

Lemma bn_forward_Ok (b b' : BatchNorm2d R) (x y : Tensor R) :
  bn_forward b x = Ok (y, b') ->
  shape y = shape x /\ bn_num_features b' = bn_num_features b /\
  bn_training b' = bn_training b.
Proof.
  unfold bn_forward. case_decide as Hc; [done |].
  destruct (bn_training b) eqn:Ht.
  - case_decide as Hn; [done |]. intros [= <- <-]. simpl. repeat split.
    unfold bn_num_features, running_update; simpl.
    rewrite length_zip_with, length_tabulate. unfold bn_num_features in Hc. lia.
  - intros [= <- <-]. by rewrite Ht.
Qed.

Lemma bn_forward_total (b : BatchNorm2d R) (x : Tensor R) :
  dC (shape x) = bn_num_features b ->
  (bn_training b = true -> dN (shape x) * (dH (shape x) * dW (shape x)) <> 1) ->
  exists y b', bn_forward b x = Ok (y, b') /\ shape y = shape x /\
               bn_num_features b' = bn_num_features b /\
               bn_training b' = bn_training b.
Proof.
  intros Hc Hn.
  assert (exists y b', bn_forward b x = Ok (y, b')) as (y & b' & Hy).
  { unfold bn_forward. rewrite decide_False by (intros Hne; by apply Hne).
    destruct (bn_training b); [| eauto].
    rewrite decide_False by (by apply Hn). eauto. }
  exists y, b'. split; [done |]. by apply bn_forward_Ok.
Qed.

Lemma bn_forward_Ok_count (b : BatchNorm2d R) (x : Tensor R) (r : Tensor R * BatchNorm2d R) :
  bn_forward b x = Ok r -> bn_training b = true ->
  dN (shape x) * (dH (shape x) * dW (shape x)) <> 1.
Proof.
  unfold bn_forward. case_decide; [done |]. intros Hr Ht. rewrite Ht in Hr.
  by case_decide.
Qed.

Lemma maxpool_forward_Ok (mp : MaxPool2d) (x y : Tensor R) :
  maxpool_forward mp x = Ok y ->
  dN (shape y) = dN (shape x) /\ dC (shape y) = dC (shape x) /\
  0 < dH (shape y) /\ 0 < dW (shape y).
Proof.
  unfold maxpool_forward. case_decide; [done |]. case_decide; [done |].
  intros [= <-]. simpl. repeat split; lia.
Qed.

Lemma keeps_fresh (x y : Tensor R) :
  dN (shape y) = dN (shape x) ->
  (positive_size x -> positive_size y) ->
  keeps x (fresh y x).
Proof. intros Hn Hp. unfold keeps; simpl. by split_and!. Qed.

Lemma keeps_same (x y : Tensor R) : shape y = shape x -> keeps x (same y).
Proof.
  intros Hs. unfold keeps, positive_size; simpl. rewrite Hs. by split_and!.
Qed.

Lemma layer_forward_keeps (l l' : Layer R) (x : Tensor R) (st : Step) (w w' : World E) :
  layer_forward E l x w = (Ok (l', st), w') -> keeps x st.
Proof.
  destruct l as [cv | b | ip | d | mp]; simpl.
  - intros (y & w1 & Hy & Hr)%bind_inv. injection Hy as Hy <-. injection Hr as <- <- <-.
    apply conv2d_forward_Ok in Hy as (_ & Hs).
    unfold conv2d_forward in *. apply keeps_fresh; [by rewrite Hs |].
    intros _. unfold positive_size. rewrite Hs; simpl. lia.
  - intros ([y b'] & w1 & Hy & Hr)%bind_inv. injection Hy as Hy <-. injection Hr as <- <- <-.
    apply bn_forward_Ok in Hy as (Hs & _).
    apply keeps_fresh; [by rewrite Hs | unfold positive_size; by rewrite Hs].
  - intros [= <- <- <-]. destruct ip; [by apply keeps_same |].
    by apply keeps_fresh.
  - destruct (drop_training d).
    + intros (keep & w1 & _ & Hr)%bind_inv. injection Hr as <- <- <-.
      destruct (drop_inplace d); [by apply keeps_same | by apply keeps_fresh].
    + intros [= <- <- <-]. by apply keeps_same.
  - intros (y & w1 & Hy & Hr)%bind_inv. injection Hy as Hy <-. injection Hr as <- <- <-.
    apply maxpool_forward_Ok in Hy as (Hn & _ & Hh & Hw).
    by apply keeps_fresh.
Qed.

Lemma seq_forward_inv (l : Layer R) (ls ls2 : list (Layer R)) (x : Tensor R) (st2 : Step)
    (w w2 : World E) :
  seq_forward E (l :: ls) x w = (Ok (ls2, st2), w2) ->
  exists l' st w1 ls' st',
    layer_forward E l x w = (Ok (l', st), w1) /\
    seq_forward E ls (s_out st) w1 = (Ok (ls', st'), w2) /\
    ls2 = l' :: ls' /\
    st2 = {| s_out := s_out st';
             s_arg := if s_same st then s_arg st' else s_arg st;
             s_same := s_same st && s_same st' |}.
Proof.
  simpl. intros ([l' st] & w1 & Hl & Hr)%bind_inv.
  apply bind_inv in Hr as ([ls' st'] & w1' & Hs & Hr). injection Hr as <- <- <-.
  by exists l', st, w1, ls', st'.
Qed.

Lemma seq_forward_cons_Ok (l l' : Layer R) (ls ls' : list (Layer R)) (x : Tensor R)
    (st st' : Step) (w w1 w2 : World E) :
  layer_forward E l x w = (Ok (l', st), w1) ->
  seq_forward E ls (s_out st) w1 = (Ok (ls', st'), w2) ->
  seq_forward E (l :: ls) x w =
    (Ok (l' :: ls', {| s_out := s_out st';
                       s_arg := if s_same st then s_arg st' else s_arg st;
                       s_same := s_same st && s_same st' |}), w2).
Proof.
  intros Hl Hs. cbn [seq_forward].
  rewrite (bind_Ok _ _ _ _ _ Hl). by rewrite (bind_Ok _ _ _ _ _ Hs).
Qed.

Lemma layer_forward_conv (cv : Conv2d R) (x y : Tensor R) (w : World E) :
  conv2d_forward cv x = Ok y ->
  layer_forward E (LConv2d cv) x w = (Ok (LConv2d cv, fresh y x), w).
Proof. intros Hy. cbn [layer_forward]. by rewrite (bind_lift_Ok _ _ _ _ Hy). Qed.

Lemma layer_forward_bn (b b' : BatchNorm2d R) (x y : Tensor R) (w : World E) :
  bn_forward b x = Ok (y, b') ->
  layer_forward E (LBatchNorm2d b) x w = (Ok (LBatchNorm2d b', fresh y x), w).
Proof. intros Hy. cbn [layer_forward]. by rewrite (bind_lift_Ok _ _ _ _ Hy). Qed.

Lemma layer_forward_relu (ip : bool) (x : Tensor R) (w : World E) :
  layer_forward E (LReLU ip) x w =
    (Ok (LReLU ip, if ip then same (relu x) else fresh (relu x) x), w).
Proof. reflexivity. Qed.

Lemma seq_forward_keeps (ls ls' : list (Layer R)) (x : Tensor R) (st : Step)
    (w w' : World E) :
  seq_forward E ls x w = (Ok (ls', st), w') -> keeps x st /\ length ls' = length ls.
Proof.
  revert ls' x st w w'. induction ls as [| l ls IH]; intros ls2 x st2 w w2.
  - intros [= <- <- <-]. split; [by apply keeps_same | done].
  - intros (l' & st & w1 & ls' & st' & Hl & Hs & -> & ->)%seq_forward_inv.
    apply layer_forward_keeps in Hl as (Hn & Ha & Hsame & Hpos).
    apply IH in Hs as ((Hn' & Ha' & Hsame' & Hpos') & Hlen).
    split; [| simpl; by rewrite Hlen].
    unfold keeps; simpl. split; [congruence |]. split.
    { destruct (s_same st); [| done]. rewrite Ha', Hsame, Ha; done. }
    split; [| by auto].
    destruct (s_same st); simpl; [auto | done].
Qed.

End LayerFacts.

(** ** The prediction head *)

Section HeadFacts.
Context {R : Type} `{Scalar R} (E : Externals R).

Lemma head_ok_inv (cin nclass : nat) (h : _FCNHead R) :
  head_ok cin nclass h ->
  exists conv1 bn ip d conv2,
    block h = [LConv2d conv1; LBatchNorm2d bn; LReLU ip; LDropout d; LConv2d conv2] /\
    shape (conv_weight conv1) = mkShape (cin / 4) cin 3 3 /\
    conv_padding conv1 = 1 /\
    bn_num_features bn = cin / 4 /\
    shape (conv_weight conv2) = mkShape nclass (cin / 4) 1 1 /\
    conv_padding conv2 = 0.
Proof.
  unfold head_ok.
  destruct (block h) as [| [c1| | | |] t1]; try done.
  destruct t1 as [| [|bn| | |] t2]; try done.
  destruct t2 as [| [| |ip| |] t3]; try done.
  destruct t3 as [| [| | |d|] t4]; try done.
  destruct t4 as [| [c2| | | |] [|]]; try done.
  intros Hok. by exists c1, bn, ip, d, c2.
Qed.

Lemma relu_shape (x : Tensor R) : shape (relu x) = shape x.
Proof. reflexivity. Qed.

Lemma dropout_step (d : Dropout R) (x : Tensor R) (w : World E) :
  exists y st w', layer_forward E (LDropout d) x w = (Ok (LDropout d, st), w') /\
                  s_out st = y /\ shape y = shape x.
Proof.
  simpl. destruct (drop_training d).
  - unfold bind, draw.
    destruct (ext_bernoulli E (drop_p d) (shape x) (ext w)) as [keep e'].
    destruct (drop_inplace d); eexists _, _, _; (split; [reflexivity | by split]).
  - eexists _, _, _; (split; [reflexivity | by split]).
Qed.

(** The head runs through on every feature map it was built for, gives
    [nclass] channels at the same spatial size, returns a new tensor and
    leaves its argument as it was. *)
Lemma FCNHead_forward_total (cin nclass : nat) (h : _FCNHead R) (x : Tensor R) (w : World E) :
  head_ok cin nclass h ->
  dC (shape x) = cin -> positive_size x -> head_accepts h x ->
  exists h' y w',
    _FCNHead_forward E h x w = (Ok (h', fresh y x), w') /\
    shape y = mkShape (dN (shape x)) nclass (dH (shape x)) (dW (shape x)) /\
    head_ok cin nclass h' /\
    head_bn_training h' = head_bn_training h.
Proof.
  intros (conv1 & bn & ip & d & conv2 & Hb & Hw1 & Hp1 & Hnf & Hw2 & Hp2)%head_ok_inv
    Hc [Hh Hw] Hacc.
  destruct (conv2d_forward_total conv1 x) as (y1 & Hy1 & Hs1).
  { unfold conv_in_channels. by rewrite Hw1. }
  { unfold conv_kernel_size, size_hw. rewrite Hw1, Hp1; simpl. lia. }
  { unfold conv_kernel_size, size_hw. rewrite Hw1, Hp1; simpl. lia. }
  assert (shape y1 = mkShape (dN (shape x)) (cin / 4) (dH (shape x)) (dW (shape x))) as Hs1'.
  { rewrite Hs1. unfold conv_out_channels, conv_kernel_size, size_hw.
    rewrite Hw1, Hp1; simpl. f_equal; lia. }
  clear Hs1.
  destruct (bn_forward_total bn y1) as (y2 & bn' & Hy2 & Hs2 & Hnf' & Htr).
  { by rewrite Hs1', Hnf. }
  { intros Ht. rewrite Hs1'; simpl. apply Hacc.
    unfold head_bn_training. rewrite Hb; simpl. by rewrite Ht. }
  set (st3 := if ip then same (relu y2) else fresh (relu y2) y2).
  assert (shape (s_out st3) = shape y2) as Hs3 by (subst st3; by destruct ip).
  destruct (dropout_step d (s_out st3) w) as (y4 & st4 & w' & Hd & Ho4 & Hs4).
  destruct (conv2d_forward_total conv2 y4) as (y5 & Hy5 & Hs5).
  { unfold conv_in_channels. by rewrite Hw2, Hs4, Hs3, Hs2, Hs1'. }
  { unfold conv_kernel_size, size_hw. rewrite Hw2, Hp2, Hs4, Hs3, Hs2, Hs1'; simpl. lia. }
  { unfold conv_kernel_size, size_hw. rewrite Hw2, Hp2, Hs4, Hs3, Hs2, Hs1'; simpl. lia. }
  exists {| block := [LConv2d conv1; LBatchNorm2d bn'; LReLU ip; LDropout d; LConv2d conv2] |},
    y5, w'.
  split.
  { unfold _FCNHead_forward. rewrite Hb.
    erewrite bind_Ok; [| eapply seq_forward_cons_Ok;
      [ by apply layer_forward_conv
      | eapply seq_forward_cons_Ok;
        [ by apply layer_forward_bn
        | eapply seq_forward_cons_Ok;
          [ apply layer_forward_relu
          | eapply seq_forward_cons_Ok;
            [ apply Hd
            | eapply seq_forward_cons_Ok;
              [ rewrite Ho4; by apply layer_forward_conv | reflexivity ]]]]]].
    cbn. rewrite ?andb_false_r. reflexivity. }
  split.
  { rewrite Hs5. unfold conv_out_channels, conv_kernel_size, size_hw.
    rewrite Hw2, Hp2, Hs4, Hs3, Hs2, Hs1'; simpl. f_equal; lia. }
  split.
  { unfold head_ok; simpl. by rewrite Hnf'. }
  unfold head_bn_training. rewrite Hb; simpl. by rewrite Htr.
Qed.

Lemma FCNHead_forward_keeps (h h' : _FCNHead R) (x : Tensor R) (st : Step) (w w' : World E) :
  _FCNHead_forward E h x w = (Ok (h', st), w') -> keeps x st.
Proof.
  unfold _FCNHead_forward. intros ([b' st'] & w1 & Hs & Hr)%bind_inv.
  injection Hr as <- <- <-. by apply seq_forward_keeps in Hs as [? _].
Qed.

(** The object a slice was given, after a later module call on the slice's
    output: it still has the shape it had. *)
Lemma pool_object_after (x : Tensor R) (r rh : Step) :
  keeps x r -> keeps (s_out r) rh ->
  shape (if s_same r then s_arg rh else s_arg r) = shape x.
Proof.
  intros (_ & Ha & Hsame & _) (_ & Hah & _).
  destruct (s_same r); [| done]. by rewrite Hah, Hsame.
Qed.

Lemma head_accepts_shape (h : _FCNHead R) (t t' : Tensor R) :
  shape t = shape t' -> head_accepts h t -> head_accepts h t'.
Proof. unfold head_accepts. by intros ->. Qed.

(** Conversely, the head runs through only on a feature map it accepts. *)
Lemma FCNHead_forward_Ok_inv (cin nclass : nat) (h h' : _FCNHead R) (x : Tensor R)
    (st : Step) (w w' : World E) :
  head_ok cin nclass h ->
  _FCNHead_forward E h x w = (Ok (h', st), w') ->
  dC (shape x) = cin /\ head_accepts h x.
Proof.
  intros (conv1 & bn & ip & d & conv2 & Hb & Hw1 & Hp1 & Hnf & Hw2 & Hp2)%head_ok_inv.
  unfold _FCNHead_forward. rewrite Hb.
  intros ([b' st'] & w1 & Hs & _)%bind_inv.
  apply seq_forward_inv in Hs as (l1 & st1 & w2 & ls1 & st1' & Hl1 & Hs & _).
  apply seq_forward_inv in Hs as (l2 & st2 & w3 & ls2 & st2' & Hl2 & _).
  cbn [layer_forward] in Hl1, Hl2.
  apply bind_inv in Hl1 as (y1 & w4 & Hy1 & Hr). injection Hy1 as Hy1 _.
  injection Hr as _ <- _. cbn [s_out fresh] in Hl2.
  apply bind_inv in Hl2 as (r & w5 & Hbn & _). injection Hbn as Hbn _.
  pose proof (conv2d_forward_Ok _ _ _ Hy1) as (Hc & Hs1).
  pose proof (conv2d_forward_Ok_size _ _ _ Hy1) as (Hk1 & Hk2).
  unfold conv_in_channels, conv_kernel_size, size_hw in *. rewrite Hw1, Hp1 in *.
  simpl in Hk1, Hk2, Hs1. split; [done |].
  intros Htr. unfold head_bn_training in Htr. rewrite Hb in Htr. simpl in Htr.
  rewrite orb_false_r in Htr.
  pose proof (bn_forward_Ok_count _ _ _ Hbn Htr) as Hcount.
  rewrite Hs1 in Hcount. simpl in Hcount.
  replace (dH (shape x) + 2 - 3 + 1) with (dH (shape x)) in Hcount by lia.
  replace (dW (shape x) + 2 - 3 + 1) with (dW (shape x)) in Hcount by lia.
  done.
Qed.

End HeadFacts.

(** ** The forward passes *)

Section ForwardFacts.
Context {R : Type} `{Scalar R} (E : Externals R).

Lemma FCN16s_forward_split (m : FCN16s R) (x : Tensor R) (w : World E) :
  FCN16s_forward E m x w = (let* t := FCN16s_scores E m x in FCN16s_finish E m x t) w.
Proof.
  unfold FCN16s_forward, FCN16s_scores, FCN16s_finish, FCN16s_fuse.
  rewrite !bind_assoc. apply bind_ext; intros [pool4' r4] w1.
  rewrite !bind_assoc. apply bind_ext; intros [pool5' r5] w2.
  rewrite !bind_assoc. apply bind_ext; intros [head' rh] w3.
  unfold bind at 1 3, lift.
  destruct (conv2d_forward _ _) as [score_pool4|e]; [| done].
  cbn [bind ret]. unfold bind, lift.
  destruct (interpolate _ _) as [upscore2|e]; [| done].
  destruct (tadd _ _) as [fuse_pool4|e]; [| done].
  by destruct (interpolate _ _) as [out|e].
Qed.

Lemma FCN8s_forward_split (m : FCN8s R) (x : Tensor R) (w : World E) :
  FCN8s_forward E m x w = (let* t := FCN8s_scores E m x in FCN8s_finish E m x t) w.
Proof.
  unfold FCN8s_forward, FCN8s_scores, FCN8s_finish, FCN8s_fuse.
  rewrite !bind_assoc. apply bind_ext; intros [pool3' r3] w0.
  rewrite !bind_assoc. apply bind_ext; intros [pool4' r4] w1.
  rewrite !bind_assoc. apply bind_ext; intros [pool5' r5] w2.
  rewrite !bind_assoc. apply bind_ext; intros [head' rh] w3.
  unfold bind at 1 3, lift.
  destruct (conv2d_forward _ _) as [score_pool4|e]; [| done].
  unfold bind at 1 3, lift.
  destruct (conv2d_forward _ _) as [score_pool3|e]; [| done].
  cbn [bind ret]. unfold bind, lift.
  destruct (interpolate _ _) as [upscore2|e]; [| done].
  destruct (tadd _ _) as [fuse_pool4|e]; [| done].
  destruct (interpolate _ _) as [upscore_pool4|e]; [| done].
  destruct (tadd _ _) as [fuse_pool3|e]; [| done].
  by destruct (interpolate _ _) as [out|e].
Qed.

Lemma pool_object_shape (x : Tensor R) (r : Step) :
  keeps x r -> shape (if s_same r then s_out r else s_arg r) = shape x.
Proof.
  intros (_ & Ha & Hsame & _). destruct (s_same r); [by rewrite Hsame | done].
Qed.

Lemma aux_forward_total (nclass : nat) (aux : bool) (a : option (_FCNHead R))
    (pool5 : Tensor R) (oh ow : nat) (outputs : list (Tensor R)) (w : World E) :
  auxlayer_ok nclass aux a -> auxlayer_accepts aux a pool5 ->
  dC (shape pool5) = 512 -> positive_size pool5 -> 0 < oh -> 0 < ow ->
  exists outputs' a' w',
    aux_forward E aux a pool5 (oh, ow) outputs w = (Ok (outputs', a'), w') /\
    if aux
    then exists auxout, outputs' = outputs ++ [auxout] /\
                        shape auxout = mkShape (dN (shape pool5)) nclass oh ow /\
                        wf_tensor auxout
    else outputs' = outputs.
Proof.
  intros Hok Hacc Hc Hpos Hoh How. unfold aux_forward.
  destruct aux; [| by eexists _, _, _].
  destruct a as [h|]; [| done]. simpl in Hok, Hacc.
  destruct (FCNHead_forward_total E 512 nclass h pool5 w)
    as (h' & y & w' & Hh & Hs & _); [done .. |].
  destruct (interpolate_total y oh ow) as (auxout & Hi & Hsa);
    [rewrite Hs; simpl; apply Hpos .. | done | done |].
  rewrite (bind_Ok _ _ _ _ _ Hh). cbv beta iota. cbn [s_out fresh].
  rewrite (bind_lift_Ok _ _ _ _ Hi).
  eexists _, _, _. split; [reflexivity |]. exists auxout. split; [done |].
  split; [by rewrite Hsa, Hs | by apply interpolate_wf in Hi].
Qed.

(** FCN32s: the pass runs through and every output is a score map of the
    input's size. *)
Lemma FCN32s_forward_total (nclass : nat) (m : FCN32s R) (x : Tensor R) (w : World E) :
  FCN32s_ok nclass m -> FCN32s_accepts E m x w ->
  exists outputs m' w',
    FCN32s_forward E m x w = (Ok (outputs, m'), w') /\
    Forall (is_score nclass x) outputs /\
    length outputs = (if FCN32s_aux m then 2 else 1).
Proof.
  intros (Hhead & Haux) (Hpos & Hacc). unfold FCN32s_forward.
  destruct (seq_forward E (FCN32s_features m) x w) as [[[fs r5]|e] w1] eqn:H5; [| done].
  destruct Hacc as (Hc5 & Hha & Haa).
  destruct (seq_forward_keeps E _ _ _ _ _ _ H5) as ((Hn5 & _ & _ & Hp5) & _).
  specialize (Hp5 Hpos).
  destruct (FCNHead_forward_total E 512 nclass (FCN32s_head m) (s_out r5) w1)
    as (h' & y & w2 & Hh & Hs & _); [done .. |].
  destruct Hpos as [Hxh Hxw].
  destruct (interpolate_total y (dH (shape x)) (dW (shape x))) as (out & Hi & Hso);
    [rewrite Hs; simpl; apply Hp5 .. | done | done |].
  destruct (aux_forward_total nclass (FCN32s_aux m) (FCN32s_auxlayer m) (s_out r5)
              (dH (shape x)) (dW (shape x)) [out] w2)
    as (outputs & a' & w3 & Ha & Hout); [done .. |].
  rewrite (bind_Ok _ _ _ _ _ H5). cbv beta iota. cbn [s_out fresh].
  rewrite (bind_Ok _ _ _ _ _ Hh). cbv beta iota zeta. cbn [s_out s_arg fresh].
  unfold size_hw. rewrite (bind_lift_Ok _ _ _ _ Hi).
  rewrite (bind_Ok _ _ _ _ _ Ha). cbv beta iota.
  eexists _, _, _. split; [reflexivity |].
  assert (is_score nclass x out) as Hout1.
  { split; [| by apply interpolate_wf in Hi].
    rewrite Hso, Hs. unfold score_shape; simpl. by rewrite Hn5. }
  destruct (FCN32s_aux m).
  - destruct Hout as (auxout & -> & Hsa & Hwa). split; [| done].
    apply Forall_cons; split; [done |]. apply Forall_cons; split; [| done].
    split; [| done]. rewrite Hsa. unfold score_shape. by rewrite Hn5.
  - subst outputs. split; [by apply Forall_cons | done].
Qed.

(** One fusion step: the running score is resized to the skip's size and
    added to it; the sum has the skip's shape. *)
Lemma fuse_step_total (running skip : Tensor R) :
  dN (shape running) = dN (shape skip) -> dC (shape running) = dC (shape skip) ->
  positive_size running -> positive_size skip ->
  exists up fused,
    interpolate running (size_hw skip) = Ok up /\
    tadd up skip = Ok fused /\
    shape up = shape skip /\ shape fused = shape skip.
Proof.
  intros Hn Hc [Hrh Hrw] [Hsh Hsw].
  destruct (interpolate_total running (dH (shape skip)) (dW (shape skip)))
    as (up & Hup & Hsu); [done .. |].
  assert (shape up = shape skip) as Hsu'.
  { rewrite Hsu, Hn, Hc. by destruct (shape skip). }
  exists up, (tmk (shape up) (fun n c i j => radd (tget up n c i j) (tget skip n c i j))).
  split; [done |]. split; [by apply tadd_same_shape | done].
Qed.

Lemma FCN16s_fuse_wf (score_fr score_pool4 out : Tensor R) (size : nat * nat) :
  FCN16s_fuse score_fr score_pool4 size = Ok out -> wf_tensor out.
Proof.
  unfold FCN16s_fuse. destruct (interpolate score_fr _) as [up|e]; [| done].
  destruct (tadd up score_pool4) as [f|e]; [| done]. apply interpolate_wf.
Qed.

Lemma FCN8s_fuse_wf (score_fr score_pool4 score_pool3 out : Tensor R) (size : nat * nat) :
  FCN8s_fuse score_fr score_pool4 score_pool3 size = Ok out -> wf_tensor out.
Proof.
  unfold FCN8s_fuse. destruct (interpolate score_fr _) as [up|e]; [| done].
  destruct (tadd up score_pool4) as [f|e]; [| done].
  destruct (interpolate f _) as [up3|e]; [| done].
  destruct (tadd up3 score_pool3) as [f3|e]; [| done]. apply interpolate_wf.
Qed.

Lemma FCN16s_fuse_total (score_fr score_pool4 : Tensor R) (oh ow : nat) :
  dN (shape score_fr) = dN (shape score_pool4) ->
  dC (shape score_fr) = dC (shape score_pool4) ->
  positive_size score_fr -> positive_size score_pool4 -> 0 < oh -> 0 < ow ->
  exists out, FCN16s_fuse score_fr score_pool4 (oh, ow) = Ok out /\
              shape out = mkShape (dN (shape score_pool4)) (dC (shape score_pool4)) oh ow.
Proof.
  intros Hn Hc Hpf Hp4 Hoh How. unfold FCN16s_fuse.
  destruct (fuse_step_total score_fr score_pool4) as (up & fused & -> & -> & _ & Hsf);
    [done .. |].
  destruct (interpolate_total fused oh ow) as (out & -> & Hso);
    [rewrite Hsf; apply Hp4 .. | done | done |].
  exists out. split; [done |]. by rewrite Hso, Hsf.
Qed.

Lemma FCN8s_fuse_total (score_fr score_pool4 score_pool3 : Tensor R) (oh ow : nat) :
  dN (shape score_fr) = dN (shape score_pool4) ->
  dC (shape score_fr) = dC (shape score_pool4) ->
  dN (shape score_pool4) = dN (shape score_pool3) ->
  dC (shape score_pool4) = dC (shape score_pool3) ->
  positive_size score_fr -> positive_size score_pool4 -> positive_size score_pool3 ->
  0 < oh -> 0 < ow ->
  exists out, FCN8s_fuse score_fr score_pool4 score_pool3 (oh, ow) = Ok out /\
              shape out = mkShape (dN (shape score_pool3)) (dC (shape score_pool3)) oh ow.
Proof.
  intros Hn Hc Hn3 Hc3 Hpf Hp4 Hp3 Hoh How. unfold FCN8s_fuse.
  destruct (fuse_step_total score_fr score_pool4) as (up & fused & -> & -> & _ & Hsf);
    [done .. |].
  destruct (fuse_step_total fused score_pool3) as (up3 & fused3 & -> & -> & _ & Hsf3);
    [by rewrite Hsf | by rewrite Hsf | unfold positive_size; by rewrite Hsf | done |].
  destruct (interpolate_total fused3 oh ow) as (out & -> & Hso);
    [rewrite Hsf3; apply Hp3 .. | done | done |].
  exists out. split; [done |]. by rewrite Hso, Hsf3.
Qed.

Lemma FCN16s_scores_total (nclass : nat) (m : FCN16s R) (x : Tensor R) (w : World E) :
  FCN16s_ok nclass m -> FCN16s_accepts E m x w ->
  exists t w',
    FCN16s_scores E m x w = (Ok t, w') /\
    score_like nclass x (t16_score_fr t) /\
    score_like nclass x (t16_score_pool4 t) /\
    score_like 512 x (t16_pool5 t) /\
    auxlayer_accepts (FCN16s_aux m) (FCN16s_auxlayer m) (t16_pool5 t).
Proof.
  intros (Hhead & Hproj & Haux) (Hpos & Hacc). unfold FCN16s_accepts, FCN16s_scores in *.
  destruct (seq_forward E (FCN16s_pool4 m) x w) as [[[p4 r4]|e] w1] eqn:H4; [| done].
  destruct Hacc as (Hc4 & Hacc).
  destruct (seq_forward E (FCN16s_pool5 m) (s_out r4) w1) as [[[p5 r5]|e] w2] eqn:H5;
    [| done].
  destruct Hacc as (Hc5 & Hha & Haa).
  destruct (seq_forward_keeps E _ _ _ _ _ _ H4) as ((Hn4 & _ & _ & Hp4) & _).
  destruct (seq_forward_keeps E _ _ _ _ _ _ H5) as (K5 & _).
  pose proof (pool_object_shape _ _ K5) as Hobj.
  destruct K5 as (Hn5 & _ & _ & Hp5).
  specialize (Hp4 Hpos). specialize (Hp5 Hp4).
  destruct (FCNHead_forward_total E 512 nclass (FCN16s_head m) (s_out r5) w2)
    as (h' & y & w3 & Hh & Hs & _); [done .. |].
  destruct (projector_forward 512 nclass (FCN16s_score_pool4 m)
              (if s_same r5 then s_out r5 else s_arg r5)) as (sp4 & Hsp4 & Hs4);
    [done | by rewrite Hobj | rewrite Hobj; apply Hp4 .. |].
  rewrite (bind_Ok _ _ _ _ _ H4). cbv beta iota.
  rewrite (bind_Ok _ _ _ _ _ H5). cbv beta iota.
  rewrite (bind_Ok _ _ _ _ _ Hh). cbv beta iota zeta. cbn [s_out s_arg fresh].
  rewrite (bind_lift_Ok _ _ _ _ Hsp4).
  eexists _, _. split; [reflexivity |]. cbn.
  unfold score_like, positive_size. rewrite Hs, Hs4, Hobj; simpl.
  split_and!; try done; try congruence; try apply Hp4; try apply Hp5.
Qed.

Lemma FCN16s_forward_total (nclass : nat) (m : FCN16s R) (x : Tensor R) (w : World E) :
  FCN16s_ok nclass m -> FCN16s_accepts E m x w ->
  exists outputs m' w',
    FCN16s_forward E m x w = (Ok (outputs, m'), w') /\
    Forall (is_score nclass x) outputs /\
    length outputs = (if FCN16s_aux m then 2 else 1).
Proof.
  intros Hok Hacc.
  destruct (FCN16s_scores_total nclass m x w Hok Hacc)
    as (t & w1 & Ht & (Hnf & Hcf & Hpf) & (Hn4 & Hc4 & Hp4) & (Hn5 & Hc5 & Hp5) & Haa).
  destruct Hok as (_ & _ & Haux). destruct Hacc as ([Hxh Hxw] & _).
  destruct (FCN16s_fuse_total (t16_score_fr t) (t16_score_pool4 t)
              (dH (shape x)) (dW (shape x))) as (out & Hf & Hso);
    [congruence .. | done | done | done | done |].
  destruct (aux_forward_total nclass (FCN16s_aux m) (FCN16s_auxlayer m) (t16_pool5 t)
              (dH (shape x)) (dW (shape x)) [out] w1)
    as (outputs & a' & w2 & Ha & Hout); [done .. |].
  rewrite FCN16s_forward_split. rewrite (bind_Ok _ _ _ _ _ Ht).
  unfold FCN16s_finish, size_hw. rewrite (bind_lift_Ok _ _ _ _ Hf).
  rewrite (bind_Ok _ _ _ _ _ Ha). cbv beta iota.
  eexists _, _, _. split; [reflexivity |].
  assert (is_score nclass x out) as Hout1.
  { split; [| by apply FCN16s_fuse_wf in Hf].
    rewrite Hso. unfold score_shape. by rewrite Hn4, Hc4. }
  destruct (FCN16s_aux m).
  - destruct Hout as (auxout & -> & Hsa & Hwa). split; [| done].
    apply Forall_cons; split; [done |]. apply Forall_cons; split; [| done].
    split; [| done]. rewrite Hsa. unfold score_shape. by rewrite Hn5.
  - subst outputs. split; [by apply Forall_cons | done].
Qed.

Lemma FCN8s_scores_total (nclass : nat) (m : FCN8s R) (x : Tensor R) (w : World E) :
  FCN8s_ok nclass m -> FCN8s_accepts E m x w ->
  exists t w',
    FCN8s_scores E m x w = (Ok t, w') /\
    score_like nclass x (t8_score_fr t) /\
    score_like nclass x (t8_score_pool4 t) /\
    score_like nclass x (t8_score_pool3 t) /\
    score_like 512 x (t8_pool5 t) /\
    auxlayer_accepts (FCN8s_aux m) (FCN8s_auxlayer m) (t8_pool5 t).
Proof.
  intros (Hhead & Hproj3 & Hproj4 & Haux) (Hpos & Hacc).
  unfold FCN8s_accepts, FCN8s_scores in *.
  destruct (seq_forward E (FCN8s_pool3 m) x w) as [[[p3 r3]|e] w0] eqn:H3; [| done].
  destruct Hacc as (Hc3 & Hacc).
  destruct (seq_forward E (FCN8s_pool4 m) (s_out r3) w0) as [[[p4 r4]|e] w1] eqn:H4;
    [| done].
  destruct Hacc as (Hc4 & Hacc).
  destruct (seq_forward E (FCN8s_pool5 m) (s_out r4) w1) as [[[p5 r5]|e] w2] eqn:H5;
    [| done].
  destruct Hacc as (Hc5 & Hha & Haa).
  destruct (seq_forward_keeps E _ _ _ _ _ _ H3) as ((Hn3 & _ & _ & Hp3) & _).
  destruct (seq_forward_keeps E _ _ _ _ _ _ H4) as (K4 & _).
  destruct (seq_forward_keeps E _ _ _ _ _ _ H5) as (K5 & _).
  pose proof (pool_object_shape _ _ K5) as Hobj4.
  assert (shape (if s_same r4 then if s_same r5 then s_out r5 else s_arg r5 else s_arg r4)
          = shape (s_out r3)) as Hobj3.
  { destruct K4 as (_ & Ha4 & Hsame4 & _).
    destruct (s_same r4); [| done]. by rewrite Hobj4, Hsame4. }
  destruct K4 as (Hn4 & _ & _ & Hp4). destruct K5 as (Hn5 & _ & _ & Hp5).
  specialize (Hp3 Hpos). specialize (Hp4 Hp3). specialize (Hp5 Hp4).
  destruct (FCNHead_forward_total E 512 nclass (FCN8s_head m) (s_out r5) w2)
    as (h' & y & w3 & Hh & Hs & _); [done .. |].
  destruct (projector_forward 512 nclass (FCN8s_score_pool4 m)
              (if s_same r5 then s_out r5 else s_arg r5)) as (sp4 & Hsp4 & Hs4);
    [done | by rewrite Hobj4 | rewrite Hobj4; apply Hp4 .. |].
  destruct (projector_forward 256 nclass (FCN8s_score_pool3 m)
              (if s_same r4 then if s_same r5 then s_out r5 else s_arg r5 else s_arg r4))
    as (sp3 & Hsp3 & Hs3);
    [done | by rewrite Hobj3 | rewrite Hobj3; apply Hp3 .. |].
  rewrite (bind_Ok _ _ _ _ _ H3). cbv beta iota.
  rewrite (bind_Ok _ _ _ _ _ H4). cbv beta iota.
  rewrite (bind_Ok _ _ _ _ _ H5). cbv beta iota.
  rewrite (bind_Ok _ _ _ _ _ Hh). cbv beta iota zeta. cbn [s_out s_arg fresh].
  rewrite (bind_lift_Ok _ _ _ _ Hsp4). rewrite (bind_lift_Ok _ _ _ _ Hsp3).
  eexists _, _. split; [reflexivity |]. cbn.
  unfold score_like, positive_size. rewrite Hs, Hs4, Hs3, Hobj4, Hobj3; simpl.
  split_and!; try done; try congruence; try apply Hp3; try apply Hp4; try apply Hp5.
Qed.

Lemma FCN8s_forward_total (nclass : nat) (m : FCN8s R) (x : Tensor R) (w : World E) :
  FCN8s_ok nclass m -> FCN8s_accepts E m x w ->
  exists outputs m' w',
    FCN8s_forward E m x w = (Ok (outputs, m'), w') /\
    Forall (is_score nclass x) outputs /\
    length outputs = (if FCN8s_aux m then 2 else 1).
Proof.
  intros Hok Hacc.
  destruct (FCN8s_scores_total nclass m x w Hok Hacc)
    as (t & w1 & Ht & (Hnf & Hcf & Hpf) & (Hn4 & Hc4 & Hp4) & (Hn3 & Hc3 & Hp3)
        & (Hn5 & Hc5 & Hp5) & Haa).
  destruct Hok as (_ & _ & _ & Haux). destruct Hacc as ([Hxh Hxw] & _).
  destruct (FCN8s_fuse_total (t8_score_fr t) (t8_score_pool4 t) (t8_score_pool3 t)
              (dH (shape x)) (dW (shape x))) as (out & Hf & Hso);
    [congruence .. | done | done | done | done | done |].
  destruct (aux_forward_total nclass (FCN8s_aux m) (FCN8s_auxlayer m) (t8_pool5 t)
              (dH (shape x)) (dW (shape x)) [out] w1)
    as (outputs & a' & w2 & Ha & Hout); [done .. |].
  rewrite FCN8s_forward_split. rewrite (bind_Ok _ _ _ _ _ Ht).
  unfold FCN8s_finish, size_hw. rewrite (bind_lift_Ok _ _ _ _ Hf).
  rewrite (bind_Ok _ _ _ _ _ Ha). cbv beta iota.
  eexists _, _, _. split; [reflexivity |].
  assert (is_score nclass x out) as Hout1.
  { split; [| by apply FCN8s_fuse_wf in Hf].
    rewrite Hso. unfold score_shape. by rewrite Hn3, Hc3. }
  destruct (FCN8s_aux m).
  - destruct Hout as (auxout & -> & Hsa & Hwa). split; [| done].
    apply Forall_cons; split; [done |]. apply Forall_cons; split; [| done].
    split; [| done]. rewrite Hsa. unfold score_shape. by rewrite Hn5.
  - subst outputs. split; [by apply Forall_cons | done].
Qed.

(** *** Conversely: a pass that returns was given an input it accepts *)

Lemma aux_forward_Ok_inv (nclass : nat) (aux : bool) (a : option (_FCNHead R))
    (pool5 : Tensor R) (size : nat * nat) (outputs : list (Tensor R)) r (w w' : World E) :
  auxlayer_ok nclass aux a ->
  aux_forward E aux a pool5 size outputs w = (Ok r, w') ->
  auxlayer_accepts aux a pool5.
Proof.
  unfold aux_forward, auxlayer_ok, auxlayer_accepts. destruct aux; [| done].
  destruct a as [h|]; [| done].
  intros Hok ([a' ra] & w1 & Hh & _)%bind_inv.
  by apply (FCNHead_forward_Ok_inv _ _ _ _ _ _ _ _ _ Hok) in Hh as [_ Hacc].
Qed.

Lemma auxlayer_accepts_shape (aux : bool) (a : option (_FCNHead R)) (t t' : Tensor R) :
  shape t = shape t' -> auxlayer_accepts aux a t -> auxlayer_accepts aux a t'.
Proof.
  unfold auxlayer_accepts. destruct aux; [| done]. destruct a; [| done].
  apply head_accepts_shape.
Qed.

Lemma FCN32s_forward_Ok_accepts (nclass : nat) (m : FCN32s R) (x : Tensor R)
    r (w w' : World E) :
  FCN32s_ok nclass m -> FCN32s_forward E m x w = (Ok r, w') -> FCN32s_accepts E m x w.
Proof.
  intros (Hhead & Haux). unfold FCN32s_forward, FCN32s_accepts.
  intros ([fs r5] & w1 & H5 & Hr)%bind_inv. rewrite H5.
  apply bind_inv in Hr as ([h' rh] & w2 & Hh & Hr).
  apply bind_inv in Hr as (out & w3 & Hi & Hr). injection Hi as Hi _.
  apply bind_inv in Hr as ([outputs a'] & w4 & Ha & _).
  pose proof (FCNHead_forward_keeps _ _ _ _ _ _ _ Hh) as (_ & Harg & _).
  apply (FCNHead_forward_Ok_inv _ _ _ _ _ _ _ _ _ Hhead) in Hh as [Hc Hacc].
  apply interpolate_Ok in Hi as (_ & _ & _ & _ & Hoh & How).
  apply (aux_forward_Ok_inv nclass) in Ha; [| done].
  split; [done |]. split_and!; [done | done |].
  by apply (auxlayer_accepts_shape _ _ _ _ Harg).
Qed.

Lemma FCN16s_forward_Ok_accepts (nclass : nat) (m : FCN16s R) (x : Tensor R)
    r (w w' : World E) :
  FCN16s_ok nclass m -> FCN16s_forward E m x w = (Ok r, w') -> FCN16s_accepts E m x w.
Proof.
  intros (Hhead & Hproj & Haux). unfold FCN16s_forward, FCN16s_accepts.
  intros ([p4 r4] & w1 & H4 & Hr)%bind_inv. rewrite H4.
  apply bind_inv in Hr as ([p5 r5] & w2 & H5 & Hr). rewrite H5.
  apply bind_inv in Hr as ([h' rh] & w3 & Hh & Hr).
  apply bind_inv in Hr as (sp4 & w4 & Hsp4 & Hr). injection Hsp4 as Hsp4 _.
  apply bind_inv in Hr as (up & w5 & _ & Hr).
  apply bind_inv in Hr as (fused & w6 & _ & Hr).
  apply bind_inv in Hr as (out & w7 & Hi & Hr). injection Hi as Hi _.
  apply bind_inv in Hr as ([outputs a'] & w8 & Ha & _).
  pose proof (FCNHead_forward_keeps _ _ _ _ _ _ _ Hh) as Kh.
  apply seq_forward_keeps in H5 as [K5 _].
  pose proof (pool_object_after _ _ _ K5 Kh) as Hobj.
  destruct Kh as (_ & Harg & _).
  apply (FCNHead_forward_Ok_inv _ _ _ _ _ _ _ _ _ Hhead) in Hh as [Hc Hacc].
  apply interpolate_Ok in Hi as (_ & _ & _ & _ & Hoh & How).
  apply (aux_forward_Ok_inv nclass) in Ha; [| done].
  apply conv2d_forward_Ok in Hsp4 as [Hc4 _].
  destruct Hproj as (Hw & _). unfold conv_in_channels in Hc4. rewrite Hw, Hobj in Hc4.
  split; [done |]. split_and!; [done | done | done |].
  by apply (auxlayer_accepts_shape _ _ _ _ Harg).
Qed.

Lemma FCN8s_forward_Ok_accepts (nclass : nat) (m : FCN8s R) (x : Tensor R)
    r (w w' : World E) :
  FCN8s_ok nclass m -> FCN8s_forward E m x w = (Ok r, w') -> FCN8s_accepts E m x w.
Proof.
  intros (Hhead & Hproj3 & Hproj4 & Haux). unfold FCN8s_forward, FCN8s_accepts.
  intros ([p3 r3] & w0 & H3 & Hr)%bind_inv. rewrite H3.
  apply bind_inv in Hr as ([p4 r4] & w1 & H4 & Hr). rewrite H4.
  apply bind_inv in Hr as ([p5 r5] & w2 & H5 & Hr). rewrite H5.
  apply bind_inv in Hr as ([h' rh] & w3 & Hh & Hr).
  apply bind_inv in Hr as (sp4 & w4 & Hsp4 & Hr). injection Hsp4 as Hsp4 _.
  apply bind_inv in Hr as (sp3 & w5 & Hsp3 & Hr). injection Hsp3 as Hsp3 _.
  apply bind_inv in Hr as (up & w6 & _ & Hr).
  apply bind_inv in Hr as (fused & w7 & _ & Hr).
  apply bind_inv in Hr as (up3 & w8 & _ & Hr).
  apply bind_inv in Hr as (fused3 & w9 & _ & Hr).
  apply bind_inv in Hr as (out & w10 & Hi & Hr). injection Hi as Hi _.
  apply bind_inv in Hr as ([outputs a'] & w11 & Ha & _).
  pose proof (FCNHead_forward_keeps _ _ _ _ _ _ _ Hh) as Kh.
  apply seq_forward_keeps in H4 as [K4 _]. apply seq_forward_keeps in H5 as [K5 _].
  pose proof (pool_object_after _ _ _ K5 Kh) as Hobj4.
  assert (shape (if s_same r4 then if s_same r5 then s_arg rh else s_arg r5 else s_arg r4)
          = shape (s_out r3)) as Hobj3.
  { destruct K4 as (_ & Ha4 & Hsame4 & _).
    destruct (s_same r4); [| done]. by rewrite Hobj4, Hsame4. }
  destruct Kh as (_ & Harg & _).
  apply (FCNHead_forward_Ok_inv _ _ _ _ _ _ _ _ _ Hhead) in Hh as [Hc Hacc].
  apply interpolate_Ok in Hi as (_ & _ & _ & _ & Hoh & How).
  apply (aux_forward_Ok_inv nclass) in Ha; [| done].
  apply conv2d_forward_Ok in Hsp4 as [Hc4 _]. apply conv2d_forward_Ok in Hsp3 as [Hc3 _].
  destruct Hproj3 as (Hw3 & _). destruct Hproj4 as (Hw4 & _).
  unfold conv_in_channels in Hc3, Hc4. rewrite Hw4, Hobj4 in Hc4. rewrite Hw3, Hobj3 in Hc3.
  split; [done |]. split_and!; [done | done | done | done |].
  by apply (auxlayer_accepts_shape _ _ _ _ Harg).
Qed.

End ForwardFacts.

(** ** Output shapes *)

Section OutputShapes.
Context {R : Type} `{Scalar R} (E : Externals R).

Lemma outputs_ok_intro (nclass : nat) (aux : bool) (x : Tensor R) (outputs : list (Tensor R)) :
  Forall (is_score nclass x) outputs ->
  length outputs = (if aux then 2 else 1) ->
  outputs_ok nclass aux x outputs.
Proof.
  intros Hall Hlen. destruct aux.
  - destruct outputs as [| o1 [| o2 [|]]]; try done.
    apply Forall_cons in Hall as [H1 Hall]. apply Forall_cons in Hall as [H2 _].
    by split.
  - destruct outputs as [| o1 [|]]; try done.
    apply Forall_cons in Hall as [H1 _]. by split.
Qed.

(** C1.  Whatever the variant, a forward pass on an input the backbone takes
    returns a tuple whose first element is a score map with [nclass] channels
    and the height and width of the input; the tuple has a second element,
    of the same shape, exactly when the network was built with [aux].  On
    every other input the pass raises: whenever it returns, the tuple is as
    said.  [variant_ok] is what the constructors establish, with the [aux]
    they were given, and what [train] and [eval] keep ([variant_init_ok],
    [variant_train_ok]). *)
Theorem forward_output_shapes (nclass : nat) (v : ModelVariant) (x : Tensor R) (w : World E) :
  variant_ok nclass v ->
  (variant_accepts E v x w ->
   exists outputs v' w',
     forward E v x w = (Ok (outputs, v'), w') /\
     outputs_ok nclass (variant_aux v) x outputs) /\
  (forall outputs v' w',
     forward E v x w = (Ok (outputs, v'), w') ->
     variant_accepts E v x w /\ outputs_ok nclass (variant_aux v) x outputs).
Proof.
  intros Hok.
  assert (variant_accepts E v x w ->
          exists outputs v' w',
            forward E v x w = (Ok (outputs, v'), w') /\
            outputs_ok nclass (variant_aux v) x outputs) as Htotal.
  { intros Hacc. destruct v as [m | m | m]; simpl in *.
    - destruct (FCN32s_forward_total E nclass m x w Hok Hacc)
        as (outputs & m' & w' & Hf & Hall & Hlen).
      exists outputs, (Variant32 m'), w'. rewrite (bind_Ok _ _ _ _ _ Hf).
      split; [done | by apply outputs_ok_intro].
    - destruct (FCN16s_forward_total E nclass m x w Hok Hacc)
        as (outputs & m' & w' & Hf & Hall & Hlen).
      exists outputs, (Variant16 m'), w'. rewrite (bind_Ok _ _ _ _ _ Hf).
      split; [done | by apply outputs_ok_intro].
    - destruct (FCN8s_forward_total E nclass m x w Hok Hacc)
        as (outputs & m' & w' & Hf & Hall & Hlen).
      exists outputs, (Variant8 m'), w'. rewrite (bind_Ok _ _ _ _ _ Hf).
      split; [done | by apply outputs_ok_intro]. }
  split; [done |]. intros outputs v' w' Hf.
  assert (variant_accepts E v x w) as Hacc.
  { destruct v as [m | m | m]; simpl in *;
      apply bind_inv in Hf as ([o m'] & w1 & Hm & _).
    - by apply (FCN32s_forward_Ok_accepts E nclass) in Hm.
    - by apply (FCN16s_forward_Ok_accepts E nclass) in Hm.
    - by apply (FCN8s_forward_Ok_accepts E nclass) in Hm. }
  split; [done |].
  destruct (Htotal Hacc) as (outputs2 & v2 & w2 & Hf2 & Hout).
  rewrite Hf in Hf2. by injection Hf2 as -> _ _.
Qed.

End OutputShapes.

(** FCN-8s with the auxiliary head, as built for 21 classes and still in
    training mode, on a 1x3x64x64 image. *)
Lemma forward_output_shapes_witness :
  exists outputs v' w',
    forward Toy.env (Variant8 (Toy.fcn8s true)) Toy.image Toy.world0 = (Ok (outputs, v'), w') /\
    outputs_ok 21 true Toy.image outputs.
Proof.
  refine (proj1 (forward_output_shapes Toy.env 21 (Variant8 (Toy.fcn8s true)) Toy.image
                   Toy.world0 _) _).
  - lazy. split_and!; (done || by eexists).
  - lazy. split_and!; (lia || done).
Defined.

(** ** The factories *)

Section FactoryFacts.
Context {R : Type} `{Scalar R} (E : Externals R).

Lemma get_fcn32s_factory dataset backbone pretrained root pretrained_base kwargs :
  get_fcn32s E dataset backbone pretrained root pretrained_base kwargs =
  factory E (fun nclass => FCN32s_init E nclass backbone (kw_aux kwargs) pretrained_base)
    (ext_load_state_dict32 E) dataset backbone pretrained root.
Proof. reflexivity. Qed.

Lemma get_fcn16s_factory dataset backbone pretrained root pretrained_base kwargs :
  get_fcn16s E dataset backbone pretrained root pretrained_base kwargs =
  factory E (fun nclass => FCN16s_init E nclass backbone (kw_aux kwargs) pretrained_base)
    (ext_load_state_dict16 E) dataset backbone pretrained root.
Proof. reflexivity. Qed.

Lemma get_fcn8s_factory dataset backbone pretrained root pretrained_base kwargs :
  get_fcn8s E dataset backbone pretrained root pretrained_base kwargs =
  factory E (fun nclass => FCN8s_init E nclass backbone (kw_aux kwargs) pretrained_base)
    (ext_load_state_dict8 E) dataset backbone pretrained root.
Proof. reflexivity. Qed.

Lemma dict_get_Some {A : Type} (d : gmap string A) (k : string) (v : A) (w : World E) :
  d !! k = Some v -> dict_get E d k w = (Ok v, w).
Proof. intros Hk. unfold dict_get. by rewrite Hk. Qed.

Lemma dict_get_None {A : Type} (d : gmap string A) (k : string) (w : World E) :
  d !! k = None -> dict_get E d k w = (Raise (KeyError k), w).
Proof. intros Hk. unfold dict_get. by rewrite Hk. Qed.

(** *** Unknown dataset *)

Lemma factory_unknown_dataset {Mdl : Type} (init : nat -> M E Mdl) load
    dataset backbone pretrained root (w : World E) :
  ext_datasets E !! dataset = None ->
  factory E init load dataset backbone pretrained root w = (Raise (KeyError dataset), w).
Proof.
  intros Hd. unfold factory. by rewrite (bind_Raise _ _ _ _ _ (dict_get_None _ _ _ Hd)).
Qed.

(** C5.  A dataset identifier that the registry does not know makes each of
    the three factories raise [KeyError] for it, and the world is as it was
    before the call: no backbone was constructed (no [EvVgg16] was recorded)
    and nothing outside was touched. *)
Theorem unknown_dataset_raises (k : Kind) (dataset backbone : string) (pretrained : bool)
    (root : string) (pretrained_base : bool) (kwargs : Kwargs) (w : World E) :
  ext_datasets E !! dataset = None ->
  get_fcn E k dataset backbone pretrained root pretrained_base kwargs w
  = (Raise (KeyError dataset), w).
Proof.
  intros Hd. destruct k; unfold get_fcn.
  - rewrite get_fcn32s_factory.
    by rewrite (bind_Raise _ _ _ _ _ (factory_unknown_dataset _ _ _ _ _ _ _ Hd)).
  - rewrite get_fcn16s_factory.
    by rewrite (bind_Raise _ _ _ _ _ (factory_unknown_dataset _ _ _ _ _ _ _ Hd)).
  - rewrite get_fcn8s_factory.
    by rewrite (bind_Raise _ _ _ _ _ (factory_unknown_dataset _ _ _ _ _ _ _ Hd)).
Qed.

(** *** Unknown backbone *)

Lemma backbone_features_unknown (backbone : string) (pretrained_base : bool) (w : World E) :
  backbone <> "vgg16" ->
  backbone_features E backbone pretrained_base w
  = (Raise (RuntimeError ("unknown backbone: " +:+ backbone)), w).
Proof. intros Hb. unfold backbone_features. by rewrite decide_False. Qed.

Lemma variant_init_unknown (k : Kind) (nclass : nat) (backbone : string)
    (aux pretrained_base : bool) (w : World E) :
  backbone <> "vgg16" ->
  variant_init E k nclass backbone aux pretrained_base w
  = (Raise (RuntimeError ("unknown backbone: " +:+ backbone)), w).
Proof.
  intros Hb. pose proof (backbone_features_unknown backbone pretrained_base w Hb) as Hf.
  destruct k; unfold variant_init, FCN32s_init, FCN16s_init, FCN8s_init;
    by rewrite (bind_Raise _ _ w w _ (bind_Raise _ _ w w _ Hf)).
Qed.

Lemma factory_init_raises {Mdl : Type} (init : nat -> M E Mdl) load
    dataset backbone pretrained root nclass e (w w1 : World E) :
  ext_datasets E !! dataset = Some nclass ->
  init nclass w = (Raise e, w1) ->
  factory E init load dataset backbone pretrained root w = (Raise e, w1).
Proof.
  intros Hd Hi. unfold factory.
  rewrite (bind_Ok _ _ _ _ _ (dict_get_Some _ _ _ _ Hd)).
  by rewrite (bind_Raise _ _ _ _ _ Hi).
Qed.

(** C6.  With a backbone identifier other than ["vgg16"] each of the three
    constructors raises [RuntimeError], returns no network and constructs no
    backbone; a factory called with a registered dataset lets the same error
    through to its caller. *)
Theorem unsupported_backbone_raises (k : Kind) (nclass : nat) (backbone : string)
    (aux pretrained_base : bool) (w : World E) :
  backbone <> "vgg16" ->
  variant_init E k nclass backbone aux pretrained_base w
  = (Raise (RuntimeError ("unknown backbone: " +:+ backbone)), w) /\
  forall dataset pretrained root kwargs,
    is_Some (ext_datasets E !! dataset) ->
    get_fcn E k dataset backbone pretrained root pretrained_base kwargs w
    = (Raise (RuntimeError ("unknown backbone: " +:+ backbone)), w).
Proof.
  intros Hb. split; [by apply variant_init_unknown |].
  intros dataset pretrained root kwargs [n Hd].
  pose proof (backbone_features_unknown backbone pretrained_base w Hb) as Hf.
  destruct k; unfold get_fcn.
  - rewrite get_fcn32s_factory.
    erewrite bind_Raise; [done |]. eapply factory_init_raises; [done |].
    unfold FCN32s_init. by rewrite (bind_Raise _ _ _ _ _ Hf).
  - rewrite get_fcn16s_factory.
    erewrite bind_Raise; [done |]. eapply factory_init_raises; [done |].
    unfold FCN16s_init. by rewrite (bind_Raise _ _ _ _ _ Hf).
  - rewrite get_fcn8s_factory.
    erewrite bind_Raise; [done |]. eapply factory_init_raises; [done |].
    unfold FCN8s_init. by rewrite (bind_Raise _ _ _ _ _ Hf).
Qed.

(** *** The recorded calls *)

Lemma trace_bind {A B : Type} (c : M E A) (k : A -> M E B) (w : World E) :
  trace (snd (bind c k w)) =
  match c w with
  | (Ok a, w1) => trace (snd (k a w1))
  | (Raise _, w1) => trace w1
  end.
Proof. unfold bind. by destruct (c w) as [[a|e] w1]. Qed.

Lemma keeps_trace_bind {A B : Type} (c : M E A) (k : A -> M E B) :
  keeps_trace E c -> (forall a, keeps_trace E (k a)) -> keeps_trace E (bind c k).
Proof.
  intros Hc Hk w. rewrite trace_bind. specialize (Hc w).
  destruct (c w) as [[a|e] w1]; simpl in Hc; [by rewrite Hk | done].
Qed.

Lemma keeps_trace_ret {A : Type} (a : A) : keeps_trace E (ret a).
Proof. by intros w. Qed.

Lemma keeps_trace_lift {A : Type} (r : Result A) : keeps_trace E (lift r).
Proof. by intros w. Qed.

Lemma keeps_trace_draw {A : Type} (f : Ext E -> A * Ext E) : keeps_trace E (draw f).
Proof. intros w. unfold draw. by destruct (f (ext w)). Qed.

Lemma keeps_trace_call {A : Type} (f : Ext E -> Result A * Ext E) : keeps_trace E (call f).
Proof. intros w. unfold call. by destruct (f (ext w)). Qed.

Lemma keeps_trace_Conv2d_init cin cout ks p bias :
  keeps_trace E (Conv2d_init E cin cout ks p bias).
Proof.
  unfold Conv2d_init.
  apply keeps_trace_bind; [apply keeps_trace_draw |]; intros f.
  apply keeps_trace_bind; [| intros; apply keeps_trace_ret].
  destruct bias; [| apply keeps_trace_ret].
  apply keeps_trace_bind; [apply keeps_trace_draw | intros; apply keeps_trace_ret].
Qed.

Lemma keeps_trace_FCNHead_init cin channels : keeps_trace E (_FCNHead_init E cin channels).
Proof.
  unfold _FCNHead_init.
  apply keeps_trace_bind; [apply keeps_trace_Conv2d_init |]; intros c1.
  apply keeps_trace_bind; [apply keeps_trace_Conv2d_init |]; intros c2.
  apply keeps_trace_ret.
Qed.

Lemma keeps_trace_auxlayer_init aux nclass : keeps_trace E (auxlayer_init E aux nclass).
Proof.
  unfold auxlayer_init. destruct aux; [| apply keeps_trace_ret].
  apply keeps_trace_bind; [apply keeps_trace_FCNHead_init | intros; apply keeps_trace_ret].
Qed.

(** Constructing the backbone is the one call a constructor records. *)
Lemma trace_after_backbone {A : Type} (k : list (Layer R) -> M E A)
    (pretrained_base : bool) (w : World E) :
  (forall fs, keeps_trace E (k fs)) ->
  trace (snd (bind (backbone_features E "vgg16" pretrained_base) k w))
  = trace w ++ [EvVgg16 pretrained_base].
Proof.
  intros Hk. rewrite trace_bind.
  unfold backbone_features, vgg16_features. rewrite decide_True by done.
  unfold bind at 1, log, call; simpl.
  destruct (ext_vgg16 E pretrained_base (ext w)) as [[fs|e] e']; [| done].
  by rewrite Hk.
Qed.

Lemma variant_init_trace (k : Kind) (nclass : nat) (aux pretrained_base : bool)
    (w : World E) :
  trace (snd (variant_init E k nclass "vgg16" aux pretrained_base w))
  = trace w ++ [EvVgg16 pretrained_base].
Proof.
  destruct k; unfold variant_init, FCN32s_init, FCN16s_init, FCN8s_init;
    rewrite bind_assoc; apply trace_after_backbone; intros fs;
    repeat (first [ apply keeps_trace_ret
                  | apply keeps_trace_FCNHead_init
                  | apply keeps_trace_Conv2d_init
                  | apply keeps_trace_auxlayer_init
                  | apply keeps_trace_bind; [| intros ?] ]).
Qed.

(** What a factory records once the network is built: the model store is
    asked once, for [name]; then come [torch.load] and [load_state_dict], as
    far as the pass gets. *)
Lemma factory_store_trace {Mdl : Type} (init : nat -> M E Mdl) load
    dataset backbone root nclass acr model (w w1 : World E) :
  ext_datasets E !! dataset = Some nclass ->
  acronyms !! dataset = Some acr ->
  init nclass w = (Ok model, w1) ->
  exists evs,
    trace (snd (factory E init load dataset backbone true root w))
    = trace w1 ++ EvGetModelFile ("fcn32s_" +:+ backbone +:+ "_" +:+ acr) root :: evs /\
    forall name root', EvGetModelFile name root' ∉ evs.
Proof.
  intros Hd Ha Hi. unfold factory.
  rewrite (bind_Ok _ _ _ _ _ (dict_get_Some _ _ _ _ Hd)).
  rewrite (bind_Ok _ _ _ _ _ Hi).
  rewrite (bind_Ok _ _ _ _ _ (dict_get_Some _ _ _ _ Ha)).
  unfold get_model_file, torch_load, load_state_dict, bind, log, call, lift; simpl.
  destruct (ext_get_model_file E _ root (ext w1)) as [[file|e] e1]; simpl.
  - destruct (ext_torch_load E file e1) as [[sd|e] e2]; simpl.
    + exists [EvTorchLoad file; EvLoadStateDict]. split.
      * destruct (load model sd); simpl; by rewrite <- !app_assoc.
      * intros name root' Hin. by repeat (apply elem_of_cons in Hin as [? | Hin];
          [done |]); apply elem_of_nil in Hin.
    + exists [EvTorchLoad file]. split; [by rewrite <- !app_assoc |].
      intros name root' Hin. by repeat (apply elem_of_cons in Hin as [? | Hin];
          [done |]); apply elem_of_nil in Hin.
  - exists []. split; [done |]. intros name root' Hin. by apply elem_of_nil in Hin.
Qed.

(** C4.  Whichever of the three factories is called with [pretrained=True],
    once the network is built the model store is asked for one file, and its
    name is ["fcn32s_" ++ backbone ++ "_" ++ acronym]: the factories of
    FCN-16s and FCN-8s use the prefix of FCN-32s as well.  The recorded calls
    are the backbone constructor, this one request, and what follows it
    ([torch.load], [load_state_dict]), which asks the store nothing more. *)
Theorem pretrained_key_is_fcn32s (k : Kind) (dataset backbone root : string)
    (pretrained_base : bool) (kwargs : Kwargs) (nclass : nat) (acr : string) (w : World E) :
  ext_datasets E !! dataset = Some nclass ->
  acronyms !! dataset = Some acr ->
  is_Ok (fst (variant_init E k nclass backbone (kw_aux kwargs) pretrained_base w)) ->
  exists evs,
    trace (snd (get_fcn E k dataset backbone true root pretrained_base kwargs w))
    = trace w ++ [EvVgg16 pretrained_base;
                  EvGetModelFile ("fcn32s_" +:+ backbone +:+ "_" +:+ acr) root] ++ evs /\
    forall name root', EvGetModelFile name root' ∉ evs.
Proof.
  intros Hd Ha Hok.
  destruct (decide (backbone = "vgg16")) as [-> | Hne];
    [| by rewrite variant_init_unknown in Hok].
  pose proof (variant_init_trace k nclass (kw_aux kwargs) pretrained_base w) as Ht.
  destruct k; unfold get_fcn, variant_init in *.
  - rewrite get_fcn32s_factory.
    destruct (FCN32s_init E nclass "vgg16" (kw_aux kwargs) pretrained_base w)
      as [[m|e] w1] eqn:Hi; [| by rewrite (bind_Raise _ _ _ _ _ Hi) in Hok].
    rewrite (bind_Ok _ _ _ _ _ Hi) in Ht; simpl in Ht.
    destruct (factory_store_trace
                (fun n => FCN32s_init E n "vgg16" (kw_aux kwargs) pretrained_base)
                (ext_load_state_dict32 E) dataset "vgg16" root _ _ _ _ _ Hd Ha Hi)
      as (evs & Htr & Hno).
    exists evs. split; [| done]. rewrite trace_bind.
    destruct (factory E _ _ dataset "vgg16" true root w) as [[m'|e] w2]; simpl in *;
      rewrite Htr, Ht; by rewrite <- app_assoc.
  - rewrite get_fcn16s_factory.
    destruct (FCN16s_init E nclass "vgg16" (kw_aux kwargs) pretrained_base w)
      as [[m|e] w1] eqn:Hi; [| by rewrite (bind_Raise _ _ _ _ _ Hi) in Hok].
    rewrite (bind_Ok _ _ _ _ _ Hi) in Ht; simpl in Ht.
    destruct (factory_store_trace
                (fun n => FCN16s_init E n "vgg16" (kw_aux kwargs) pretrained_base)
                (ext_load_state_dict16 E) dataset "vgg16" root _ _ _ _ _ Hd Ha Hi)
      as (evs & Htr & Hno).
    exists evs. split; [| done]. rewrite trace_bind.
    destruct (factory E _ _ dataset "vgg16" true root w) as [[m'|e] w2]; simpl in *;
      rewrite Htr, Ht; by rewrite <- app_assoc.
  - rewrite get_fcn8s_factory.
    destruct (FCN8s_init E nclass "vgg16" (kw_aux kwargs) pretrained_base w)
      as [[m|e] w1] eqn:Hi; [| by rewrite (bind_Raise _ _ _ _ _ Hi) in Hok].
    rewrite (bind_Ok _ _ _ _ _ Hi) in Ht; simpl in Ht.
    destruct (factory_store_trace
                (fun n => FCN8s_init E n "vgg16" (kw_aux kwargs) pretrained_base)
                (ext_load_state_dict8 E) dataset "vgg16" root _ _ _ _ _ Hd Ha Hi)
      as (evs & Htr & Hno).
    exists evs. split; [| done]. rewrite trace_bind.
    destruct (factory E _ _ dataset "vgg16" true root w) as [[m'|e] w2]; simpl in *;
      rewrite Htr, Ht; by rewrite <- app_assoc.
Qed.

End FactoryFacts.

Lemma unknown_dataset_raises_witness :
  get_fcn Toy.env K16 "not_a_dataset" "vgg16" true "~/.torch/models" true default_kwargs
    Toy.world0
  = (Raise (KeyError "not_a_dataset"), Toy.world0).
Proof.
  apply (unknown_dataset_raises Toy.env K16 "not_a_dataset"). reflexivity.
Defined.

Lemma unsupported_backbone_raises_witness :
  variant_init Toy.env K8 21 "resnet999" false true Toy.world0
  = (Raise (RuntimeError "unknown backbone: resnet999"), Toy.world0).
Proof.
  apply (unsupported_backbone_raises Toy.env K8 21 "resnet999" false true Toy.world0).
  discriminate.
Defined.

(** [get_fcn8s('ade20k', pretrained=True)] asks the store for
    [fcn32s_vgg16_ade]. *)
Lemma pretrained_key_is_fcn32s_witness :
  exists evs,
    trace (snd (get_fcn Toy.env K8 "ade20k" "vgg16" true "~/.torch/models" true
                  default_kwargs Toy.world0))
    = trace Toy.world0
      ++ [EvVgg16 true; EvGetModelFile "fcn32s_vgg16_ade" "~/.torch/models"] ++ evs /\
    forall name root', EvGetModelFile name root' ∉ evs.
Proof.
  apply (pretrained_key_is_fcn32s Toy.env K8 "ade20k" "vgg16" "~/.torch/models" true
           default_kwargs 150 "ade" Toy.world0).
  - reflexivity.
  - reflexivity.
  - lazy. exact I.
Defined.

(** ** The backbone cut in parts *)

Section Slices.
Context {R : Type} `{Scalar R} (E : Externals R).

Lemma slices16_partition {A : Type} (l : list A) : slice_to 24 l ++ slice_from 24 l = l.
Proof. apply take_drop. Qed.

Lemma slices8_partition {A : Type} (l : list A) :
  slice_to 17 l ++ slice 17 24 l ++ slice_from 24 l = l.
Proof.
  unfold slice_to, slice, slice_from.
  replace (drop 24 l) with (drop (24 - 17) (drop 17 l)) by (rewrite drop_drop; f_equal).
  by rewrite (take_drop (24 - 17)), take_drop.
Qed.

(** Running a sequence that is the concatenation of two: the first, then the
    second on what the first returned. *)
Lemma seq_forward_app (l1 l2 : list (Layer R)) (x : Tensor R) (w : World E) :
  seq_forward E (l1 ++ l2) x w =
  (let* '(l1', r1) := seq_forward E l1 x in
   let* '(l2', r2) := seq_forward E l2 (s_out r1) in
   ret (l1' ++ l2',
        {| s_out := s_out r2;
           s_arg := if s_same r1 then s_arg r2 else s_arg r1;
           s_same := s_same r1 && s_same r2 |})) w.
Proof.
  revert x w. induction l1 as [| l l1 IH]; intros x w.
  - cbn [app seq_forward]. rewrite bind_ret_l. cbn.
    unfold bind. destruct (seq_forward E l2 x w) as [[[l2' [o a sm]]|e] w1]; done.
  - cbn [app seq_forward]. rewrite !bind_assoc. apply bind_ext; intros [l' st] w1.
    unfold bind at 1. rewrite IH. rewrite !bind_assoc.
    unfold bind at 1 3.
    destruct (seq_forward E l1 (s_out st) w1) as [[[l1' r1]|e] w2]; [| done].
    rewrite bind_ret_l. cbn [s_out s_arg s_same]. unfold bind.
    destruct (seq_forward E l2 (s_out r1) w2) as [[[l2' r2]|e] w3]; [| done].
    unfold ret; cbn. by destruct (s_same st), (s_same r1).
Qed.

Lemma run_parts_single (l : list (Layer R)) (x : Tensor R) (w : World E) :
  run_parts E [l] x w = (let* '(l', r) := seq_forward E l x in ret (l', s_out r)) w.
Proof.
  cbn [run_parts]. apply bind_ext; intros [l' r] w1. cbn. by rewrite app_nil_r.
Qed.

(** However the layer sequence is cut, running the parts one after the other
    is running the whole sequence: same feature map, same layers afterwards,
    same world, same exception. *)
Lemma run_parts_concat (parts : list (list (Layer R))) (x : Tensor R) (w : World E) :
  run_parts E parts x w = run_parts E [concat parts] x w.
Proof.
  revert x w. induction parts as [| p ps IH]; intros x w; [done |].
  rewrite run_parts_single. cbn [concat]. cbn [run_parts].
  unfold bind at 3. rewrite seq_forward_app. unfold bind.
  destruct (seq_forward E p x w) as [[[p' r1]|e] w1]; [| done].
  rewrite IH, run_parts_single. unfold bind.
  destruct (seq_forward E (concat ps) (s_out r1) w1) as [[[l2' r2]|e] w2]; done.
Qed.

Lemma run_parts_cons_Ok (p p' : list (Layer R)) (ps : list (list (Layer R)))
    (ps' : list (Layer R)) (x y : Tensor R) (r : Step) (w w1 w2 : World E) :
  seq_forward E p x w = (Ok (p', r), w1) ->
  run_parts E ps (s_out r) w1 = (Ok (ps', y), w2) ->
  run_parts E (p :: ps) x w = (Ok (p' ++ ps', y), w2).
Proof.
  intros Hp Hps. cbn [run_parts].
  rewrite (bind_Ok _ _ _ _ _ Hp). by rewrite (bind_Ok _ _ _ _ _ Hps).
Qed.

(** The deep paths of the three forward passes are [run_parts] over their
    sub-networks. *)
Lemma FCN32s_head_input (m m' : FCN32s R) (x : Tensor R) (w w' : World E) outputs :
  FCN32s_forward E m x w = (Ok (outputs, m'), w') ->
  head_input E [FCN32s_features m] (FCN32s_head m) x w.
Proof.
  unfold FCN32s_forward. intros ([fs r5] & w1 & H5 & Hr)%bind_inv.
  apply bind_inv in Hr as ([h' rh] & w2 & Hh & _).
  exists (fs ++ []), (s_out r5), w1, h', rh, w2. split; [| done].
  by eapply run_parts_cons_Ok.
Qed.

Lemma FCN16s_head_input (m m' : FCN16s R) (x : Tensor R) (w w' : World E) outputs :
  FCN16s_forward E m x w = (Ok (outputs, m'), w') ->
  head_input E [FCN16s_pool4 m; FCN16s_pool5 m] (FCN16s_head m) x w.
Proof.
  unfold FCN16s_forward. intros ([p4 r4] & w1 & H4 & Hr)%bind_inv.
  apply bind_inv in Hr as ([p5 r5] & w2 & H5 & Hr).
  apply bind_inv in Hr as ([h' rh] & w3 & Hh & _).
  exists (p4 ++ p5 ++ []), (s_out r5), w2, h', rh, w3. split; [| done].
  eapply run_parts_cons_Ok; [done |]. by eapply run_parts_cons_Ok.
Qed.

Lemma FCN8s_head_input (m m' : FCN8s R) (x : Tensor R) (w w' : World E) outputs :
  FCN8s_forward E m x w = (Ok (outputs, m'), w') ->
  head_input E [FCN8s_pool3 m; FCN8s_pool4 m; FCN8s_pool5 m] (FCN8s_head m) x w.
Proof.
  unfold FCN8s_forward. intros ([p3 r3] & w0 & H3 & Hr)%bind_inv.
  apply bind_inv in Hr as ([p4 r4] & w1 & H4 & Hr).
  apply bind_inv in Hr as ([p5 r5] & w2 & H5 & Hr).
  apply bind_inv in Hr as ([h' rh] & w3 & Hh & _).
  exists (p3 ++ p4 ++ p5 ++ []), (s_out r5), w2, h', rh, w3. split; [| done].
  eapply run_parts_cons_Ok; [done |].
  eapply run_parts_cons_Ok; [done |]. by eapply run_parts_cons_Ok.
Qed.

(** C10.  The slices [:24], [24:] of FCN-16s and [:17], [17:24], [24:] of
    FCN-8s cut the layer sequence of the backbone into consecutive parts that
    contain every layer once, in order; on every input, running the parts one
    after the other yields the final feature map (and the exception, the
    layer states and the world) that FCN-32s gets from the undivided
    sequence; and that feature map is what each forward pass hands to its
    head. *)
Theorem slices_compose_to_backbone (m32 : FCN32s R) (m16 : FCN16s R) (m8 : FCN8s R)
    (x : Tensor R) (w : World E) :
  FCN16s_features m16 = FCN32s_features m32 ->
  FCN8s_features m8 = FCN32s_features m32 ->
  FCN16s_pool4 m16 ++ FCN16s_pool5 m16 = FCN32s_features m32 /\
  FCN8s_pool3 m8 ++ FCN8s_pool4 m8 ++ FCN8s_pool5 m8 = FCN32s_features m32 /\
  run_parts E [FCN16s_pool4 m16; FCN16s_pool5 m16] x w
    = run_parts E [FCN32s_features m32] x w /\
  run_parts E [FCN8s_pool3 m8; FCN8s_pool4 m8; FCN8s_pool5 m8] x w
    = run_parts E [FCN32s_features m32] x w /\
  (forall outputs m' w', FCN32s_forward E m32 x w = (Ok (outputs, m'), w') ->
     head_input E [FCN32s_features m32] (FCN32s_head m32) x w) /\
  (forall outputs m' w', FCN16s_forward E m16 x w = (Ok (outputs, m'), w') ->
     head_input E [FCN16s_pool4 m16; FCN16s_pool5 m16] (FCN16s_head m16) x w) /\
  (forall outputs m' w', FCN8s_forward E m8 x w = (Ok (outputs, m'), w') ->
     head_input E [FCN8s_pool3 m8; FCN8s_pool4 m8; FCN8s_pool5 m8] (FCN8s_head m8) x w).
Proof.
  intros H16 H8.
  assert (FCN16s_pool4 m16 ++ FCN16s_pool5 m16 = FCN32s_features m32) as P16.
  { unfold FCN16s_pool4, FCN16s_pool5. by rewrite slices16_partition. }
  assert (FCN8s_pool3 m8 ++ FCN8s_pool4 m8 ++ FCN8s_pool5 m8 = FCN32s_features m32) as P8.
  { unfold FCN8s_pool3, FCN8s_pool4, FCN8s_pool5. by rewrite slices8_partition. }
  split_and!; [done | done | | | | |].
  - rewrite run_parts_concat. cbn [concat]. by rewrite app_nil_r, P16.
  - rewrite run_parts_concat. cbn [concat]. by rewrite app_nil_r, P8.
  - intros outputs m' w'. apply FCN32s_head_input.
  - intros outputs m' w'. apply FCN16s_head_input.
  - intros outputs m' w'. apply FCN8s_head_input.
Qed.

End Slices.

(** The three networks built on the VGG-16 layout share its 31 layers. *)
Lemma slices_compose_to_backbone_witness :
  FCN16s_pool4 (Toy.fcn16s false) ++ FCN16s_pool5 (Toy.fcn16s false)
    = FCN32s_features (Toy.fcn32s false) /\
  FCN8s_pool3 (Toy.fcn8s false) ++ FCN8s_pool4 (Toy.fcn8s false) ++ FCN8s_pool5 (Toy.fcn8s false)
    = FCN32s_features (Toy.fcn32s false) /\
  run_parts Toy.env [FCN16s_pool4 (Toy.fcn16s false); FCN16s_pool5 (Toy.fcn16s false)]
      Toy.image Toy.world0
    = run_parts Toy.env [FCN32s_features (Toy.fcn32s false)] Toy.image Toy.world0 /\
  run_parts Toy.env [FCN8s_pool3 (Toy.fcn8s false); FCN8s_pool4 (Toy.fcn8s false);
                     FCN8s_pool5 (Toy.fcn8s false)] Toy.image Toy.world0
    = run_parts Toy.env [FCN32s_features (Toy.fcn32s false)] Toy.image Toy.world0.
Proof.
  destruct (slices_compose_to_backbone Toy.env (Toy.fcn32s false) (Toy.fcn16s false)
              (Toy.fcn8s false) Toy.image Toy.world0) as (P16 & P8 & R16 & R8 & _);
    [reflexivity | reflexivity |].
  exact (conj P16 (conj P8 (conj R16 R8))).
Defined.

(** ** Evaluation mode *)

Section EvalMode.
Context {R : Type} `{Scalar R} (E : Externals R).

Lemma pure_with_ret {A : Type} (a : A) (P : A -> Prop) : P a -> pure_with E (ret a) P.
Proof. intros Ha. exists (Ok a). split; [done |]. by intros a' [= <-]. Qed.

Lemma pure_with_raise {A : Type} (e : exn) (P : A -> Prop) : pure_with E (raise e) P.
Proof. exists (Raise e). by split. Qed.

Lemma pure_with_lift {A : Type} (r : Result A) (P : A -> Prop) :
  (forall a, r = Ok a -> P a) -> pure_with E (lift r) P.
Proof. intros Hr. exists r. by split. Qed.

Lemma pure_with_bind {A B : Type} (c : M E A) (k : A -> M E B)
    (P : A -> Prop) (Q : B -> Prop) :
  pure_with E c P -> (forall a, P a -> pure_with E (k a) Q) -> pure_with E (bind c k) Q.
Proof.
  intros ([a|e] & Hc & HP) Hk.
  - destruct (Hk a (HP a eq_refl)) as (r & Hr & HQ).
    exists r. split; [| done]. intros w. by rewrite (bind_Ok _ _ _ _ _ (Hc w)).
  - exists (Raise e). split; [| done]. intros w. by rewrite (bind_Raise _ _ _ _ _ (Hc w)).
Qed.

Lemma layer_train_eval (l : Layer R) : layer_training (layer_train false l) = false.
Proof. by destruct l. Qed.

Lemma seq_train_eval (ls : list (Layer R)) : eval_layers (seq_train false ls).
Proof.
  unfold eval_layers, seq_train. apply Forall_map, Forall_forall.
  intros l _. apply layer_train_eval.
Qed.

Lemma bn_forward_eval (b : BatchNorm2d R) (x y : Tensor R) (b' : BatchNorm2d R) :
  bn_training b = false -> bn_forward b x = Ok (y, b') -> b' = b.
Proof.
  intros Ht. unfold bn_forward. rewrite Ht. case_decide; [done |]. by intros [= _ <-].
Qed.

Lemma layer_forward_eval (l : Layer R) (x : Tensor R) :
  layer_training l = false ->
  pure_with E (layer_forward E l x) (fun p => p.1 = l).
Proof.
  destruct l as [cv | b | ip | d | mp]; simpl; intros Ht.
  - apply (pure_with_bind _ _ (fun _ => True)); [by apply pure_with_lift |].
    intros y _. by apply pure_with_ret.
  - apply (pure_with_bind _ _ (fun p => p.2 = b)).
    + apply pure_with_lift. intros [y b'] Hb. by apply (bn_forward_eval b x y).
    + intros [y b'] Hb. simpl in Hb. subst b'. by apply pure_with_ret.
  - by apply pure_with_ret.
  - rewrite Ht. by apply pure_with_ret.
  - apply (pure_with_bind _ _ (fun _ => True)); [by apply pure_with_lift |].
    intros y _. by apply pure_with_ret.
Qed.

Lemma seq_forward_eval (ls : list (Layer R)) (x : Tensor R) :
  eval_layers ls -> pure_with E (seq_forward E ls x) (fun p => p.1 = ls).
Proof.
  revert x. induction ls as [| l ls IH]; intros x Hev; simpl.
  - by apply pure_with_ret.
  - apply Forall_cons in Hev as [Hl Hls].
    apply (pure_with_bind _ _ (fun p => p.1 = l)); [by apply layer_forward_eval |].
    intros [l' st] Hl'. simpl in Hl'. subst l'.
    apply (pure_with_bind _ _ (fun p => p.1 = ls)); [by apply IH |].
    intros [ls' st'] Hls'. simpl in Hls'. subst ls'. by apply pure_with_ret.
Qed.

Lemma FCNHead_forward_eval (h : _FCNHead R) (x : Tensor R) :
  pure_with E (_FCNHead_forward E (_FCNHead_train false h) x)
    (fun p => p.1 = _FCNHead_train false h).
Proof.
  unfold _FCNHead_forward.
  apply (pure_with_bind _ _ (fun p => p.1 = block (_FCNHead_train false h)));
    [apply seq_forward_eval, seq_train_eval |].
  intros [b' st] Hb. simpl in Hb. subst b'. by apply pure_with_ret.
Qed.

Lemma aux_forward_eval (aux : bool) (a : option (_FCNHead R)) (pool5 : Tensor R)
    (size : nat * nat) (outputs : list (Tensor R)) :
  pure_with E (aux_forward E aux (auxlayer_train false a) pool5 size outputs)
    (fun p => p.2 = auxlayer_train false a).
Proof.
  unfold aux_forward. destruct aux; [| by apply pure_with_ret].
  destruct a as [h|]; simpl; [| apply pure_with_raise].
  apply (pure_with_bind _ _ (fun p => p.1 = _FCNHead_train false h));
    [apply FCNHead_forward_eval |].
  intros [a' ra] Ha. simpl in Ha. subst a'.
  apply (pure_with_bind _ _ (fun _ => True)); [by apply pure_with_lift |].
  intros auxout _. by apply pure_with_ret.
Qed.

Lemma FCN32s_forward_eval (m : FCN32s R) (x : Tensor R) :
  pure_with E (FCN32s_forward E (FCN32s_train false m) x)
    (fun p => p.2 = FCN32s_train false m).
Proof.
  unfold FCN32s_forward. cbn [FCN32s_train FCN32s_features FCN32s_head FCN32s_aux
    FCN32s_auxlayer].
  apply (pure_with_bind _ _ (fun p => p.1 = seq_train false (FCN32s_features m)));
    [apply seq_forward_eval, seq_train_eval |].
  intros [fs r5] Hfs. simpl in Hfs. subst fs.
  apply (pure_with_bind _ _ (fun p => p.1 = _FCNHead_train false (FCN32s_head m)));
    [apply FCNHead_forward_eval |].
  intros [h' rh] Hh. simpl in Hh. subst h'.
  apply (pure_with_bind _ _ (fun _ => True)); [by apply pure_with_lift |].
  intros out _.
  apply (pure_with_bind _ _ (fun p => p.2 = auxlayer_train false (FCN32s_auxlayer m)));
    [apply aux_forward_eval |].
  intros [outputs a'] Ha. simpl in Ha. subst a'. by apply pure_with_ret.
Qed.

Lemma FCN16s_forward_eval (m : FCN16s R) (x : Tensor R) :
  pure_with E (FCN16s_forward E (FCN16s_train false m) x)
    (fun p => p.2 = FCN16s_train false m).
Proof.
  unfold FCN16s_forward, FCN16s_pool4, FCN16s_pool5, slice_to, slice_from.
  cbn [FCN16s_train FCN16s_features FCN16s_head FCN16s_aux FCN16s_auxlayer
    FCN16s_score_pool4].
  pose proof (seq_train_eval (FCN16s_features m)) as Hev.
  apply (pure_with_bind _ _ (fun p => p.1 = take 24 (seq_train false (FCN16s_features m))));
    [by apply seq_forward_eval, Forall_take |].
  intros [p4 r4] Hp. cbn [fst] in Hp. subst p4.
  apply (pure_with_bind _ _ (fun p => p.1 = drop 24 (seq_train false (FCN16s_features m))));
    [by apply seq_forward_eval, Forall_drop |].
  intros [p5 r5] Hp. cbn [fst] in Hp. subst p5.
  apply (pure_with_bind _ _ (fun p => p.1 = _FCNHead_train false (FCN16s_head m)));
    [apply FCNHead_forward_eval |].
  intros [h' rh] Hh. simpl in Hh. subst h'.
  do 4 (apply (pure_with_bind _ _ (fun _ => True)); [by apply pure_with_lift |]; intros ? _).
  apply (pure_with_bind _ _ (fun p => p.2 = auxlayer_train false (FCN16s_auxlayer m)));
    [apply aux_forward_eval |].
  intros [outputs a'] Ha. simpl in Ha. subst a'.
  apply pure_with_ret. simpl. by rewrite take_drop.
Qed.

Lemma FCN8s_forward_eval (m : FCN8s R) (x : Tensor R) :
  pure_with E (FCN8s_forward E (FCN8s_train false m) x)
    (fun p => p.2 = FCN8s_train false m).
Proof.
  unfold FCN8s_forward, FCN8s_pool3, FCN8s_pool4, FCN8s_pool5.
  cbn [FCN8s_train FCN8s_features FCN8s_head FCN8s_aux FCN8s_auxlayer
    FCN8s_score_pool3 FCN8s_score_pool4].
  pose proof (seq_train_eval (FCN8s_features m)) as Hev.
  apply (pure_with_bind _ _
           (fun p => p.1 = slice_to 17 (seq_train false (FCN8s_features m))));
    [by apply seq_forward_eval, Forall_take |].
  intros [p3 r3] Hp. cbn [fst] in Hp. subst p3.
  apply (pure_with_bind _ _
           (fun p => p.1 = slice 17 24 (seq_train false (FCN8s_features m))));
    [by apply seq_forward_eval, Forall_take, Forall_drop |].
  intros [p4 r4] Hp. cbn [fst] in Hp. subst p4.
  apply (pure_with_bind _ _
           (fun p => p.1 = slice_from 24 (seq_train false (FCN8s_features m))));
    [by apply seq_forward_eval, Forall_drop |].
  intros [p5 r5] Hp. cbn [fst] in Hp. subst p5.
  apply (pure_with_bind _ _ (fun p => p.1 = _FCNHead_train false (FCN8s_head m)));
    [apply FCNHead_forward_eval |].
  intros [h' rh] Hh. simpl in Hh. subst h'.
  do 7 (apply (pure_with_bind _ _ (fun _ => True)); [by apply pure_with_lift |]; intros ? _).
  apply (pure_with_bind _ _ (fun p => p.2 = auxlayer_train false (FCN8s_auxlayer m)));
    [apply aux_forward_eval |].
  intros [outputs a'] Ha. simpl in Ha. subst a'.
  apply pure_with_ret. cbn [snd]. by rewrite slices8_partition.
Qed.

(** C8.  After [eval()], a forward pass of any of the three variants on an
    input [x] has one result [r], the same in every world (whatever the state
    of the random number generator), it leaves the world as it found it, and
    the network it hands back is the network it was given.  Running it again
    on [x], with the network and the world it left, gives [r] again. *)
Theorem eval_forward_is_pure (v : ModelVariant) (x : Tensor R) :
  exists r,
    (forall w, forward E (variant_train false v) x w = (r, w)) /\
    (forall outputs v', r = Ok (outputs, v') ->
       v' = variant_train false v /\ forall w, forward E v' x w = (r, w)).
Proof.
  assert (pure_with E (forward E (variant_train false v) x)
            (fun p => p.2 = variant_train false v)) as (r & Hr & Hv).
  { destruct v as [m | m | m]; simpl.
    - apply (pure_with_bind _ _ (fun p => p.2 = FCN32s_train false m));
        [apply FCN32s_forward_eval |].
      intros [o m'] Hm. simpl in Hm. subst m'. by apply pure_with_ret.
    - apply (pure_with_bind _ _ (fun p => p.2 = FCN16s_train false m));
        [apply FCN16s_forward_eval |].
      intros [o m'] Hm. simpl in Hm. subst m'. by apply pure_with_ret.
    - apply (pure_with_bind _ _ (fun p => p.2 = FCN8s_train false m));
        [apply FCN8s_forward_eval |].
      intros [o m'] Hm. simpl in Hm. subst m'. by apply pure_with_ret. }
  exists r. split; [done |]. intros outputs v' Hok.
  specialize (Hv _ Hok). simpl in Hv. subst v'. by split.
Qed.

End EvalMode.

(** ** What the constructors build *)

Section Constructors.
Context {R : Type} `{Scalar R} (E : Externals R).

Lemma Conv2d_init_Ok (cin cout ks p : nat) (bias : bool) (cv : Conv2d R) (w w' : World E) :
  Conv2d_init E cin cout ks p bias w = (Ok cv, w') ->
  shape (conv_weight cv) = mkShape cout cin ks ks /\
  conv_padding cv = p /\
  (if bias then is_Some (conv_bias cv) else conv_bias cv = None).
Proof.
  unfold Conv2d_init.
  intros (f & w1 & _ & Hr)%bind_inv.
  apply bind_inv in Hr as (b & w2 & Hb & Hr). injection Hr as <- <-.
  split_and!; [done | done |]. destruct bias.
  - apply bind_inv in Hb as (g & w3 & _ & Hb). injection Hb as <- <-. by eexists.
  - by injection Hb as <- <-.
Qed.

Lemma FCNHead_init_Ok (cin nclass : nat) (h : _FCNHead R) (w w' : World E) :
  _FCNHead_init E cin nclass w = (Ok h, w') ->
  exists conv1 conv2,
    block h = [ LConv2d conv1; LBatchNorm2d (BatchNorm2d_init (cin / 4)); LReLU true;
                LDropout (Dropout_init (rfrac 1 10)); LConv2d conv2 ] /\
    (shape (conv_weight conv1) = mkShape (cin / 4) cin 3 3 /\
     conv_padding conv1 = 1 /\ conv_bias conv1 = None) /\
    (shape (conv_weight conv2) = mkShape nclass (cin / 4) 1 1 /\
     conv_padding conv2 = 0 /\ is_Some (conv_bias conv2)).
Proof.
  unfold _FCNHead_init.
  intros (conv1 & w1 & H1 & Hr)%bind_inv.
  apply bind_inv in Hr as (conv2 & w2 & H2 & Hr). injection Hr as <- <-.
  apply Conv2d_init_Ok in H1, H2. by exists conv1, conv2.
Qed.

Lemma bn_num_features_init (n : nat) : bn_num_features (BatchNorm2d_init (R:=R) n) = n.
Proof. unfold bn_num_features; simpl. apply repeat_length. Qed.

Lemma FCNHead_init_ok (cin nclass : nat) (h : _FCNHead R) (w w' : World E) :
  _FCNHead_init E cin nclass w = (Ok h, w') -> head_ok cin nclass h.
Proof.
  intros (conv1 & conv2 & Hb & (Hw1 & Hp1 & _) & (Hw2 & Hp2 & _))%FCNHead_init_Ok.
  unfold head_ok. rewrite Hb. split_and!; try done. apply bn_num_features_init.
Qed.

Lemma FCNHead_train_ok (cin nclass : nat) (mode : bool) (h : _FCNHead R) :
  head_ok cin nclass h -> head_ok cin nclass (_FCNHead_train mode h).
Proof.
  intros (conv1 & bn & ip & d & conv2 & Hb & Hok)%head_ok_inv.
  unfold head_ok, _FCNHead_train; simpl. by rewrite Hb.
Qed.

(** C7.  The head that [_FCNHead(cin, nclass)] builds is the block: a 3x3
    convolution without bias (padding 1) from [cin] to [cin // 4] channels,
    batch normalisation over [cin // 4] channels, ReLU, dropout with rate 0.1,
    and a 1x1 convolution with bias from [cin // 4] to [nclass] channels.  At
    inference its forward pass is the composition of the first three and the
    last, dropout being the identity; on a feature map with [cin] channels it
    returns a score map with [nclass] channels and the same spatial size. *)
Theorem FCNHead_is_composition (cin nclass : nat) (h : _FCNHead R) (w w' : World E) :
  _FCNHead_init E cin nclass w = (Ok h, w') ->
  exists conv1 bn conv2,
    block h = [ LConv2d conv1; LBatchNorm2d bn; LReLU true;
                LDropout {| drop_p := rfrac 1 10; drop_inplace := false;
                            drop_training := true |};
                LConv2d conv2 ] /\
    (shape (conv_weight conv1) = mkShape (cin / 4) cin 3 3 /\
     conv_padding conv1 = 1 /\ conv_bias conv1 = None) /\
    bn_num_features bn = cin / 4 /\
    (shape (conv_weight conv2) = mkShape nclass (cin / 4) 1 1 /\
     conv_padding conv2 = 0 /\ is_Some (conv_bias conv2)) /\
    (forall x w0,
       _FCNHead_forward E (_FCNHead_train false h) x w0 =
       (match spec_head_inference conv1 bn conv2 x with
        | Ok y => Ok (_FCNHead_train false h, fresh y x)
        | Raise e => Raise e
        end, w0)) /\
    (forall x, dC (shape x) = cin -> positive_size x ->
       exists y, spec_head_inference conv1 bn conv2 x = Ok y /\
                 shape y = mkShape (dN (shape x)) nclass (dH (shape x)) (dW (shape x))).
Proof.
  intros Hinit. pose proof (FCNHead_init_ok _ _ _ _ _ Hinit) as Hok.
  destruct (FCNHead_init_Ok _ _ _ _ _ Hinit)
    as (conv1 & conv2 & Hb & (Hw1 & Hp1 & Hb1) & (Hw2 & Hp2 & Hb2)).
  exists conv1, (BatchNorm2d_init (cin / 4)), conv2.
  assert (forall x w0,
            _FCNHead_forward E (_FCNHead_train false h) x w0 =
            (match spec_head_inference conv1 (BatchNorm2d_init (cin / 4)) conv2 x with
             | Ok y => Ok (_FCNHead_train false h, fresh y x)
             | Raise e => Raise e
             end, w0)) as Hfwd.
  { intros x w0. unfold _FCNHead_forward, _FCNHead_train, spec_head_inference.
    cbn [block]. rewrite Hb. cbn [seq_train map layer_train seq_forward layer_forward].
    unfold bind, lift, ret; cbn [drop_training Dropout_init].
    destruct (conv2d_forward conv1 x) as [a|e]; [| done].
    cbn [s_out fresh]. unfold bn_forward; cbn [bn_training BatchNorm2d_init].
    destruct (decide (dC (shape a) = bn_num_features (BatchNorm2d_init (cin / 4))))
      as [Hc | Hc].
    - rewrite decide_False by (intros Hne; by apply Hne).
      cbv beta iota zeta. cbn [s_out s_arg s_same fresh same]. unfold normalize.
      cbn [bn_eps bn_weight bn_bias bn_running_mean bn_running_var BatchNorm2d_init].
      match goal with
      | |- context [conv2d_forward conv2 ?t] => by destruct (conv2d_forward conv2 t)
      end.
    - by rewrite decide_True. }
  split_and!; try done; [apply bn_num_features_init |].
  intros x Hc Hpos.
  destruct (FCNHead_forward_total E cin nclass (_FCNHead_train false h) x w)
    as (h' & y & w1 & Hf & Hs & _); [by apply FCNHead_train_ok | done | done | |].
  { unfold head_accepts, head_bn_training, _FCNHead_train; cbn [block]. rewrite Hb. done. }
  rewrite Hfwd in Hf.
  destruct (spec_head_inference conv1 _ conv2 x) as [y'|e]; [| done].
  injection Hf as _ <- _. by exists y'.
Qed.

End Constructors.

(** [_FCNHead(512, 21)] on a 1x512x2x2 feature map. *)
Lemma FCNHead_is_composition_witness :
  exists conv1 bn conv2,
    block Toy.head = [ LConv2d conv1; LBatchNorm2d bn; LReLU true;
                       LDropout {| drop_p := rfrac 1 10; drop_inplace := false;
                                   drop_training := true |};
                       LConv2d conv2 ] /\
    shape (conv_weight conv1) = mkShape 128 512 3 3 /\
    shape (conv_weight conv2) = mkShape 21 128 1 1 /\
    exists y, spec_head_inference conv1 bn conv2
                (tmk (mkShape 1 512 2 2) (fun _ _ _ _ => 0%Z)) = Ok y /\
              shape y = mkShape 1 21 2 2.
Proof.
  destruct (FCNHead_is_composition Toy.env 512 21 Toy.head Toy.world0
              (snd (_FCNHead_init Toy.env 512 21 Toy.world0)))
    as (conv1 & bn & conv2 & Hb & (Hw1 & _) & _ & (Hw2 & _) & _ & Hshape).
  - reflexivity.
  - exists conv1, bn, conv2. split_and!; [done | done | done |].
    apply (Hshape (tmk (mkShape 1 512 2 2) (fun _ _ _ _ => 0%Z))); [reflexivity |].
    split; simpl; lia.
Defined.

(** ** The score projectors *)

Section Projectors.
Context {R : Type} `{Scalar R} (E : Externals R).

Lemma FCN16s_scores_inv (m : FCN16s R) (x : Tensor R) (w w' : World E) (t : Taps16) :
  FCN16s_scores E m x w = (Ok t, w') -> taps16_from E m x w t.
Proof.
  unfold FCN16s_scores.
  intros ([p4 r4] & w1 & H4 & Hr)%bind_inv.
  apply bind_inv in Hr as ([p5 r5] & w2 & H5 & Hr).
  apply bind_inv in Hr as ([h' rh] & w3 & Hh & Hr).
  apply bind_inv in Hr as (sp4 & w4 & Hsp & Hr).
  injection Hsp as Hsp <-. injection Hr as <- <-.
  exists p4, r4, w1, p5, r5, w2, h', rh, w3. cbn.
  split_and!; try done.
  - apply seq_forward_keeps in H5 as [K5 _]. apply FCNHead_forward_keeps in Hh.
    by apply pool_object_after.
  - by intros -> <-.
Qed.

Lemma FCN8s_scores_inv (m : FCN8s R) (x : Tensor R) (w w' : World E) (t : Taps8) :
  FCN8s_scores E m x w = (Ok t, w') -> taps8_from E m x w t.
Proof.
  unfold FCN8s_scores.
  intros ([p3 r3] & w0 & H3 & Hr)%bind_inv.
  apply bind_inv in Hr as ([p4 r4] & w1 & H4 & Hr).
  apply bind_inv in Hr as ([p5 r5] & w2 & H5 & Hr).
  apply bind_inv in Hr as ([h' rh] & w3 & Hh & Hr).
  apply bind_inv in Hr as (sp4 & w4 & Hsp4 & Hr).
  apply bind_inv in Hr as (sp3 & w5 & Hsp3 & Hr).
  injection Hsp4 as Hsp4 <-. injection Hsp3 as Hsp3 <-. injection Hr as <- <-.
  exists p3, r3, w0, p4, r4, w1, p5, r5, w2, h', rh, w3. cbn.
  apply seq_forward_keeps in H4 as K4. destruct K4 as [K4 _].
  apply seq_forward_keeps in H5 as K5. destruct K5 as [K5 _].
  apply FCNHead_forward_keeps in Hh as Kh.
  pose proof (pool_object_after _ _ _ K5 Kh) as Hobj4.
  split_and!; try done.
  - destruct K4 as (_ & Ha4 & Hsame4 & _).
    destruct (s_same r4); [| done]. by rewrite Hobj4, Hsame4.
  - by intros -> <-.
  - by intros -> <-.
Qed.

Lemma FCN16s_init_ok (nclass : nat) (backbone : string) (aux pretrained_base : bool)
    (m : FCN16s R) (w w' : World E) :
  FCN16s_init E nclass backbone aux pretrained_base w = (Ok m, w') ->
  FCN16s_ok nclass m /\ FCN16s_aux m = aux.
Proof.
  unfold FCN16s_init.
  intros (fs & w1 & _ & Hr)%bind_inv.
  apply bind_inv in Hr as (h & w2 & Hh & Hr).
  apply bind_inv in Hr as (sp4 & w3 & Hsp & Hr).
  apply bind_inv in Hr as (a & w4 & Ha & Hr). injection Hr as <- <-.
  apply FCNHead_init_ok in Hh. apply Conv2d_init_Ok in Hsp.
  split; [| done]. unfold FCN16s_ok; cbn. split_and!; [done | done |].
  unfold auxlayer_init in Ha. destruct aux; [| done].
  apply bind_inv in Ha as (h2 & w5 & Hh2 & Ha). injection Ha as <- <-.
  by apply FCNHead_init_ok in Hh2.
Qed.

Lemma FCN8s_init_ok (nclass : nat) (backbone : string) (aux pretrained_base : bool)
    (m : FCN8s R) (w w' : World E) :
  FCN8s_init E nclass backbone aux pretrained_base w = (Ok m, w') ->
  FCN8s_ok nclass m /\ FCN8s_aux m = aux.
Proof.
  unfold FCN8s_init.
  intros (fs & w1 & _ & Hr)%bind_inv.
  apply bind_inv in Hr as (h & w2 & Hh & Hr).
  apply bind_inv in Hr as (sp3 & w3 & Hsp3 & Hr).
  apply bind_inv in Hr as (sp4 & w4 & Hsp4 & Hr).
  apply bind_inv in Hr as (a & w5 & Ha & Hr). injection Hr as <- <-.
  apply FCNHead_init_ok in Hh. apply Conv2d_init_Ok in Hsp3, Hsp4.
  split; [| done]. unfold FCN8s_ok; cbn. split_and!; [done | done | done |].
  unfold auxlayer_init in Ha. destruct aux; [| done].
  apply bind_inv in Ha as (h2 & w6 & Hh2 & Ha). injection Ha as <- <-.
  by apply FCNHead_init_ok in Hh2.
Qed.

Lemma FCN32s_init_ok (nclass : nat) (backbone : string) (aux pretrained_base : bool)
    (m : FCN32s R) (w w' : World E) :
  FCN32s_init E nclass backbone aux pretrained_base w = (Ok m, w') ->
  FCN32s_ok nclass m /\ FCN32s_aux m = aux.
Proof.
  unfold FCN32s_init.
  intros (fs & w1 & _ & Hr)%bind_inv.
  apply bind_inv in Hr as (h & w2 & Hh & Hr).
  apply bind_inv in Hr as (a & w5 & Ha & Hr). injection Hr as <- <-.
  apply FCNHead_init_ok in Hh.
  split; [| done]. unfold FCN32s_ok; cbn. split; [done |].
  unfold auxlayer_init in Ha. destruct aux; [| done].
  apply bind_inv in Ha as (h2 & w6 & Hh2 & Ha). injection Ha as <- <-.
  by apply FCNHead_init_ok in Hh2.
Qed.

Lemma auxlayer_train_ok (nclass : nat) (mode aux : bool) (a : option (_FCNHead R)) :
  auxlayer_ok nclass aux a -> auxlayer_ok nclass aux (auxlayer_train mode a).
Proof.
  unfold auxlayer_ok. destruct aux; [| done]. destruct a as [h|]; [| done].
  apply FCNHead_train_ok.
Qed.

(** The constructors establish [variant_ok] and store the [aux] they were
    given; [train] and [eval] keep both. *)
Lemma variant_init_ok (k : Kind) (nclass : nat) (backbone : string)
    (aux pretrained_base : bool) (v : ModelVariant) (w w' : World E) :
  variant_init E k nclass backbone aux pretrained_base w = (Ok v, w') ->
  variant_ok nclass v /\ variant_aux v = aux.
Proof.
  destruct k; unfold variant_init; intros (m & w1 & Hm & Hr)%bind_inv;
    injection Hr as <- <-; simpl.
  - by apply FCN32s_init_ok in Hm.
  - by apply FCN16s_init_ok in Hm.
  - by apply FCN8s_init_ok in Hm.
Qed.

Lemma variant_train_ok (nclass : nat) (mode : bool) (v : @ModelVariant R) :
  variant_ok nclass v ->
  variant_ok nclass (variant_train mode v) /\
  variant_aux (variant_train mode v) = variant_aux v.
Proof.
  destruct v as [m | m | m]; simpl; intros Hok; (split; [| done]).
  - destruct Hok as (Hh & Ha). split; [by apply FCNHead_train_ok |].
    by apply auxlayer_train_ok.
  - destruct Hok as (Hh & Hp & Ha). split_and!; [by apply FCNHead_train_ok | done |].
    by apply auxlayer_train_ok.
  - destruct Hok as (Hh & Hp3 & Hp4 & Ha).
    split_and!; [by apply FCNHead_train_ok | done | done |]. by apply auxlayer_train_ok.
Qed.

(** C9.  The score projectors that the constructors of FCN-16s and FCN-8s
    build are single 1x1 convolutions with a bias and no padding, from 512
    channels (the pool4 tap) and from 256 channels (the pool3 tap) to [nclass]
    channels; applied to a feature map with that many channels such a
    projector returns [nclass] channels at the same spatial size; and in a
    forward pass the projectors are applied to the tensors that the backbone
    prefixes returned, while the deepest feature map goes to the head. *)
Theorem score_projector_contract (nclass : nat) (m16 : FCN16s R) (m8 : FCN8s R)
    (aux16 aux8 pb16 pb8 : bool) (w16 w16' w8 w8' : World E) :
  FCN16s_init E nclass "vgg16" aux16 pb16 w16 = (Ok m16, w16') ->
  FCN8s_init E nclass "vgg16" aux8 pb8 w8 = (Ok m8, w8') ->
  (projector_ok 512 nclass (FCN16s_score_pool4 m16) /\
   projector_ok 256 nclass (FCN8s_score_pool3 m8) /\
   projector_ok 512 nclass (FCN8s_score_pool4 m8)) /\
  (forall cin cv x,
     projector_ok cin nclass cv -> dC (shape x) = cin -> positive_size x ->
     exists y, conv2d_forward cv x = Ok y /\
               shape y = mkShape (dN (shape x)) nclass (dH (shape x)) (dW (shape x))) /\
  (forall x w t w', FCN16s_scores E m16 x w = (Ok t, w') -> taps16_from E m16 x w t) /\
  (forall x w t w', FCN8s_scores E m8 x w = (Ok t, w') -> taps8_from E m8 x w t).
Proof.
  intros [(_ & Hp16 & _) _]%FCN16s_init_ok [(_ & Hp3 & Hp4 & _) _]%FCN8s_init_ok.
  split_and!; try done.
  - intros cin cv x Hok Hc [Hh Hw]. by apply (projector_forward cin).
  - intros x w t w'. apply FCN16s_scores_inv.
  - intros x w t w'. apply FCN8s_scores_inv.
Qed.

End Projectors.

(** The projectors of the networks built for 21 classes. *)
Lemma score_projector_contract_witness :
  projector_ok 512 21 (FCN16s_score_pool4 (Toy.fcn16s false)) /\
  projector_ok 256 21 (FCN8s_score_pool3 (Toy.fcn8s true)) /\
  projector_ok 512 21 (FCN8s_score_pool4 (Toy.fcn8s true)).
Proof.
  apply (score_projector_contract Toy.env 21 (Toy.fcn16s false) (Toy.fcn8s true)
           false true true true Toy.world0
           (snd (FCN16s_init Toy.env 21 "vgg16" false true Toy.world0)) Toy.world0
           (snd (FCN8s_init Toy.env 21 "vgg16" true true Toy.world0)));
    reflexivity.
Defined.

(** ** The fusion cascade *)

Section Fusion.
Context {R : Type} `{Scalar R} (E : Externals R).

Lemma FCN16s_fuse_cascade (score_fr score_pool4 : Tensor R) (size : nat * nat) :
  FCN16s_fuse score_fr score_pool4 size = spec_cascade score_fr [score_pool4] size.
Proof.
  unfold FCN16s_fuse, spec_cascade, spec_fuse_step, spec_upsample_to; cbn [fold_left].
  by destruct (interpolate score_fr (size_hw score_pool4)).
Qed.

Lemma FCN8s_fuse_cascade (score_fr score_pool4 score_pool3 : Tensor R) (size : nat * nat) :
  FCN8s_fuse score_fr score_pool4 score_pool3 size
  = spec_cascade score_fr [score_pool4; score_pool3] size.
Proof.
  unfold FCN8s_fuse, spec_cascade, spec_fuse_step, spec_upsample_to; cbn [fold_left].
  destruct (interpolate score_fr (size_hw score_pool4)) as [up|e]; [| done].
  destruct (tadd up score_pool4) as [f|e]; [| done].
  by destruct (interpolate f (size_hw score_pool3)).
Qed.

(** Corner-aligned sampling: the first and the last output index fall on the
    first and the last input sample, with no weight on a neighbour. *)
Lemma src_index_corners (n_in n_out : nat) :
  0 < n_in -> 1 < n_out ->
  src_index n_in n_out 0 = (0, (if decide (0 < n_in - 1) then 1 else 0),
                            rfrac 0 (N.of_nat (n_out - 1))) /\
  src_index n_in n_out (n_out - 1) = (n_in - 1, n_in - 1, rfrac 0 (N.of_nat (n_out - 1))).
Proof.
  intros Hin Hout. unfold src_index. split.
  - rewrite decide_False by lia.
    rewrite Nat.mul_0_l, Nat.Div0.div_0_l, Nat.Div0.mod_0_l. simpl. done.
  - rewrite (decide_False (P := n_out <= 1)) by lia.
    rewrite Nat.mul_comm, Nat.div_mul by lia. rewrite Nat.Div0.mod_mul.
    by rewrite decide_False by lia.
Qed.

(** C3.  A forward pass of FCN-16s on an input the backbone takes: the head's
    score of the deepest feature map, [score_fr], is resized to the size of
    [score_pool4], the projected pool4 tap (the resized score has the tap's
    shape); the two are added (the sum has the tap's shape); the sum is
    resized to the input size and is the first element of the returned
    tuple.  This is the cascade of the specification over the one skip.
    Resizing is [interpolate], bilinear with the corners kept in place
    ([src_index_corners]); a pass that returns at all was given such an input
    ([FCN16s_forward_Ok_accepts]). *)
Theorem FCN16s_fusion_order (nclass : nat) (m : FCN16s R) (x : Tensor R) (w : World E) :
  FCN16s_ok nclass m ->
  FCN16s_accepts E m x w ->
  exists t w1 upscore2 fuse_pool4 out rest m' w',
    FCN16s_scores E m x w = (Ok t, w1) /\
    taps16_from E m x w t /\
    interpolate (t16_score_fr t) (size_hw (t16_score_pool4 t)) = Ok upscore2 /\
    shape upscore2 = shape (t16_score_pool4 t) /\
    tadd upscore2 (t16_score_pool4 t) = Ok fuse_pool4 /\
    shape fuse_pool4 = shape (t16_score_pool4 t) /\
    interpolate fuse_pool4 (size_hw x) = Ok out /\
    spec_cascade (t16_score_fr t) [t16_score_pool4 t] (size_hw x) = Ok out /\
    FCN16s_forward E m x w = (Ok (out :: rest, m'), w').
Proof.
  intros Hok Hacc.
  destruct (FCN16s_scores_total E nclass m x w Hok Hacc)
    as (t & w1 & Ht & (Hnf & Hcf & Hpf) & (Hn4 & Hc4 & Hp4) & (Hn5 & Hc5 & Hp5) & Haa).
  destruct Hok as (_ & _ & Haux). destruct Hacc as ([Hxh Hxw] & _).
  destruct (fuse_step_total (t16_score_fr t) (t16_score_pool4 t))
    as (up & fused & Hup & Hadd & Hsu & Hsf); [congruence .. | done | done |].
  destruct (interpolate_total fused (dH (shape x)) (dW (shape x))) as (out & Hi & Hso);
    [rewrite Hsf; apply Hp4 .. | done | done |].
  assert (FCN16s_fuse (t16_score_fr t) (t16_score_pool4 t) (size_hw x) = Ok out) as Hf.
  { unfold FCN16s_fuse. by rewrite Hup, Hadd. }
  destruct (aux_forward_total E nclass (FCN16s_aux m) (FCN16s_auxlayer m) (t16_pool5 t)
              (dH (shape x)) (dW (shape x)) [out] w1)
    as (outputs & a' & w2 & Ha & Hout); [done .. |].
  assert (exists rest, outputs = out :: rest) as [rest ->].
  { destruct (FCN16s_aux m); [destruct Hout as (auxout & -> & _) | subst]; by eexists. }
  exists t, w1, up, fused, out, rest. eexists _, _.
  split_and!; try done.
  - by apply FCN16s_scores_inv in Ht.
  - by rewrite <- FCN16s_fuse_cascade.
  - rewrite FCN16s_forward_split. rewrite (bind_Ok _ _ _ _ _ Ht).
    unfold FCN16s_finish. rewrite (bind_lift_Ok _ _ _ _ Hf).
    unfold size_hw. by rewrite (bind_Ok _ _ _ _ _ Ha).
Qed.

End Fusion.

(** FCN-16s, as built for 21 classes, on a 1x3x64x64 image. *)
Lemma FCN16s_fusion_order_witness :
  exists t w1 upscore2 fuse_pool4 out rest m' w',
    FCN16s_scores Toy.env (Toy.fcn16s false) Toy.image Toy.world0 = (Ok t, w1) /\
    taps16_from Toy.env (Toy.fcn16s false) Toy.image Toy.world0 t /\
    interpolate (t16_score_fr t) (size_hw (t16_score_pool4 t)) = Ok upscore2 /\
    shape upscore2 = shape (t16_score_pool4 t) /\
    tadd upscore2 (t16_score_pool4 t) = Ok fuse_pool4 /\
    shape fuse_pool4 = shape (t16_score_pool4 t) /\
    interpolate fuse_pool4 (size_hw Toy.image) = Ok out /\
    spec_cascade (t16_score_fr t) [t16_score_pool4 t] (size_hw Toy.image) = Ok out /\
    FCN16s_forward Toy.env (Toy.fcn16s false) Toy.image Toy.world0
    = (Ok (out :: rest, m'), w').
Proof.
  apply (FCN16s_fusion_order Toy.env 21 (Toy.fcn16s false) Toy.image Toy.world0).
  - lazy. split_and!; (done || by eexists).
  - lazy. split_and!; (lia || done).
Defined.

(** ** Zero in the place of a skip score *)

Section ZeroSkip.
Context {R : Type} `{Scalar R} (E : Externals R).

Lemma tabulate_S {A : Type} (n : nat) (f : nat -> A) :
  tabulate (S n) f = f 0 :: tabulate n (fun i => f (S i)).
Proof. unfold tabulate. simpl. f_equal. by rewrite <- seq_shift, map_map. Qed.

(** Reading a list back entry by entry, with [g] applied to each entry. *)
Lemma tabulate_nth {A : Type} (g : A -> A) (l : list A) (d : A) :
  Forall (fun a => g a = a) l ->
  tabulate (length l) (fun i => g (nth i l d)) = l.
Proof.
  induction 1 as [| a l Ha Hl IH]; [done |].
  simpl length. rewrite tabulate_S. simpl. by rewrite Ha, IH.
Qed.

(** A well-formed tensor is the table of its entries. *)
Lemma tmk_tget (a : Tensor R) : wf_tensor a -> tmk (shape a) (tget a) = a.
Proof.
  destruct a as [[N C Hh W] d]. unfold wf_tensor, tmk, tget, plane_get; simpl.
  intros [<- Hd]. f_equal.
  apply (tabulate_nth (fun img => tabulate C (fun c => tabulate Hh (fun i =>
           tabulate W (fun j => nth j (nth i (nth c img []) []) rzero))))).
  eapply Forall_impl; [exact Hd |]. intros img [<- Himg]. simpl.
  apply (tabulate_nth (fun pl => tabulate Hh (fun i =>
           tabulate W (fun j => nth j (nth i pl []) rzero)))).
  eapply Forall_impl; [exact Himg |]. intros pl [<- Hpl]. simpl.
  apply (tabulate_nth (fun row => tabulate W (fun j => nth j row rzero))).
  eapply Forall_impl; [exact Hpl |]. intros row <-. simpl.
  apply (tabulate_nth (fun v => v)). by apply Forall_forall.
Qed.

(** Adding the zero tensor of the same shape changes nothing. *)
Lemma tadd_zeros (a b : Tensor R) :
  (forall v, radd v rzero = v) ->
  wf_tensor a -> shape a = shape b ->
  tadd a (zeros_like b) = Ok a.
Proof.
  intros Hadd Hwf Hs. rewrite tadd_same_shape by done. f_equal.
  etrans; [| apply (tmk_tget a Hwf)]. apply tmk_ext.
  intros n c i j Hn Hc Hi Hj. unfold zeros_like.
  rewrite tget_tmk by (by rewrite <- Hs). apply Hadd.
Qed.

Lemma tadd_Ok_wf (a b c : Tensor R) : tadd a b = Ok c -> wf_tensor c.
Proof.
  unfold tadd. repeat (destruct (bdim _ _); [| done]). intros [= <-]. apply wf_tmk.
Qed.

(** C2.  A forward pass of FCN-8s on an input the backbone takes is the
    cascade of the specification over the skip scores taken from coarse to
    fine: [score_fr] meets [score_pool4], and their sum meets [score_pool3].
    With zero in the place of [score_pool3] (and given that adding zero to a
    scalar changes nothing), the primary output is the FCN-16s style fused
    score, resized to the resolution of [score_pool3] and then to the input
    size; the rest of the tuple, the network and the world are those of the
    pass as it is.  A pass that returns at all was given such an input
    ([FCN8s_forward_Ok_accepts]). *)
Theorem FCN8s_zero_pool3_superposition (nclass : nat) (m : FCN8s R) (x : Tensor R)
    (w : World E) :
  (forall v, radd v rzero = v) ->
  FCN8s_ok nclass m ->
  FCN8s_accepts E m x w ->
  exists t w1 out out0 rest m' w',
    FCN8s_scores E m x w = (Ok t, w1) /\
    spec_cascade (t8_score_fr t) [t8_score_pool4 t; t8_score_pool3 t] (size_hw x) = Ok out /\
    FCN8s_forward E m x w = (Ok (out :: rest, m'), w') /\
    spec_fcn8s_without_pool3 (t8_score_fr t) (t8_score_pool4 t)
      (size_hw (t8_score_pool3 t)) (size_hw x) = Ok out0 /\
    FCN8s_finish E m x (taps8_with_score_pool3 t (zeros_like (t8_score_pool3 t))) w1
    = (Ok (out0 :: rest, m'), w').
Proof.
  intros Hadd Hok Hacc.
  destruct (FCN8s_scores_total E nclass m x w Hok Hacc)
    as (t & w1 & Ht & (Hnf & Hcf & Hpf) & (Hn4 & Hc4 & Hp4) & (Hn3 & Hc3 & Hp3)
        & (Hn5 & Hc5 & Hp5) & Haa).
  destruct Hok as (_ & _ & _ & Haux). destruct Hacc as ([Hxh Hxw] & _).
  destruct (fuse_step_total (t8_score_fr t) (t8_score_pool4 t))
    as (up & fused & Hup & Hadd4 & Hsu & Hsf); [congruence .. | done | done |].
  destruct (fuse_step_total fused (t8_score_pool3 t))
    as (up3 & fused3 & Hup3 & Hadd3 & Hsu3 & Hsf3);
    [rewrite Hsf; congruence .. | unfold positive_size; by rewrite Hsf | done |].
  destruct (interpolate_total fused3 (dH (shape x)) (dW (shape x))) as (out & Hi & Hso);
    [rewrite Hsf3; apply Hp3 .. | done | done |].
  destruct (interpolate_total up3 (dH (shape x)) (dW (shape x))) as (out0 & Hi0 & Hso0);
    [rewrite Hsu3; apply Hp3 .. | done | done |].
  assert (FCN8s_fuse (t8_score_fr t) (t8_score_pool4 t) (t8_score_pool3 t) (size_hw x)
          = Ok out) as Hf.
  { unfold FCN8s_fuse. by rewrite Hup, Hadd4, Hup3, Hadd3. }
  assert (FCN8s_fuse (t8_score_fr t) (t8_score_pool4 t) (zeros_like (t8_score_pool3 t))
            (size_hw x) = Ok out0) as Hf0.
  { unfold FCN8s_fuse. rewrite Hup, Hadd4.
    change (size_hw (zeros_like (t8_score_pool3 t))) with (size_hw (t8_score_pool3 t)).
    rewrite Hup3. rewrite tadd_zeros; [done | done | | done].
    destruct (shape fused) as [a b c d] eqn:Hfs.
    unfold size_hw in Hup3. by apply interpolate_Ok in Hup3 as (_ & Hwf & _). }
  destruct (aux_forward_total E nclass (FCN8s_aux m) (FCN8s_auxlayer m) (t8_pool5 t)
              (dH (shape x)) (dW (shape x)) [] w1)
    as (rest & a' & w2 & Ha & Hout); [done .. |].
  assert (forall o, aux_forward E (FCN8s_aux m) (FCN8s_auxlayer m) (t8_pool5 t)
                      (dH (shape x), dW (shape x)) [o] w1 = (Ok (o :: rest, a'), w2)) as Ha'.
  { intros o. revert Ha. unfold aux_forward.
    destruct (FCN8s_aux m); [| by intros [= <- <- <-]].
    destruct (FCN8s_auxlayer m) as [h|]; [| done].
    unfold bind. destruct (_FCNHead_forward E h (t8_pool5 t) w1) as [[[h' ra]|e] w3]; [| done].
    unfold lift. destruct (interpolate (s_out ra) _) as [auxout|e]; [| done].
    by intros [= <- <- <-]. }
  exists t, w1, out, out0, rest. eexists _, _.
  split_and!; [done | by rewrite <- FCN8s_fuse_cascade | | |].
  - rewrite FCN8s_forward_split. rewrite (bind_Ok _ _ _ _ _ Ht).
    unfold FCN8s_finish. rewrite (bind_lift_Ok _ _ _ _ Hf).
    unfold size_hw. by rewrite (bind_Ok _ _ _ _ _ (Ha' out)).
  - unfold spec_fcn8s_without_pool3, spec_fuse_step, spec_upsample_to.
    by rewrite Hup, Hadd4, Hup3.
  - unfold FCN8s_finish. cbn [taps8_with_score_pool3 t8_score_fr t8_score_pool4
      t8_score_pool3 t8_pool5 t8_layers t8_head].
    rewrite (bind_lift_Ok _ _ _ _ Hf0).
    unfold size_hw. by rewrite (bind_Ok _ _ _ _ _ (Ha' out0)).
Qed.

End ZeroSkip.

(** FCN-8s with the auxiliary head, as built for 21 classes, on a 1x3x64x64
    image, over fixed-point scalars. *)
Lemma FCN8s_zero_pool3_superposition_witness :
  exists t w1 out out0 rest m' w',
    FCN8s_scores Toy.env (Toy.fcn8s true) Toy.image Toy.world0 = (Ok t, w1) /\
    spec_cascade (t8_score_fr t) [t8_score_pool4 t; t8_score_pool3 t] (size_hw Toy.image)
    = Ok out /\
    FCN8s_forward Toy.env (Toy.fcn8s true) Toy.image Toy.world0
    = (Ok (out :: rest, m'), w') /\
    spec_fcn8s_without_pool3 (t8_score_fr t) (t8_score_pool4 t)
      (size_hw (t8_score_pool3 t)) (size_hw Toy.image) = Ok out0 /\
    FCN8s_finish Toy.env (Toy.fcn8s true) Toy.image
      (taps8_with_score_pool3 t (zeros_like (t8_score_pool3 t))) w1
    = (Ok (out0 :: rest, m'), w').
Proof.
  apply (FCN8s_zero_pool3_superposition Toy.env 21 (Toy.fcn8s true) Toy.image Toy.world0).
  - intros v. simpl. lia.
  - lazy. split_and!; (done || by eexists).
  - lazy. split_and!; (lia || done).
Defined.

(** FCN-8s with the auxiliary head after [eval()], on a 1x3x64x64 image. *)
Lemma eval_forward_is_pure_witness :
  exists r,
    (forall w, forward Toy.env (variant_train false (Variant8 (Toy.fcn8s true))) Toy.image w
               = (r, w)) /\
    (forall outputs v', r = Ok (outputs, v') ->
       v' = variant_train false (Variant8 (Toy.fcn8s true)) /\
       forall w, forward Toy.env v' Toy.image w = (r, w)).
Proof.
  apply (eval_forward_is_pure Toy.env (Variant8 (Toy.fcn8s true)) Toy.image).
Defined.

(** ** Training mode, for contrast *)

Section TrainingMode.
Context {R : Type} `{Scalar R} (E : Externals R).

Lemma bn_forward_training (b b' : BatchNorm2d R) (x y : Tensor R) :
  bn_training b = true -> bn_forward b x = Ok (y, b') ->
  bn_num_batches_tracked b' = S (bn_num_batches_tracked b).
Proof.
  intros Ht. unfold bn_forward. rewrite Ht.
  case_decide; [done |]. case_decide; [done |]. by intros [= _ <-].
Qed.

(** In training mode a forward pass of the head does change the head: batch
    normalisation counts the batch and moves its running statistics. *)
Lemma FCNHead_forward_training_changes (cin nclass : nat) (h h' : _FCNHead R)
    (x : Tensor R) (st : Step) (w w' : World E) :
  head_ok cin nclass h -> head_bn_training h = true ->
  _FCNHead_forward E h x w = (Ok (h', st), w') -> h' <> h.
Proof.
  intros (conv1 & bn & ip & d & conv2 & Hb & _)%head_ok_inv Htr.
  assert (bn_training bn = true) as Hbt.
  { unfold head_bn_training in Htr. rewrite Hb in Htr. simpl in Htr.
    by rewrite orb_false_r in Htr. }
  unfold _FCNHead_forward. rewrite Hb.
  intros ([b' st'] & w1 & Hs & Hr)%bind_inv. injection Hr as <- <- <-.
  apply seq_forward_inv in Hs as (l1 & st1 & w2 & ls1 & st1' & _ & Hs & -> & _).
  apply seq_forward_inv in Hs as (l2 & st2 & w3 & ls2 & st2' & Hl2 & _ & -> & _).
  cbn [layer_forward] in Hl2.
  apply bind_inv in Hl2 as ([y bn'] & w4 & Hbn & Hr). injection Hbn as Hbn _.
  injection Hr as <- _ _.
  apply bn_forward_training in Hbn; [| done].
  intros Heq. apply (f_equal block) in Heq. rewrite Hb in Heq. simpl in Heq.
  injection Heq as _ Hbn' _. rewrite Hbn' in Hbn. lia.
Qed.

End TrainingMode.

(** ** Worked examples, over fixed-point scalars *)

Section Examples.
Import Toy.

(** Corner-aligned bilinear resizing of [[0 2] [4 6]] to 3x3: the corners
    stay, the new samples lie halfway. *)
Example interpolate_2x2_to_3x3 :
  interpolate grid (3, 3)
  = Ok {| shape := mkShape 1 1 3 3;
          data := scaled [[0; 1; 2]; [2; 3; 4]; [4; 5; 6]]%Z |}.
Proof. vm_compute. reflexivity. Qed.

Example interpolate_to_empty_raises :
  interpolate grid (0, 3)
  = Raise (RuntimeError "Input and output sizes should be greater than 0").
Proof. vm_compute. reflexivity. Qed.

(** A 3x3 convolution of ones with padding 1 sums the whole 2x2 plane. *)
Example conv3x3_of_ones :
  conv2d_forward {| conv_weight := tmk (mkShape 1 1 3 3) (fun _ _ _ _ => unit_scale);
                    conv_bias := None; conv_padding := 1 |} grid
  = Ok {| shape := mkShape 1 1 2 2; data := scaled [[12; 12]; [12; 12]]%Z |}.
Proof. vm_compute. reflexivity. Qed.

Example conv_wrong_channels_raises :
  conv2d_forward {| conv_weight := tmk (mkShape 1 3 1 1) (fun _ _ _ _ => unit_scale);
                    conv_bias := None; conv_padding := 0 |} grid
  = Raise (RuntimeError "Given weight, expected input to have a different number of channels").
Proof. vm_compute. reflexivity. Qed.

Example maxpool_2x2 :
  maxpool_forward {| pool_kernel := 2; pool_stride := 2 |} grid
  = Ok {| shape := mkShape 1 1 1 1; data := scaled [[6]]%Z |}.
Proof. vm_compute. reflexivity. Qed.

(** Broadcasting a 1x1x1x1 tensor, and shapes that do not go together. *)
Example tadd_broadcasts :
  tadd grid (tmk (mkShape 1 1 1 1) (fun _ _ _ _ => unit_scale))
  = Ok {| shape := mkShape 1 1 2 2; data := scaled [[1; 3]; [5; 7]]%Z |}.
Proof. vm_compute. reflexivity. Qed.

Example tadd_mismatch_raises :
  tadd grid (tmk (mkShape 1 1 3 2) (fun _ _ _ _ => unit_scale))
  = Raise (RuntimeError "The size of tensor a must match the size of tensor b").
Proof. vm_compute. reflexivity. Qed.

(** Batch normalisation in training mode refuses a single value per channel;
    in evaluation mode it takes it. *)
Example bn_training_single_value_raises :
  bn_forward (BatchNorm2d_init 1) (tmk (mkShape 1 1 1 1) (fun _ _ _ _ => unit_scale))
  = Raise (ValueError "Expected more than 1 value per channel when training").
Proof. vm_compute. reflexivity. Qed.

Example bn_training_counts_the_batch :
  match bn_forward (BatchNorm2d_init 1) grid with
  | Ok (_, b) => bn_num_batches_tracked b = 1
  | Raise _ => False
  end.
Proof. vm_compute. reflexivity. Qed.

(** The slices of the 31 layers of the VGG-16 layout end on its third, fourth
    and fifth max-pool. *)
Example vgg16_layout_cuts :
  length vgg16_layout = 31 /\
  last (slice_to 17 vgg16_layout) = Some pool2 /\
  last (slice 17 24 vgg16_layout) = Some pool2 /\
  last (slice_from 24 vgg16_layout) = Some pool2 /\
  length (slice 17 24 vgg16_layout) = 7 /\
  length (slice_from 24 vgg16_layout) = 7.
Proof. by split_and!. Qed.

Example acronym_of_ade20k : acronyms !! "ade20k" = Some "ade".
Proof. reflexivity. Qed.

End Examples.
